(** * psi_scraper.py: NEA PSI / PM2.5 scraper

    A shallow embedding of [src/psi_scraper.py] and the properties of its
    four core functions: [_get_nea_dict] (one day's page to an ordered
    mapping), [_to_datetime] (hour label to a corrected timestamp),
    [_download_df] (the loop over a date range) and [_save_csv_per_day]
    (one CSV file per day).

    Conventions of the embedding.
    - Python integers are [Z]; text is [string], one [ascii] per code point
      (code points below 256).
    - A raised exception is a value [Raise e] of [result]; [_download_df]
      runs in a small state-and-exception monad whose state holds the
      function's local variables together with what it prints and which
      pages it requests.
    - [OrderedDict] and [dict] keep insertion order: both are association
      lists with in-place update ([odict_set]).
    - The network is a function from the requested date to a response
      (each date is requested at most once in a run). *)

From Stdlib Require Import ZArith List String Ascii Bool Lia Sorted.
Import ListNotations.
Open Scope string_scope.
Open Scope list_scope.
Open Scope Z_scope.

(* ===================================================================== *)
(** ** Exceptions *)

Inductive exn : Type :=
| RequestException (msg : string)   (* requests.exceptions.RequestException *)
| AttributeError                    (* [None.findAll]: page without a table *)
| IndexError                        (* [items[index]] past the last cell *)
| ValueError                        (* strptime / datetime constructor *)
| IllegalMonthError                 (* calendar.monthrange *)
| OverflowError                     (* datetime + timedelta out of range *)
| KeyError.                         (* pandas label lookup *)

Inductive result (A : Type) : Type :=
| Ok (a : A)
| Raise (e : exn).
Arguments Ok {A} a.
Arguments Raise {A} e.

(* ===================================================================== *)
(** ** The calendar ([calendar], [datetime]) *)

Module Calendar.

Definition MINYEAR : Z := 1.
Definition MAXYEAR : Z := 9999.

(** [calendar.isleap] *)
Definition isleap (year : Z) : bool :=
  (year mod 4 =? 0) && (negb (year mod 100 =? 0) || (year mod 400 =? 0)).

(** [calendar.mdays], for months 1..12 *)
Definition mdays (month : Z) : Z :=
  match month with
  | 1 => 31 | 2 => 28 | 3 => 31 | 4 => 30 | 5 => 31 | 6 => 30
  | 7 => 31 | 8 => 31 | 9 => 30 | 10 => 31 | 11 => 30 | 12 => 31
  | _ => 0
  end.

(** Number of days of [calendar.monthrange(year, month)] (its second
    component), for a month in 1..12. *)
Definition num_days (year month : Z) : Z :=
  mdays month + (if (month =? 2) && isleap year then 1 else 0).

(** [calendar.monthrange]: an illegal month raises.  The year is not
    checked here: a year outside 1..9999 is refused by the [datetime]
    constructor of the first day the loop reaches. *)
Definition monthrange (year month : Z) : result Z :=
  if (1 <=? month) && (month <=? 12) then Ok (num_days year month)
  else Raise IllegalMonthError.

(** The dates that [datetime.datetime(year, month, day)] accepts. *)
Definition valid_date (year month day : Z) : bool :=
  (MINYEAR <=? year) && (year <=? MAXYEAR)
  && (1 <=? month) && (month <=? 12)
  && (1 <=? day) && (day <=? num_days year month).

(** [datetime._days_before_year] *)
Definition days_before_year (year : Z) : Z :=
  let y := year - 1 in y * 365 + y / 4 - y / 100 + y / 400.

(** [datetime._days_before_month] *)
Definition days_before_month (year month : Z) : Z :=
  match month with
  | 1 => 0 | 2 => 31 | 3 => 59 | 4 => 90 | 5 => 120 | 6 => 151
  | 7 => 181 | 8 => 212 | 9 => 243 | 10 => 273 | 11 => 304 | 12 => 334
  | _ => 0
  end + (if (2 <? month) && isleap year then 1 else 0).

(** [date.toordinal]: 0001-01-01 is day 1. *)
Definition ymd2ord (year month day : Z) : Z :=
  days_before_year year + days_before_month year month + day.

(** The day after (year, month, day): what adding [timedelta(days=1)]
    does to the date fields.  [None] past 9999-12-31, where Python raises
    OverflowError. *)
Definition next_day (year month day : Z) : option (Z * Z * Z) :=
  if day <? num_days year month then Some (year, month, day + 1)
  else if month <? 12 then Some (year, month + 1, 1)
  else if year <? MAXYEAR then Some (year + 1, 1, 1)
  else None.

(** The day before, used to read off the page a timestamp comes from. *)
Definition prev_day (y m d : Z) : Z * Z * Z :=
  if 1 <? d then (y, m, d - 1)
  else if 1 <? m then (y, m - 1, num_days y (m - 1))
  else (y - 1, 12, 31).

End Calendar.

(* ===================================================================== *)
(** ** datetime objects *)

(** A [datetime.datetime].  Every datetime the program builds has minute,
    second and microsecond 0: [datetime(y, m, d)], [strptime] with the
    format ['%Y-%m-%d %I%p %z'], [+ timedelta(days=1)] and
    [replace(hour=...)] never set them; so the record stops at the hour.
    [utcoffset] is the tzinfo in minutes, [None] for a naive datetime. *)
Record datetime : Type := mkdt {
  year : Z; month : Z; day : Z; hour : Z;
  utcoffset : option Z
}.

(** [datetime.datetime(year, month, day)]: naive, at midnight. *)
Definition datetime_ymd (y m d : Z) : result datetime :=
  if Calendar.valid_date y m d then Ok (mkdt y m d 0 None)
  else Raise ValueError.

(** [a < b] and [a <= b] on datetimes: Python compares the fields in order.
    The program only compares naive with naive and aware with aware of the
    same offset, where this is the whole comparison. *)
Definition dt_ltb (a b : datetime) : bool :=
  (year a <? year b) || ((year a =? year b) &&
  ((month a <? month b) || ((month a =? month b) &&
  ((day a <? day b) || ((day a =? day b) && (hour a <? hour b)))))).

Definition offset_eqb (a b : option Z) : bool :=
  match a, b with
  | Some x, Some y => x =? y
  | None, None => true
  | _, _ => false
  end.

(** [a == b] (and the hash used for dict keys): equal fields.  A naive and
    an aware datetime are never equal; two aware datetimes of different
    offsets do not occur. *)
Definition dt_eqb (a b : datetime) : bool :=
  (year a =? year b) && (month a =? month b) && (day a =? day b)
  && (hour a =? hour b) && offset_eqb (utcoffset a) (utcoffset b).

Definition dt_leb (a b : datetime) : bool := dt_ltb a b || dt_eqb a b.

(** [dt + datetime.timedelta(days=1)] *)
Definition plus_one_day (dt : datetime) : result datetime :=
  match Calendar.next_day (year dt) (month dt) (day dt) with
  | Some (y, m, d) => Ok (mkdt y m d (hour dt) (utcoffset dt))
  | None => Raise OverflowError
  end.

(** [dt.replace(hour=h)] *)
Definition replace_hour (dt : datetime) (h : Z) : datetime :=
  mkdt (year dt) (month dt) (day dt) h (utcoffset dt).

(** [dt.date()], as (year, month, day). *)
Definition date_of (dt : datetime) : Z * Z * Z := (year dt, month dt, day dt).

(* ===================================================================== *)
(** ** strptime with ['%Y-%m-%d %I%p %z'] *)

Module Strptime.

(** Whitespace as [\s] of a str pattern and [str.strip] see it, among the
    code points below 256. *)
Definition is_space (c : ascii) : bool :=
  let n := Z.of_N (N_of_ascii c) in
  ((9 <=? n) && (n <=? 13)) || ((28 <=? n) && (n <=? 32))
  || (n =? 133) || (n =? 160).

Fixpoint lstrip (s : string) : string :=
  match s with
  | String c r => if is_space c then lstrip r else s
  | EmptyString => EmptyString
  end.

Fixpoint all_space (s : string) : bool :=
  match s with
  | String c r => is_space c && all_space r
  | EmptyString => true
  end.

(** [s.rstrip()] *)
Fixpoint rstrip (s : string) : string :=
  match s with
  | String c r => if all_space s then EmptyString else String c (rstrip r)
  | EmptyString => EmptyString
  end.

(** [s.strip()] *)
Definition strip (s : string) : string := rstrip (lstrip s).

Definition digit_between (lo hi : Z) (c : ascii) : option Z :=
  let n := Z.of_N (N_of_ascii c) - 48 in
  if (lo <=? n) && (n <=? hi) then Some n else None.

(** The directive [%I], the regular expression [1[0-2]|0[1-9]|[1-9]]: every
    way it matches a prefix of [s], in the order the alternatives are
    tried, each with the hour read and the rest of the text. *)
Definition directive_I (s : string) : list (Z * string) :=
  match s with
  | String c1 r1 =>
      (match r1 with
       | String c2 r2 =>
           (if (c1 =? "1")%char then
              match digit_between 0 2 c2 with
              | Some n => [(10 + n, r2)] | None => []
              end
            else [])
           ++
           (if (c1 =? "0")%char then
              match digit_between 1 9 c2 with
              | Some n => [(n, r2)] | None => []
              end
            else [])
       | EmptyString => []
       end)
      ++
      (match digit_between 1 9 c1 with
       | Some n => [(n, r1)] | None => []
       end)
  | EmptyString => []
  end.

(** The directive [%p], the regular expression [am|pm] matched ignoring
    case: [Some true] for pm. *)
Definition directive_p (s : string) : option (bool * string) :=
  match s with
  | String c1 (String c2 r) =>
      if ((c2 =? "m") || (c2 =? "M"))%char then
        if ((c1 =? "a") || (c1 =? "A"))%char then Some (false, r)
        else if ((c1 =? "p") || (c1 =? "P"))%char then Some (true, r)
        else None
      else None
  | _ => None
  end.

(** The 24-hour value strptime computes from [%I] and [%p]. *)
Definition hour24 (h : Z) (pm : bool) : Z :=
  if pm then (if h =? 12 then 12 else h + 12)
  else (if h =? 12 then 0 else h).

(** First alternative of [%I] after which [%p] and then only whitespace
    follow. *)
Fixpoint first_match (alts : list (Z * string)) : option Z :=
  match alts with
  | [] => None
  | (h, r) :: rest =>
      match directive_p r with
      | Some (pm, r') =>
          if all_space r' then Some (hour24 h pm) else first_match rest
      | None => first_match rest
      end
  end.

(** The part of the match that depends on [hour_text] (in the C locale,
    where the names of [%p] are am and pm).  The text parsed is
    [date ++ " " ++ hour_text ++ " " ++ "+0800"] and the pattern after the
    date is [\s+ %I %p \s+ %z]: [%z] holds no whitespace, so it is the
    final ["+0800"], and [hour_text] is whitespace, [%I], [%p],
    whitespace. *)
Definition parse_I_p (hour_text : string) : option Z :=
  first_match (directive_I (lstrip hour_text)).

(** The offset [%z] reads from the default [timezone='+0800'], in
    minutes. *)
Definition default_utcoffset : Z := 8 * 60.

(** [datetime.strptime('{year}-{month}-{day} {hour_text} +0800',
    '%Y-%m-%d %I%p %z')].  [%Y] is four digits, so a year whose decimal
    form has another length does not match; a month or day outside the
    calendar either fails to match or fails the date construction; all of
    these are ValueError. *)
Definition strptime (y m d : Z) (hour_text : string) : result datetime :=
  if (1000 <=? y) && Calendar.valid_date y m d then
    match parse_I_p hour_text with
    | Some h => Ok (mkdt y m d h (Some default_utcoffset))
    | None => Raise ValueError
    end
  else Raise ValueError.

End Strptime.

(* ===================================================================== *)
(** ** [_to_datetime] *)

(** Lines 80-110.  Every call in the program leaves [timezone] at its
    default ['+0800'], which is what the embedding fixes. *)
Definition _to_datetime (year month day : Z) (hour_text : string)
  : result datetime :=
  match Strptime.strptime year month day hour_text with
  | Raise e => Raise e
  | Ok dt =>
      (* see docstring, we correct NEA *)
      if hour dt =? 0 then plus_one_day dt else Ok dt
  end.

(* ===================================================================== *)
(** ** Ordered dictionaries *)

Section ODict.
Context {K V : Type}.
Variable eqb : K -> K -> bool.

(** [d[k] = v]: an existing key keeps its position (and the key object
    first inserted), a new key goes last. *)
Fixpoint odict_set (k : K) (v : V) (d : list (K * V)) : list (K * V) :=
  match d with
  | [] => [(k, v)]
  | (k', v') :: r =>
      if eqb k k' then (k', v) :: r else (k', v') :: odict_set k v r
  end.

Fixpoint odict_get (k : K) (d : list (K * V)) : option V :=
  match d with
  | [] => None
  | (k', v') :: r => if eqb k k' then Some v' else odict_get k r
  end.

Definition odict_keys (d : list (K * V)) : list K := map fst d.
End ODict.

(** A reading row: column name to stripped cell text. *)
Definition row : Type := list (string * string).

Definition mem_string (s : string) (l : list string) : bool :=
  existsb (String.eqb s) l.

(* ===================================================================== *)
(** ** The page of one day *)

(** What [requests.get] and BeautifulSoup give for a URL: either the
    request raises, or there is a document, of which the program only
    looks at the first [table] (absent: [None]) and, in each of its [tr],
    at the text of the [td] cells. *)
Inductive response : Type :=
| RequestFails (msg : string)
| Document (table : option (list (list string))).

(** What the program prints. *)
Inductive event : Type :=
| Processing (year month : Z)                    (* "Processing {}-{}" *)
| ErrorFor (year month day : Z) (cause : string). (* "Error for {}-{}-{}: {}\n" *)

(** The local variables of [_download_df] and its effects on the world:
    the lines printed and the dates requested, oldest first. *)
Record state : Type := mkstate {
  result_odict : list (datetime * row);
  df_headers : list string;
  stdout : list event;
  requested : list (Z * Z * Z)
}.

Definition M (A : Type) : Type := state -> result A * state.

Definition ret {A} (a : A) : M A := fun st => (Ok a, st).

Definition bind {A B} (m : M A) (f : A -> M B) : M B :=
  fun st => match m st with
            | (Ok a, st') => f a st'
            | (Raise e, st') => (Raise e, st')
            end.

Definition lift {A} (r : result A) : M A := fun st => (r, st).

Notation "x <- m ;; k" := (bind m (fun x => k))
  (at level 61, m at next level, right associativity).
Notation "m ;;; k" := (bind m (fun _ => k))
  (at level 61, right associativity).

(** [for x in l: body(x)] *)
Fixpoint for_each {A} (l : list A) (body : A -> M unit) : M unit :=
  match l with
  | [] => ret tt
  | x :: r => body x ;;; for_each r body
  end.

(** [try: body  except requests.exceptions.RequestException as e: handler(str(e))] *)
Definition try_except (body : M unit) (handler : string -> M unit) : M unit :=
  fun st => match body st with
            | (Raise (RequestException msg), st') => handler msg st'
            | other => other
            end.

Definition print (e : event) : M unit :=
  fun st => (Ok tt, mkstate (result_odict st) (df_headers st)
                            (stdout st ++ [e]) (requested st)).

(** [range(lo, hi)] *)
Definition range (lo hi : Z) : list Z :=
  map (fun i => lo + Z.of_nat i) (seq 0 (Z.to_nat (hi - lo))).

Definition PSI_headers : list string :=
  ["PSI-North"; "PSI-South"; "PSI-East"; "PSI-West"; "PSI-Central";
   "PSI-Overall"].

Definition PM25_headers : list string :=
  ["PM2.5-North"; "PM2.5-South"; "PM2.5-East"; "PM2.5-West";
   "PM2.5-Central"; "PM2.5-Overall"].

Definition pm_subsume_date : datetime := mkdt 2014 4 1 0 None.

(** Lines 45-66: the column list for a date. *)
Definition select_headers (dt_ymd : datetime) : list string :=
  PSI_headers ++ (if dt_ltb dt_ymd pm_subsume_date then PM25_headers else []).

(** Lines 74-75: [for index, header in enumerate(headers, 1):
    result[hour][header] = items[index].text.strip()] *)
Fixpoint fill_row (items : list string) (index : nat) (headers : list string)
                  (r : row) : result row :=
  match headers with
  | [] => Ok r
  | header :: hs =>
      match nth_error items index with
      | None => Raise IndexError
      | Some cell =>
          fill_row items (S index) hs
                   (odict_set String.eqb header (Strptime.strip cell) r)
      end
  end.

(** Lines 69-75, over the rows after the two header rows. *)
Fixpoint parse_rows (rows : list (list string)) (headers : list string)
                    (res : list (string * row)) : result (list (string * row)) :=
  match rows with
  | [] => Ok res
  | items :: rest =>
      match nth_error items 0 with
      | None => Raise IndexError
      | Some hour_text =>
          match fill_row items 1 headers [] with
          | Raise e => Raise e
          | Ok r => parse_rows rest headers (odict_set String.eqb hour_text r res)
          end
      end
  end.

Section Scraper.

(** The site: the response to the GET of the URL for (year, month, day). *)
Variable requests_get : Z -> Z -> Z -> response.

(** The request of a day's page, noted in the state. *)
Definition record_request (date : Z * Z * Z) (st : state) : state :=
  mkstate (result_odict st) (df_headers st) (stdout st)
          (requested st ++ [date]).

Definition _get_nea_dict (dt_ymd : datetime)
  : M (list (string * row) * list string) :=
  fun st =>
    let st' := record_request (date_of dt_ymd) st in
    match requests_get (year dt_ymd) (month dt_ymd) (day dt_ymd) with
    | RequestFails msg => (Raise (RequestException msg), st')
    | Document None => (Raise AttributeError, st')
    | Document (Some rows) =>
        let headers := select_headers dt_ymd in
        match parse_rows (skipn 2 rows) headers [] with
        | Raise e => (Raise e, st')
        | Ok res => (Ok (res, headers), st')
        end
    end.

Definition set_df_headers (headers : list string) : M unit :=
  fun st => (Ok tt, mkstate (result_odict st) headers (stdout st) (requested st)).

Definition set_result (timestamp : datetime) (r : row) : M unit :=
  fun st => (Ok tt, mkstate (odict_set dt_eqb timestamp r (result_odict st))
                            (df_headers st) (stdout st) (requested st)).

Definition get_df_headers : M (list string) := fun st => (Ok (df_headers st), st).

(** Lines 167-169: the loop over the hours of a day. *)
Definition hour_loop (year month day : Z) (data : list (string * row))
  : M unit :=
  for_each data (fun kv =>
    timestamp <- lift (_to_datetime year month day (fst kv)) ;;
    set_result timestamp (snd kv)).

(** Lines 161-174: the body of the loop over days. *)
Definition day_body (year month day : Z) : M unit :=
  try_except
    (ymd <- lift (datetime_ymd year month day) ;;
     dh <- _get_nea_dict ymd ;;
     cur <- get_df_headers ;;
     (if (List.length cur <? List.length (snd dh))%nat then set_df_headers (snd dh)
      else ret tt) ;;;
     hour_loop year month day (fst dh))
    (fun msg => print (ErrorFor year month day msg)).

(** Lines 141-174: the body of the loop over months. *)
Definition month_body (year_start year_end month_start month_end day_start : Z)
    (day_end : option Z) (verbose : bool) (year month : Z) : M unit :=
  (if verbose then print (Processing year month) else ret tt) ;;;
  num_days <- lift (Calendar.monthrange year month) ;;
  let first_day :=
    if (year =? year_start) && (month =? month_start) then day_start else 1 in
  let last_day :=
    match day_end with
    | Some de => if (year =? year_end) && (month =? month_end) then de
                 else num_days
    | None => num_days
    end in
  for_each (range first_day (last_day + 1)) (day_body year month).

(** Lines 140-174: the three nested loops. *)
Definition download_loops (year_start year_end month_start month_end day_start : Z)
    (day_end : option Z) (verbose : bool) : M unit :=
  for_each (range year_start (year_end + 1)) (fun year =>
    for_each (range month_start (month_end + 1))
      (month_body year_start year_end month_start month_end day_start
                  day_end verbose year)).

End Scraper.

(** The initial state of a run: empty [result_odict] and [df_headers],
    nothing printed or requested yet. *)
Definition initial_state : state := mkstate [] [] [] [].

(* ===================================================================== *)
(** ** Data frames *)

(** A [pandas.DataFrame] with a datetime index: the column labels and, per
    index entry, one cell per column, [None] being the missing value NaN. *)
Record DataFrame : Type := mkdf {
  columns : list string;
  frame : list (datetime * list (option string))
}.

Definition index (df : DataFrame) : list datetime := map fst (frame df).

(** The union of the rows' keys, in order of first appearance. *)
Definition union_keys (d : list (datetime * row)) : list string :=
  fold_left
    (fun acc kv =>
       fold_left (fun acc' k => if mem_string k acc' then acc' else acc' ++ [k])
                 (odict_keys (snd kv)) acc)
    d [].

(** [pd.DataFrame.from_dict(d, orient='index')]: one index entry per key,
    in the order of the dict; a column per key that occurs in some row; a
    row without a column has NaN there. *)
Definition from_dict_index (d : list (datetime * row)) : DataFrame :=
  let cols := union_keys d in
  mkdf cols
       (map (fun kv => (fst kv, map (fun c => odict_get String.eqb c (snd kv)) cols)) d).

(** The cell of column [c] in a row of cells laid out along [cols]. *)
Fixpoint cell_of (cols : list string) (vals : list (option string))
                 (c : string) : option string :=
  match cols, vals with
  | c' :: cs, v :: vs => if String.eqb c c' then v else cell_of cs vs c
  | _, _ => None
  end.

(** [df[cols]] for a list of column labels: KeyError when one of them is
    not a column of [df]. *)
Definition getitem_columns (df : DataFrame) (cols : list string)
  : result DataFrame :=
  if forallb (fun c => mem_string c (columns df)) cols then
    Ok (mkdf cols
             (map (fun r => (fst r, map (cell_of (columns df) (snd r)) cols))
                  (frame df)))
  else Raise KeyError.

(** [df.sort_index()]: a new frame, sorted by index ascending (a stable
    insertion sort); [df] itself is left as it is. *)
Fixpoint insert_sorted (r : datetime * list (option string))
    (l : list (datetime * list (option string)))
  : list (datetime * list (option string)) :=
  match l with
  | [] => [r]
  | r' :: rest =>
      if dt_ltb (fst r) (fst r') then r :: l else r' :: insert_sorted r rest
  end.

Definition sort_index (df : DataFrame) : DataFrame :=
  mkdf (columns df) (fold_left (fun acc r => insert_sorted r acc) (frame df) []).

(** [df.index.min()] and [df.index.max()]; [None] for an empty index. *)
Definition index_min (df : DataFrame) : option datetime :=
  match index df with
  | [] => None
  | t :: ts => Some (fold_left (fun m x => if dt_ltb x m then x else m) ts t)
  end.

Definition index_max (df : DataFrame) : option datetime :=
  match index df with
  | [] => None
  | t :: ts => Some (fold_left (fun m x => if dt_ltb m x then x else m) ts t)
  end.

Fixpoint is_monotonic_increasing (idx : list datetime) : bool :=
  match idx with
  | a :: (b :: _) as r => dt_leb a b && is_monotonic_increasing r
  | _ => true
  end.

Fixpoint is_monotonic_decreasing (idx : list datetime) : bool :=
  match idx with
  | a :: (b :: _) as r => dt_leb b a && is_monotonic_decreasing r
  | _ => true
  end.

(** [Index.get_loc] on an index without duplicates. *)
Fixpoint get_loc (label : datetime) (idx : list datetime) : option nat :=
  match idx with
  | [] => None
  | t :: r => if dt_eqb label t then Some O
              else option_map S (get_loc label r)
  end.

Inductive side : Type := Left | Right.

(** [numpy.searchsorted] on an ascending array. *)
Definition searchsorted (idx : list datetime) (label : datetime) (s : side) : nat :=
  match s with
  | Left => List.length (filter (fun t => dt_ltb t label) idx)
  | Right => List.length (filter (fun t => dt_leb t label) idx)
  end.

(** [Index._searchsorted_monotonic] *)
Definition searchsorted_monotonic (idx : list datetime) (label : datetime)
    (s : side) : option nat :=
  if is_monotonic_increasing idx then Some (searchsorted idx label s)
  else if is_monotonic_decreasing idx then
    Some (List.length idx
          - searchsorted (rev idx) label
              (match s with Left => Right | Right => Left end))%nat
  else None.

(** [Index.get_slice_bound]: the position of the label when it is in the
    index; otherwise its insertion point when the index is monotonic, and
    KeyError when it is not. *)
Definition get_slice_bound (idx : list datetime) (label : datetime) (s : side)
  : result nat :=
  match get_loc label idx with
  | Some i => Ok (match s with Left => i | Right => S i end)
  | None =>
      match searchsorted_monotonic idx label s with
      | Some i => Ok i
      | None => Raise KeyError
      end
  end.

(** [df[start:stop]] with two timestamps: the rows from the left bound of
    [start] up to the right bound of [stop]. *)
Definition getitem_slice (df : DataFrame) (start stop : datetime)
  : result DataFrame :=
  match get_slice_bound (index df) start Left with
  | Raise e => Raise e
  | Ok i =>
      match get_slice_bound (index df) stop Right with
      | Raise e => Raise e
      | Ok j => Ok (mkdf (columns df) (firstn (j - i) (skipn i (frame df))))
      end
  end.

(* ===================================================================== *)
(** ** [_download_df] *)

Section Download.

Variable requests_get : Z -> Z -> Z -> response.

(** [datetime.datetime.now().year] *)
Variable today_year : Z.

(** Lines 137-138: [if year_end is None: year_end = today.year] *)
Definition year_end_or_today (year_end : option Z) : Z :=
  match year_end with None => today_year | Some y => y end.

Definition _download_df (year_start : Z) (year_end : option Z)
    (month_start month_end day_start : Z) (day_end : option Z)
    (verbose : bool) : M DataFrame :=
  let year_end := year_end_or_today year_end in
  download_loops requests_get year_start year_end month_start month_end
                 day_start day_end verbose ;;;
  (fun st =>
     (getitem_columns (from_dict_index (result_odict st)) (df_headers st), st)).

End Download.

(* ===================================================================== *)
(** ** [_save_csv_per_day] *)

(** A file written by [to_csv(file_name, index_label='Timestamp')]:
    [file_date] is the date in its name [<YYYY-MM-DD>.csv]. *)
Record csv_file : Type := mkcsv {
  file_date : Z * Z * Z;
  file_columns : list string;
  file_rows : list (datetime * list (option string))
}.

(** Lines 193-200.  [None]: out of fuel.  The files written so far stay
    on disk when an exception ends the loop. *)
Fixpoint per_day_loop (fuel : nat) (df : DataFrame)
    (curr_day last_day : datetime) (written : list csv_file)
  : option (result unit * list csv_file) :=
  match fuel with
  | O => None
  | S fuel' =>
      if dt_leb curr_day last_day then
        let curr := replace_hour curr_day 0 in
        let until := replace_hour curr_day 23 in
        match getitem_slice df curr until with
        | Raise e => Some (Raise e, written)
        | Ok part =>
            let written' :=
              written ++ [mkcsv (date_of curr) (columns part) (frame part)] in
            match plus_one_day curr_day with
            | Raise e => Some (Raise e, written')
            | Ok next => per_day_loop fuel' df next last_day written'
            end
        end
      else Some (Ok tt, written)
  end.

(** A count that grows with every calendar day, used to bound the number
    of iterations. *)
Definition day_rank (dt : datetime) : Z :=
  year dt * 372 + month dt * 31 + day dt.

(** [os.makedirs] only prepares the folder.  [df.sort_index()] is an
    expression statement: its value is dropped and [df] is the frame the
    rest of the function reads.  With an empty index the minimum and the
    maximum are NaT, [NaT <= NaT] is false and no file is written. *)
Definition _save_csv_per_day (df : DataFrame)
  : option (result unit * list csv_file) :=
  let _ := sort_index df in
  match index_min df, index_max df with
  | Some curr_day, Some last_day =>
      per_day_loop (S (Z.to_nat (day_rank last_day - day_rank curr_day + 1)))
                   df curr_day last_day []
  | _, _ => Some (Ok tt, [])
  end.


(* ===================================================================== *)
(** ** Vocabulary of the properties *)

(** The 12-hour labels that the format ['%I%p'] describes: an hour from 1
    to 12, with or without a leading zero, directly followed by am or pm in
    any case; strptime also accepts whitespace around the label, because
    the label sits between two spaces of the text it parses. *)
Definition clock_hours : list string :=
  ["1"; "2"; "3"; "4"; "5"; "6"; "7"; "8"; "9"; "10"; "11"; "12";
   "01"; "02"; "03"; "04"; "05"; "06"; "07"; "08"; "09"].

Definition am_pm : list string :=
  ["am"; "aM"; "Am"; "AM"; "pm"; "pM"; "Pm"; "PM"].

Definition hour12_format (hour_label : string) : Prop :=
  exists pre h ap post,
    hour_label = (pre ++ h ++ ap ++ post)%string
    /\ Strptime.all_space pre = true /\ In h clock_hours
    /\ In ap am_pm /\ Strptime.all_space post = true.

(** The offset of every timestamp [_to_datetime] builds: +08:00. *)
Definition sgt : option Z := Some 480.

(** The date of the page a corrected timestamp was read from: the day
    before for a timestamp at 00:00, which is a row labelled 12am. *)
Definition source_date (ts : datetime) : Z * Z * Z :=
  if hour ts =? 0 then Calendar.prev_day (year ts) (month ts) (day ts)
  else date_of ts.

(** *** The days of a run *)

(** The loops of [_download_df] unrolled: the progress lines and the days,
    in the order the loops reach them. *)
Inductive action : Type :=
| Say (year month : Z)
| Visit (year month day : Z).

Section Schedule.
Variables (year_start year_end month_start month_end day_start : Z).
Variable day_end : option Z.

Definition first_day_of (year month : Z) : Z :=
  if (year =? year_start) && (month =? month_start) then day_start else 1.

Definition last_day_of (year month : Z) : Z :=
  match day_end with
  | Some de => if (year =? year_end) && (month =? month_end) then de
               else Calendar.num_days year month
  | None => Calendar.num_days year month
  end.

Definition month_schedule (verbose : bool) (year month : Z) : list action :=
  (if verbose then [Say year month] else [])
  ++ map (Visit year month)
         (range (first_day_of year month) (last_day_of year month + 1)).

Definition schedule (verbose : bool) : list action :=
  flat_map (fun year =>
              flat_map (month_schedule verbose year)
                       (range month_start (month_end + 1)))
           (range year_start (year_end + 1)).
End Schedule.

(** The days among a list of actions. *)
Definition visits (acts : list action) : list (Z * Z * Z) :=
  flat_map (fun a => match a with
                     | Visit y m d => [(y, m, d)]
                     | Say _ _ => []
                     end) acts.

(** The days [_download_df] requests for a range, in order. *)
Definition visited (year_start year_end month_start month_end day_start : Z)
    (day_end : option Z) : list (Z * Z * Z) :=
  visits (schedule year_start year_end month_start month_end day_start
                   day_end false).

(** The error lines among what was printed. *)
Definition errors (out : list event) : list event :=
  filter (fun e => match e with ErrorFor _ _ _ _ => true | _ => false end) out.

Section Days.
Variable requests_get : Z -> Z -> Z -> response.

Definition run_action (a : action) : M unit :=
  match a with
  | Say y m => print (Processing y m)
  | Visit y m d => day_body requests_get y m d
  end.

(** The ordered mapping [_get_nea_dict] returns for a day, when the
    request and the parsing of the rows go through. *)
Definition day_data (date : Z * Z * Z) : option (list (string * row)) :=
  let '(y, m, d) := date in
  match requests_get y m d with
  | Document (Some rows) =>
      match parse_rows (skipn 2 rows) (select_headers (mkdt y m d 0 None)) [] with
      | Ok res => Some res
      | Raise _ => None
      end
  | _ => None
  end.

Definition label_parses (date : Z * Z * Z) (kv : string * row) : bool :=
  let '(y, m, d) := date in
  match _to_datetime y m d (fst kv) with Ok _ => true | Raise _ => false end.

(** A day that is fetched successfully: a valid date whose page has a
    table with at least one reading row after the two header rows, every
    row with a cell for the hour and for each column of the day's
    schema, and every hour label one that [_to_datetime] accepts. *)
Definition day_succeeds (date : Z * Z * Z) : bool :=
  let '(y, m, d) := date in
  Calendar.valid_date y m d
  && match day_data date with
     | Some data =>
         negb (Nat.eqb (List.length data) 0) && forallb (label_parses date) data
     | None => false
     end.

(** A day whose request raises a RequestException with text [msg]. *)
Definition fetch_fails (date : Z * Z * Z) (msg : string) : Prop :=
  let '(y, m, d) := date in
  Calendar.valid_date y m d = true /\ requests_get y m d = RequestFails msg.

(** Lines 167-169 for one day's mapping. *)
Definition insert_rows (date : Z * Z * Z) (data : list (string * row))
    (tbl : list (datetime * row)) : list (datetime * row) :=
  let '(y, m, d) := date in
  fold_left (fun t kv =>
               match _to_datetime y m d (fst kv) with
               | Ok ts => odict_set dt_eqb ts (snd kv) t
               | Raise _ => t
               end) data tbl.

(** The state after the body of the day loop, for a day that succeeds or
    whose request fails. *)
Definition after_day (date : Z * Z * Z) (st : state) : state :=
  let '(y, m, d) := date in
  match requests_get y m d with
  | RequestFails msg =>
      mkstate (result_odict st) (df_headers st)
              (stdout st ++ [ErrorFor y m d msg]) (requested st ++ [date])
  | Document _ =>
      match day_data date with
      | Some data =>
          let headers := select_headers (mkdt y m d 0 None) in
          mkstate (insert_rows date data (result_odict st))
                  (if (List.length (df_headers st) <? List.length headers)%nat
                   then headers else df_headers st)
                  (stdout st) (requested st ++ [date])
      | None => st
      end
  end.

Definition after_action (st : state) (a : action) : state :=
  match a with
  | Say y m => mkstate (result_odict st) (df_headers st)
                       (stdout st ++ [Processing y m]) (requested st)
  | Visit y m d => after_day (y, m, d) st
  end.
End Days.

Section Collected.
Variable requests_get : Z -> Z -> Z -> response.

(** A day the loop gets past: it succeeds, or its request fails and the
    handler reports it. *)
Definition day_recovers (date : Z * Z * Z) : Prop :=
  day_succeeds requests_get date = true
  \/ exists msg, fetch_fails requests_get date msg.

(** The error line a day leaves on the output. *)
Definition error_line (date : Z * Z * Z) : list event :=
  let '(y, m, d) := date in
  match requests_get y m d with
  | RequestFails msg => [ErrorFor y m d msg]
  | Document _ => []
  end.

(** [result_odict] after the given days, from what their pages hold. *)
Definition table_of (dates : list (Z * Z * Z)) (tbl : list (datetime * row))
  : list (datetime * row) :=
  fold_left (fun t date =>
               match day_data requests_get date with
               | Some data => insert_rows date data t
               | None => t
               end) dates tbl.

(** [df_headers] after the given days: the first longest column list. *)
Definition headers_of (dates : list (Z * Z * Z)) (hs : list string)
  : list string :=
  fold_left (fun h date =>
               let '(y, m, d) := date in
               match day_data requests_get date with
               | Some _ =>
                   let headers := select_headers (mkdt y m d 0 None) in
                   if (List.length h <? List.length headers)%nat
                   then headers else h
               | None => h
               end) dates hs.
End Collected.

(** The frame with columns [hs] over a table: each row's cell for a column
    is the row's value under that key, NaN when the row lacks the key. *)
Definition table_frame (hs : list string) (tbl : list (datetime * row))
  : DataFrame :=
  mkdf hs (map (fun kv => (fst kv, map (fun c => odict_get String.eqb c (snd kv)) hs))
               tbl).

(** [_to_datetime] at a date given as a triple. *)
Definition timestamp_of (date : Z * Z * Z) (hour_text : string)
  : result datetime :=
  _to_datetime (fst (fst date)) (snd (fst date)) (snd date) hour_text.

(** The column list of a date. *)
Definition headers_at (date : Z * Z * Z) : list string :=
  select_headers (mkdt (fst (fst date)) (snd (fst date)) (snd date) 0 None).

(** Strictly earlier calendar date. *)
Definition date_lt (a b : Z * Z * Z) : Prop :=
  let '(y1, m1, d1) := a in
  let '(y2, m2, d2) := b in
  y1 < y2 \/ (y1 = y2 /\ (m1 < m2 \/ (m1 = m2 /\ d1 < d2))).

(* ===================================================================== *)
(** ** Sample sites *)

Module Samples.

(** The hour labels of a page, in the order of the site: 1am to 11pm and
    then 12am, the reading of the following midnight. *)
Definition hour_labels : list string :=
  ["1am"; "2am"; "3am"; "4am"; "5am"; "6am"; "7am"; "8am"; "9am"; "10am";
   "11am"; "12pm"; "1pm"; "2pm"; "3pm"; "4pm"; "5pm"; "6pm"; "7pm"; "8pm";
   "9pm"; "10pm"; "11pm"; "12am"].

(** A page with the given labels and [width] readings per row; the two
    header rows have no [td] cell. *)
Definition page (labels : list string) (width : nat) : response :=
  Document (Some ([] :: [] :: map (fun l => l :: repeat " 55 " width) labels)).

Definition width_on (y m d : Z) : nat :=
  if dt_ltb (mkdt y m d 0 None) pm_subsume_date then 12%nat else 6%nat.

(** A site that answers every day with a full page of its schema. *)
Definition steady_site (y m d : Z) : response :=
  page hour_labels (width_on y m d).

Definition same_date (a : Z * Z * Z) (y m d : Z) : bool :=
  let '(y0, m0, d0) := a in (y0 =? y) && (m0 =? m) && (d0 =? d).

(** The same site, with the request of one day timing out. *)
Definition site_down_on (bad : Z * Z * Z) (y m d : Z) : response :=
  if same_date bad y m d then RequestFails "timed out" else steady_site y m d.

(** The same site, with one day's 3am row one cell short. *)
Definition site_short_on (bad : Z * Z * Z) (y m d : Z) : response :=
  if same_date bad y m d then
    Document (Some ([] :: [] ::
                    [ "1am" :: repeat "55" (width_on y m d);
                      "2am" :: repeat "55" (width_on y m d);
                      "3am" :: repeat "55" (width_on y m d - 1) ]))
  else steady_site y m d.

(** The same site, with one day's noon row labelled "noon". *)
Definition site_mislabelled_on (bad : Z * Z * Z) (y m d : Z) : response :=
  if same_date bad y m d then
    page ["11am"; "noon"; "1pm"] (width_on y m d)
  else steady_site y m d.

(** The table collected from the steady site for 2016-01-01 and
    2016-01-02. *)
Definition two_days : DataFrame :=
  match fst (_download_df steady_site 2016 2016 (Some 2016) 1 1 1 (Some 2)
                          false initial_state) with
  | Ok df => df
  | Raise _ => mkdf [] []
  end.

(** A table whose index is not in ascending order. *)
Definition shuffled : DataFrame :=
  mkdf ["PSI-Overall"]
       [ (mkdt 2016 1 2 1 sgt, [Some "61"]);
         (mkdt 2016 1 1 1 sgt, [Some "55"]);
         (mkdt 2016 1 3 1 sgt, [Some "58"]) ].

End Samples.


(* ===================================================================== *)
(** ** Further vocabulary *)

(** A text without whitespace at either end. *)
Definition trimmed (s : string) : Prop :=
  Strptime.lstrip s = s /\ Strptime.rstrip s = s.

(** The progress lines among what was printed. *)
Definition progress (out : list event) : list event :=
  filter (fun e => match e with Processing _ _ => true | _ => false end) out.

(** What an action of the schedule prints when the run gets past it. *)
Definition printed_by (requests_get : Z -> Z -> Z -> response) (a : action)
  : list event :=
  match a with
  | Say y m => [Processing y m]
  | Visit y m d => error_line requests_get (y, m, d)
  end.

(** The (year, month) pairs the two outer loops go through, in order. *)
Definition months_reached (year_start year_end month_start month_end : Z)
  : list (Z * Z) :=
  flat_map (fun y => map (fun m => (y, m)) (range month_start (month_end + 1)))
           (range year_start (year_end + 1)).

(** A timestamp as [_to_datetime] builds them: a valid date, a whole hour
    of the day, the offset +08:00. *)
Definition stamp_ok (ts : datetime) : Prop :=
  Calendar.valid_date (year ts) (month ts) (day ts) = true
  /\ 0 <= hour ts <= 23 /\ utcoffset ts = Some 480.

(** The keys of the table under construction: none twice, all well-formed
    timestamps. *)
Definition keys_ok (st : state) : Prop :=
  NoDup (odict_keys (result_odict st))
  /\ Forall stamp_ok (odict_keys (result_odict st)).

Section Fetched.
Variable requests_get : Z -> Z -> Z -> response.

(** A day whose page is read without an exception: a valid date, a table
    whose reading rows (there may be none) have enough cells, and hour
    labels that [_to_datetime] accepts. *)
Definition day_fetched (date : Z * Z * Z) : bool :=
  let '(y, m, d) := date in
  Calendar.valid_date y m d
  && match day_data requests_get date with
     | Some data => forallb (label_parses date) data
     | None => false
     end.

(** A day the loop gets past, reading rows or not. *)
Definition day_passes (date : Z * Z * Z) : Prop :=
  day_fetched date = true \/ exists msg, fetch_fails requests_get date msg.

End Fetched.

Module MoreSamples.

(** A site whose pages have the two header rows and no reading row. *)
Definition headers_only_site (y m d : Z) : response :=
  Document (Some [[]; []]).

(** The steady site, with one day's document lacking its table. *)
Definition site_without_table_on (bad : Z * Z * Z) (y m d : Z) : response :=
  if Samples.same_date bad y m d then Document None
  else Samples.steady_site y m d.

(** The steady site before 2014-04-01 answering with header rows only. *)
Definition site_empty_before_cutoff (y m d : Z) : response :=
  if dt_ltb (mkdt y m d 0 None) pm_subsume_date then Document (Some [[]; []])
  else Samples.steady_site y m d.

(** A site whose pages have the two header rows and no reading row, with
    the request of one day timing out. *)
Definition headers_only_site_down_on (bad : Z * Z * Z) (y m d : Z) : response :=
  if Samples.same_date bad y m d then RequestFails "timed out"
  else Document (Some [[]; []]).

(** The steady site, with one day's page having no reading row. *)
Definition site_without_rows_on (quiet : Z * Z * Z) (y m d : Z) : response :=
  if Samples.same_date quiet y m d then Document (Some [[]; []])
  else Samples.steady_site y m d.

End MoreSamples.

(** *** Vocabulary of the per-day export *)

Definition date_eqb (a b : Z * Z * Z) : bool :=
  let '(y1, m1, d1) := a in
  let '(y2, m2, d2) := b in
  (y1 =? y2) && (m1 =? m2) && (d1 =? d2).

(** The rows of a frame, by their timestamps, strictly ascending. *)
Definition ascending (df : DataFrame) : Prop :=
  StronglySorted (fun a b => dt_ltb a b = true) (index df).

(** The file of a date: the columns of the frame and, in the order of the
    frame, its rows whose timestamp lies on that date. *)
Definition day_file (df : DataFrame) (date : Z * Z * Z) : csv_file :=
  mkcsv date (columns df)
        (filter (fun r => date_eqb (date_of (fst r)) date) (frame df)).

(** Dates that follow one another day by day. *)
Fixpoint consecutive (dates : list (Z * Z * Z)) : Prop :=
  match dates with
  | a :: (b :: _) as rest =>
      Calendar.next_day (fst (fst a)) (snd (fst a)) (snd a) = Some b
      /\ consecutive rest
  | _ => True
  end.

(** A date of the calendar. *)
Definition date_valid (D : Z * Z * Z) : bool :=
  let '(y, m, d) := D in Calendar.valid_date y m d.

(** The timestamp of a date at an hour of the day, Singapore time. *)
Definition at_hour (D : Z * Z * Z) (h : Z) : datetime :=
  let '(y, m, d) := D in mkdt y m d h sgt.

(** The last date that a datetime can hold. *)
Definition max_date : Z * Z * Z := (9999, 12, 31).

(** Checkers for [ascending] and [stamp_ok]. *)
Fixpoint increasing (idx : list datetime) : bool :=
  match idx with
  | a :: (b :: _) as rest => dt_ltb a b && increasing rest
  | _ => true
  end.

Definition stamp_okb (ts : datetime) : bool :=
  Calendar.valid_date (year ts) (month ts) (day ts)
  && (0 <=? hour ts) && (hour ts <=? 23)
  && offset_eqb (utcoffset ts) sgt.

(** The years of the timestamps that pandas holds in a [DatetimeIndex] of
    nanosecond resolution, with room for one more day. *)
Definition timestamp_years (ts : datetime) : Prop := 1678 <= year ts <= 2261.

Definition timestamp_yearsb (ts : datetime) : bool :=
  (1678 <=? year ts) && (year ts <=? 2261).

(** *** Vocabulary of a download in the order of the clock *)

(** The timestamps of the rows of a day's mapping, in its order. *)
Definition stamps_of (date : Z * Z * Z) (data : list (string * row))
  : list datetime :=
  flat_map (fun kv => match timestamp_of date (fst kv) with
                      | Ok ts => [ts]
                      | Raise _ => []
                      end) data.

(** The timestamps a day contributes: those of its page, none when the
    day has no data. *)
Definition day_stamps (requests_get : Z -> Z -> Z -> response)
    (date : Z * Z * Z) : list datetime :=
  match day_data requests_get date with
  | Some data => stamps_of date data
  | None => []
  end.

(** A page that lists its hours in the order of the clock, the row
    labelled 12am last. *)
Definition in_clock_order (requests_get : Z -> Z -> Z -> response)
    (date : Z * Z * Z) : Prop :=
  StronglySorted (fun a b => dt_ltb a b = true) (day_stamps requests_get date).
(* ===================================================================== *)
(** * Properties *)

(** ** [_to_datetime] on examples *)

Example to_datetime_1am :
  _to_datetime 2016 1 1 "1am" = Ok (mkdt 2016 1 1 1 (Some 480)).
Proof. reflexivity. Qed.

Example to_datetime_12am :
  _to_datetime 2016 2 29 "12am" = Ok (mkdt 2016 3 1 0 (Some 480)).
Proof. reflexivity. Qed.

Example to_datetime_11pm_padded :
  _to_datetime 2015 12 31 " 11PM " = Ok (mkdt 2015 12 31 23 (Some 480)).
Proof. reflexivity. Qed.

Example to_datetime_13am :
  _to_datetime 2016 1 1 "13am" = Raise ValueError.
Proof. reflexivity. Qed.

(** ** The calendar *)

Module CalendarFacts.
Import Calendar.

Lemma valid_date_spec (y m d : Z) :
  valid_date y m d = true <->
  1 <= y <= 9999 /\ 1 <= m <= 12 /\ 1 <= d <= num_days y m.
Proof.
  unfold valid_date, MINYEAR, MAXYEAR.
  rewrite !andb_true_iff, !Z.leb_le. lia.
Qed.

Lemma num_days_bounds (y m : Z) : 1 <= m <= 12 -> 28 <= num_days y m <= 31.
Proof.
  intros Hm. unfold num_days.
  assert (m = 1 \/ m = 2 \/ m = 3 \/ m = 4 \/ m = 5 \/ m = 6 \/ m = 7 \/
          m = 8 \/ m = 9 \/ m = 10 \/ m = 11 \/ m = 12) as Hc by lia.
  destruct (isleap y);
    repeat (destruct Hc as [-> | Hc]; [simpl; lia|]); subst; simpl; lia.
Qed.

(** Moving to the next month skips exactly the days of this month. *)
Lemma days_before_next_month (y m : Z) :
  1 <= m < 12 ->
  days_before_month y (m + 1) = days_before_month y m + num_days y m.
Proof.
  intros Hm. unfold days_before_month, num_days.
  assert (m = 1 \/ m = 2 \/ m = 3 \/ m = 4 \/ m = 5 \/ m = 6 \/ m = 7 \/
          m = 8 \/ m = 9 \/ m = 10 \/ m = 11) as Hc by lia.
  destruct (isleap y);
    repeat (destruct Hc as [-> | Hc]; [simpl; lia|]); subst; simpl; lia.
Qed.

Lemma isleap_spec (y : Z) :
  isleap y = true <-> (y mod 4 = 0 /\ (y mod 100 <> 0 \/ y mod 400 = 0)).
Proof.
  unfold isleap.
  rewrite andb_true_iff, orb_true_iff, negb_true_iff, Z.eqb_neq, !Z.eqb_eq.
  tauto.
Qed.

(** A year is 365 days, or 366 when it is a leap year. *)
Lemma days_before_next_year (y : Z) :
  days_before_year (y + 1) =
  days_before_year y + 365 + (if isleap y then 1 else 0).
Proof.
  unfold days_before_year.
  replace (y + 1 - 1) with y by lia.
  destruct (isleap y) eqn:E.
  - apply isleap_spec in E.
    Z.div_mod_to_equations. lia.
  - assert (~ (y mod 4 = 0 /\ (y mod 100 <> 0 \/ y mod 400 = 0))) as H
      by (rewrite <- isleap_spec; congruence).
    Z.div_mod_to_equations. lia.
Qed.

(** [next_day] is the date whose ordinal is one more: it is what
    [date.fromordinal(d.toordinal() + 1)] returns. *)
Lemma next_day_ordinal (y m d y' m' d' : Z) :
  valid_date y m d = true ->
  next_day y m d = Some (y', m', d') ->
  ymd2ord y' m' d' = ymd2ord y m d + 1.
Proof.
  intros Hv Hn. apply valid_date_spec in Hv.
  unfold next_day in Hn.
  destruct (d <? num_days y m) eqn:E1.
  { inversion Hn; subst. unfold ymd2ord. lia. }
  apply Z.ltb_ge in E1.
  destruct (m <? 12) eqn:E2.
  { apply Z.ltb_lt in E2. inversion Hn; subst. unfold ymd2ord.
    rewrite days_before_next_month by lia. lia. }
  apply Z.ltb_ge in E2.
  destruct (y <? MAXYEAR) eqn:E3; [|discriminate].
  inversion Hn; subst. unfold ymd2ord.
  assert (m = 12) as -> by lia.
  rewrite days_before_next_year.
  unfold days_before_month, num_days in *. simpl in *.
  destruct (isleap y); simpl; lia.
Qed.

Lemma next_day_valid (y m d y' m' d' : Z) :
  valid_date y m d = true ->
  next_day y m d = Some (y', m', d') ->
  valid_date y' m' d' = true.
Proof.
  intros Hv Hn. apply valid_date_spec in Hv. apply valid_date_spec.
  unfold next_day, MAXYEAR in Hn.
  destruct (d <? num_days y m) eqn:E1.
  { apply Z.ltb_lt in E1. inversion Hn; subst. lia. }
  destruct (m <? 12) eqn:E2.
  { apply Z.ltb_lt in E2. inversion Hn; subst.
    pose proof (num_days_bounds y' (m + 1)). lia. }
  destruct (y <? 9999) eqn:E3; [|discriminate].
  apply Z.ltb_lt in E3. inversion Hn; subst.
  pose proof (num_days_bounds (y + 1) 1). lia.
Qed.

(** Only the last day of year 9999 has no next day. *)
Lemma next_day_none (y m d : Z) :
  valid_date y m d = true ->
  (next_day y m d = None <-> (y = 9999 /\ m = 12 /\ d = 31)).
Proof.
  intros Hv. apply valid_date_spec in Hv.
  unfold next_day, MAXYEAR.
  destruct (d <? num_days y m) eqn:E1.
  { apply Z.ltb_lt in E1. split; [discriminate|].
    intros (-> & -> & ->). vm_compute in E1. discriminate. }
  apply Z.ltb_ge in E1.
  destruct (m <? 12) eqn:E2.
  { apply Z.ltb_lt in E2. split; [discriminate|]. lia. }
  apply Z.ltb_ge in E2.
  destruct (y <? 9999) eqn:E3.
  { apply Z.ltb_lt in E3. split; [discriminate|]. lia. }
  apply Z.ltb_ge in E3.
  split; [intros _|reflexivity].
  assert (m = 12) as -> by lia.
  unfold num_days in *. simpl in *. lia.
Qed.

Lemma prev_next_day (y m d y' m' d' : Z) :
  valid_date y m d = true ->
  next_day y m d = Some (y', m', d') ->
  prev_day y' m' d' = (y, m, d).
Proof.
  intros Hv Hn. apply valid_date_spec in Hv.
  unfold next_day, MAXYEAR in Hn. unfold prev_day.
  destruct (d <? num_days y m) eqn:E1.
  { inversion Hn; subst.
    destruct (1 <? d + 1) eqn:E; [f_equal; f_equal; lia|].
    apply Z.ltb_ge in E. lia. }
  apply Z.ltb_ge in E1.
  destruct (m <? 12) eqn:E2.
  { apply Z.ltb_lt in E2. inversion Hn; subst. simpl.
    destruct (1 <? m + 1) eqn:E; [|apply Z.ltb_ge in E; lia].
    replace (m + 1 - 1) with m by lia.
    f_equal. lia. }
  apply Z.ltb_ge in E2.
  destruct (y <? 9999) eqn:E3; [|discriminate].
  inversion Hn; subst. simpl.
  assert (m = 12) as -> by lia.
  unfold num_days in *. simpl in *.
  f_equal; [f_equal|]; lia.
Qed.

End CalendarFacts.

(* ===================================================================== *)
(** ** strptime *)

Module StrptimeFacts.
Import Strptime.

Lemma lstrip_app (pre t : string) :
  all_space pre = true -> lstrip (pre ++ t)%string = lstrip t.
Proof.
  induction pre as [|c pre IH]; simpl; [reflexivity|].
  intros H. apply andb_true_iff in H as [Hc Hp].
  rewrite Hc. auto.
Qed.

Lemma lstrip_split (s : string) :
  exists pre, all_space pre = true /\ s = (pre ++ lstrip s)%string.
Proof.
  induction s as [|c s IH]; simpl.
  - exists EmptyString. split; reflexivity.
  - destruct (is_space c) eqn:E.
    + destruct IH as (pre & Hp & Hs).
      exists (String c pre). simpl. rewrite E, Hp. split; [reflexivity|].
      f_equal. exact Hs.
    + exists EmptyString. split; reflexivity.
Qed.

Lemma digit_between_inv (lo hi : Z) (c : ascii) (n : Z) :
  0 <= lo -> digit_between lo hi c = Some n ->
  lo <= n <= hi /\ c = ascii_of_N (Z.to_N (n + 48)).
Proof.
  unfold digit_between. intros Hlo H.
  destruct ((lo <=? Z.of_N (N_of_ascii c) - 48)
            && (Z.of_N (N_of_ascii c) - 48 <=? hi)) eqn:E; [|discriminate].
  inversion H; subst; clear H.
  apply andb_true_iff in E as [E1 E2].
  apply Z.leb_le in E1. apply Z.leb_le in E2.
  split; [lia|].
  replace (Z.of_N (N_of_ascii c) - 48 + 48) with (Z.of_N (N_of_ascii c)) by lia.
  rewrite N2Z.id, ascii_N_embedding. reflexivity.
Qed.

(** Every alternative of [%I] reads one of the hour tokens. *)
Lemma directive_I_sound (t : string) (h : Z) (r : string) :
  In (h, r) (directive_I t) ->
  exists tok, In tok clock_hours /\ t = (tok ++ r)%string /\ 1 <= h <= 12.
Proof.
  destruct t as [|c1 r1]; simpl; [tauto|].
  intros H. apply in_app_or in H as [H|H].
  - destruct r1 as [|c2 r2]; [destruct H|].
    apply in_app_or in H as [H|H].
    + destruct (Ascii.eqb_spec c1 "1"); [subst|destruct H].
      destruct (digit_between 0 2 c2) as [n|] eqn:E; [|destruct H].
      destruct H as [H|[]]. injection H as <- <-.
      apply digit_between_inv in E as [Hn ->]; [|lia].
      assert (n = 0 \/ n = 1 \/ n = 2) as [-> | [-> | ->]] by lia.
      * exists "10". simpl. intuition lia.
      * exists "11". simpl. intuition lia.
      * exists "12". simpl. intuition lia.
    + destruct (Ascii.eqb_spec c1 "0"); [subst|destruct H].
      destruct (digit_between 1 9 c2) as [n|] eqn:E; [|destruct H].
      destruct H as [H|[]]. injection H as <- <-.
      apply digit_between_inv in E as [Hn ->]; [|lia].
      assert (n = 1 \/ n = 2 \/ n = 3 \/ n = 4 \/ n = 5 \/ n = 6 \/ n = 7
              \/ n = 8 \/ n = 9) as Hc by lia.
      exists (String "0" (String (ascii_of_N (Z.to_N (n + 48))) EmptyString)).
      split; [|split; [reflexivity|lia]].
      repeat (destruct Hc as [-> | Hc]; [simpl; tauto|]).
      subst. simpl. tauto.
  - destruct (digit_between 1 9 c1) as [n|] eqn:E; [|destruct H].
    destruct H as [H|[]]. injection H as <- <-.
    apply digit_between_inv in E as [Hn ->]; [|lia].
    assert (n = 1 \/ n = 2 \/ n = 3 \/ n = 4 \/ n = 5 \/ n = 6 \/ n = 7
            \/ n = 8 \/ n = 9) as Hc by lia.
    exists (String (ascii_of_N (Z.to_N (n + 48))) EmptyString).
    split; [|split; [reflexivity|lia]].
    repeat (destruct Hc as [-> | Hc]; [simpl; tauto|]).
    subst. simpl. tauto.
Qed.

Lemma directive_p_sound (r r' : string) (pm : bool) :
  directive_p r = Some (pm, r') ->
  exists ap, In ap am_pm /\ r = (ap ++ r')%string.
Proof.
  destruct r as [|c1 [|c2 r2]]; simpl; try discriminate.
  destruct (Ascii.eqb_spec c2 "m"); [subst; simpl|].
  - destruct (Ascii.eqb_spec c1 "a"); [subst; simpl|].
    { intros H; inversion H; subst. exists "am". simpl. tauto. }
    destruct (Ascii.eqb_spec c1 "A"); [subst; simpl|].
    { intros H; inversion H; subst. exists "Am". simpl. tauto. }
    simpl.
    destruct (Ascii.eqb_spec c1 "p"); [subst; simpl|].
    { intros H; inversion H; subst. exists "pm". simpl. tauto. }
    destruct (Ascii.eqb_spec c1 "P"); [subst; simpl|discriminate].
    intros H; inversion H; subst. exists "Pm". simpl. tauto.
  - destruct (Ascii.eqb_spec c2 "M"); [subst; simpl|discriminate].
    destruct (Ascii.eqb_spec c1 "a"); [subst; simpl|].
    { intros H; inversion H; subst. exists "aM". simpl. tauto. }
    destruct (Ascii.eqb_spec c1 "A"); [subst; simpl|].
    { intros H; inversion H; subst. exists "AM". simpl. tauto. }
    simpl.
    destruct (Ascii.eqb_spec c1 "p"); [subst; simpl|].
    { intros H; inversion H; subst. exists "pM". simpl. tauto. }
    destruct (Ascii.eqb_spec c1 "P"); [subst; simpl|discriminate].
    intros H; inversion H; subst. exists "PM". simpl. tauto.
Qed.

Lemma first_match_sound (alts : list (Z * string)) (v : Z) :
  first_match alts = Some v ->
  exists h r pm r', In (h, r) alts /\ directive_p r = Some (pm, r')
                    /\ all_space r' = true /\ v = hour24 h pm.
Proof.
  induction alts as [|[h r] rest IH]; simpl; [discriminate|].
  destruct (directive_p r) as [[pm r']|] eqn:E.
  - destruct (all_space r') eqn:E'.
    + intros H; inversion H; subst. exists h, r, pm, r'. tauto.
    + intros H. destruct (IH H) as (h0 & r0 & pm0 & r0' & ? & ?).
      exists h0, r0, pm0, r0'. tauto.
  - intros H. destruct (IH H) as (h0 & r0 & pm0 & r0' & ? & ?).
    exists h0, r0, pm0, r0'. tauto.
Qed.

Lemma string_app_assoc (a b c : string) :
  ((a ++ b) ++ c = a ++ b ++ c)%string.
Proof. induction a; simpl; [reflexivity|f_equal; assumption]. Qed.

(** A label that parses is in the 12-hour format, and its value is an hour
    of the day. *)
Lemma parse_I_p_sound (s : string) (v : Z) :
  parse_I_p s = Some v -> hour12_format s /\ 0 <= v <= 23.
Proof.
  unfold parse_I_p. intros H.
  apply first_match_sound in H as (h & r & pm & r' & Hin & Hp & Hs & ->).
  apply directive_I_sound in Hin as (tok & Htok & Ht & Hh).
  apply directive_p_sound in Hp as (ap & Hap & Hr).
  destruct (lstrip_split s) as (pre & Hpre & Hsplit).
  split.
  - exists pre, tok, ap, r'. subst r. rewrite Ht in Hsplit. tauto.
  - unfold hour24. destruct pm; destruct (h =? 12) eqn:E; lia.
Qed.

(** A label in the 12-hour format parses. *)
Lemma parse_I_p_complete (s : string) :
  hour12_format s -> exists v, parse_I_p s = Some v.
Proof.
  intros (pre & h & ap & post & -> & Hpre & Hh & Hap & Hpost).
  unfold parse_I_p. rewrite lstrip_app by assumption.
  simpl in Hh, Hap.
  repeat (destruct Hh as [<- | Hh]);
    try (destruct Hh);
    repeat (destruct Hap as [<- | Hap]);
    try (destruct Hap);
    cbn; rewrite Hpost; eexists; reflexivity.
Qed.

Lemma parse_I_p_format (s : string) :
  parse_I_p s = None <-> ~ hour12_format s.
Proof.
  split.
  - intros H Hf. apply parse_I_p_complete in Hf as [v Hv]. congruence.
  - intros H. destruct (parse_I_p s) eqn:E; [|reflexivity].
    apply parse_I_p_sound in E. tauto.
Qed.

End StrptimeFacts.

(* ===================================================================== *)
(** ** [_to_datetime] *)

Section ToDatetime.
Import Calendar.

Variables y m d : Z.
Hypothesis Hvalid : valid_date y m d = true.
Hypothesis Hyear : 1000 <= y.

Lemma strptime_parsed (hour_text : string) (h : Z) :
  Strptime.parse_I_p hour_text = Some h ->
  Strptime.strptime y m d hour_text = Ok (mkdt y m d h sgt).
Proof.
  intros Hp. unfold Strptime.strptime.
  rewrite Hvalid, Hp. apply Z.leb_le in Hyear. rewrite Hyear. reflexivity.
Qed.

Lemma strptime_unparsed (hour_text : string) :
  Strptime.parse_I_p hour_text = None ->
  Strptime.strptime y m d hour_text = Raise ValueError.
Proof.
  intros Hp. unfold Strptime.strptime.
  rewrite Hp. destruct ((1000 <=? y) && valid_date y m d); reflexivity.
Qed.

(** What [_to_datetime] does with a label that reads as hour [h]. *)
Lemma to_datetime_parsed (hour_text : string) (h : Z) :
  Strptime.parse_I_p hour_text = Some h ->
  _to_datetime y m d hour_text =
  if h =? 0 then plus_one_day (mkdt y m d 0 sgt) else Ok (mkdt y m d h sgt).
Proof.
  intros Hp. unfold _to_datetime. rewrite (strptime_parsed _ _ Hp). simpl.
  destruct (h =? 0) eqn:E; [|reflexivity].
  apply Z.eqb_eq in E. subst. reflexivity.
Qed.

Lemma to_datetime_unparsed (hour_text : string) :
  Strptime.parse_I_p hour_text = None ->
  _to_datetime y m d hour_text = Raise ValueError.
Proof.
  intros Hp. unfold _to_datetime. rewrite (strptime_unparsed _ Hp). reflexivity.
Qed.

(** The only exceptions of [_to_datetime] on a date it accepts: ValueError
    for a label outside the format and OverflowError for a 12am label on
    the last representable day. *)
Lemma to_datetime_cases (hour_text : string) :
  (exists ts, _to_datetime y m d hour_text = Ok ts)
  \/ (_to_datetime y m d hour_text = Raise ValueError
      /\ Strptime.parse_I_p hour_text = None)
  \/ (_to_datetime y m d hour_text = Raise OverflowError
      /\ next_day y m d = None).
Proof.
  destruct (Strptime.parse_I_p hour_text) as [h|] eqn:Hp.
  - rewrite (to_datetime_parsed _ _ Hp).
    destruct (h =? 0); [|left; eexists; reflexivity].
    unfold plus_one_day. simpl.
    destruct (next_day y m d) as [[[y' m'] d']|]; [left; eexists; reflexivity|].
    right; right. tauto.
  - right; left. split; [apply to_datetime_unparsed; assumption|reflexivity].
Qed.

End ToDatetime.

(** A timestamp tells which day's page it was read from. *)
Lemma to_datetime_source (y m d : Z) (hour_text : string) (ts : datetime) :
  _to_datetime y m d hour_text = Ok ts ->
  source_date ts = (y, m, d) /\ utcoffset ts = sgt
  /\ Calendar.valid_date y m d = true.
Proof.
  unfold _to_datetime, Strptime.strptime.
  destruct ((1000 <=? y) && Calendar.valid_date y m d) eqn:E; [|discriminate].
  apply andb_true_iff in E as [Hy Hv].
  destruct (Strptime.parse_I_p hour_text) as [h|] eqn:Hp; [|discriminate].
  simpl. destruct (h =? 0) eqn:Eh.
  - unfold plus_one_day. simpl.
    destruct (Calendar.next_day y m d) as [[[y' m'] d']|] eqn:En; [|discriminate].
    intros H. injection H as <-. unfold source_date. simpl.
    rewrite Eh.
    split; [|split; [reflexivity|assumption]].
    exact (CalendarFacts.prev_next_day _ _ _ _ _ _ Hv En).
  - intros H. injection H as <-. unfold source_date. simpl. rewrite Eh.
    split; [reflexivity|split; [reflexivity|assumption]].
Qed.

(** C4 (as amended): for every valid calendar date with a four-digit year,
    [_to_datetime] turns "1am" into 01:00 +08:00 on that same day; unless
    the date is 9999-12-31, it turns "12am" into 00:00 +08:00 on the next
    calendar day (the valid date whose ordinal is one more); and for any
    label the date is shifted to the next day exactly when the hour read
    is 0. *)
Theorem to_datetime_midnight_shift (y m d : Z) :
  Calendar.valid_date y m d = true -> 1000 <= y ->
  _to_datetime y m d "1am" = Ok (mkdt y m d 1 sgt)
  /\ ((y, m, d) <> (9999, 12, 31) ->
      exists y' m' d',
        _to_datetime y m d "12am" = Ok (mkdt y' m' d' 0 sgt)
        /\ Calendar.valid_date y' m' d' = true
        /\ Calendar.ymd2ord y' m' d' = Calendar.ymd2ord y m d + 1)
  /\ (forall hour_text ts,
        _to_datetime y m d hour_text = Ok ts ->
        (hour ts = 0 -> Calendar.next_day y m d = Some (date_of ts))
        /\ (hour ts <> 0 -> date_of ts = (y, m, d))).
Proof.
  intros Hv Hy. split; [|split].
  - rewrite (to_datetime_parsed y m d Hv Hy "1am" 1); reflexivity.
  - intros Hlast.
    rewrite (to_datetime_parsed y m d Hv Hy "12am" 0) by reflexivity.
    simpl. unfold plus_one_day. simpl.
    destruct (Calendar.next_day y m d) as [[[y' m'] d']|] eqn:En.
    + exists y', m', d'. split; [reflexivity|]. split.
      * exact (CalendarFacts.next_day_valid _ _ _ _ _ _ Hv En).
      * exact (CalendarFacts.next_day_ordinal _ _ _ _ _ _ Hv En).
    + apply (CalendarFacts.next_day_none _ _ _ Hv) in En.
      destruct En as (-> & -> & ->). congruence.
  - intros hour_text ts Hts.
    destruct (Strptime.parse_I_p hour_text) as [h|] eqn:Hp.
    + rewrite (to_datetime_parsed y m d Hv Hy _ _ Hp) in Hts.
      destruct (h =? 0) eqn:Eh.
      * unfold plus_one_day in Hts. simpl in Hts.
        destruct (Calendar.next_day y m d) as [[[y' m'] d']|]; [|discriminate].
        injection Hts as <-. simpl. split; [reflexivity|congruence].
      * injection Hts as <-. simpl. apply Z.eqb_neq in Eh.
        split; [congruence|reflexivity].
    + rewrite (to_datetime_unparsed y m d _ Hp) in Hts. discriminate.
Qed.

Lemma to_datetime_midnight_shift_witness :
  Calendar.valid_date 2016 2 29 = true /\ 1000 <= 2016
  /\ _to_datetime 2016 2 29 "1am" = Ok (mkdt 2016 2 29 1 sgt).
Proof.
  split; [reflexivity|]. split; [lia|].
  exact (proj1 (to_datetime_midnight_shift 2016 2 29 eq_refl ltac:(lia))).
Defined.

(** C4 as stated fails on the last day [datetime] can represent: there is
    no next day, and the 12am label raises OverflowError. *)
Lemma to_datetime_12am_on_max_date :
  Calendar.valid_date 9999 12 31 = true
  /\ _to_datetime 9999 12 31 "12am" = Raise OverflowError
  /\ ~ (exists ts, _to_datetime 9999 12 31 "12am" = Ok ts).
Proof.
  split; [reflexivity|]. split; [reflexivity|].
  intros [ts H]. vm_compute in H. discriminate.
Qed.

(** A year of fewer than four digits does not match [%Y]. *)
Lemma to_datetime_three_digit_year :
  Calendar.valid_date 999 1 1 = true
  /\ _to_datetime 999 1 1 "12am" = Raise ValueError
  /\ _to_datetime 999 1 1 "1am" = Raise ValueError.
Proof. repeat split. Qed.

(** C10 (as amended): for every valid calendar date with a four-digit
    year, [_to_datetime] turns "12pm" into 12:00 +08:00 on that same day;
    more generally a label that reads as an hour other than 0 keeps the
    date. *)
Theorem to_datetime_noon (y m d : Z) :
  Calendar.valid_date y m d = true -> 1000 <= y ->
  _to_datetime y m d "12pm" = Ok (mkdt y m d 12 sgt)
  /\ (forall hour_text h,
        Strptime.parse_I_p hour_text = Some h -> h <> 0 ->
        _to_datetime y m d hour_text = Ok (mkdt y m d h sgt)).
Proof.
  intros Hv Hy. split.
  - rewrite (to_datetime_parsed y m d Hv Hy "12pm" 12); reflexivity.
  - intros hour_text h Hp Hh.
    rewrite (to_datetime_parsed y m d Hv Hy _ _ Hp).
    apply Z.eqb_neq in Hh. rewrite Hh. reflexivity.
Qed.

Lemma to_datetime_noon_witness :
  Calendar.valid_date 9999 12 31 = true /\ 1000 <= 9999
  /\ _to_datetime 9999 12 31 "12pm" = Ok (mkdt 9999 12 31 12 sgt).
Proof.
  split; [reflexivity|]. split; [lia|].
  exact (proj1 (to_datetime_noon 9999 12 31 eq_refl ltac:(lia))).
Defined.

(** C10 as stated fails for a valid date whose year has fewer than four
    digits: the text built from it does not match [%Y]. *)
Lemma noon_label_in_year_999 :
  Calendar.valid_date 999 1 1 = true
  /\ _to_datetime 999 1 1 "12pm" = Raise ValueError.
Proof. split; reflexivity. Qed.

(* ===================================================================== *)
(** ** The loops of [_download_df] *)

Lemma for_each_app {A} (l1 l2 : list A) (body : A -> M unit) (st : state) :
  for_each (l1 ++ l2) body st = (for_each l1 body ;;; for_each l2 body) st.
Proof.
  revert st. induction l1 as [|x l1 IH]; intros st; simpl.
  - reflexivity.
  - unfold bind in *. destruct (body x st) as [[[]|e] st']; [|reflexivity].
    apply IH.
Qed.

Lemma for_each_map {A B} (f : A -> B) (l : list A) (body : B -> M unit)
    (st : state) :
  for_each (map f l) body st = for_each l (fun x => body (f x)) st.
Proof.
  revert st. induction l as [|x l IH]; intros st; simpl; [reflexivity|].
  unfold bind. destruct (body (f x) st) as [[[]|e] st']; [apply IH|reflexivity].
Qed.

Lemma for_each_flat_map {A B} (f : A -> list B) (l : list A)
    (body : B -> M unit) (st : state) :
  for_each (flat_map f l) body st
  = for_each l (fun x => for_each (f x) body) st.
Proof.
  revert st. induction l as [|x l IH]; intros st; simpl; [reflexivity|].
  rewrite for_each_app. unfold bind.
  destruct (for_each (f x) body st) as [[[]|e] st']; [apply IH|reflexivity].
Qed.

Lemma for_each_ext {A} (l : list A) (f g : A -> M unit) (st : state) :
  (forall x st', In x l -> f x st' = g x st') ->
  for_each l f st = for_each l g st.
Proof.
  revert st. induction l as [|x l IH]; intros st H; simpl; [reflexivity|].
  unfold bind. rewrite (H x st) by (left; reflexivity).
  destruct (g x st) as [[[]|e] st']; [|reflexivity].
  apply IH. intros y st'' Hy. apply H. right. exact Hy.
Qed.

Lemma in_range (lo hi x : Z) : In x (range lo hi) <-> lo <= x < hi.
Proof.
  unfold range. rewrite in_map_iff. split.
  - intros (i & <- & Hi). apply in_seq in Hi. lia.
  - intros H. exists (Z.to_nat (x - lo)). split; [lia|].
    apply in_seq. lia.
Qed.

Section Loops.
Variable requests_get : Z -> Z -> Z -> response.
Variables (year_start year_end month_start month_end day_start : Z).
Variable day_end : option Z.
Variable verbose : bool.

(** With legal months, the nested loops run the schedule. *)
Lemma download_loops_schedule (st : state) :
  1 <= month_start -> month_end <= 12 ->
  download_loops requests_get year_start year_end month_start month_end
                 day_start day_end verbose st
  = for_each (schedule year_start year_end month_start month_end day_start
                       day_end verbose)
             (run_action requests_get) st.
Proof.
  intros Hlo Hhi. unfold download_loops, schedule.
  rewrite for_each_flat_map. apply for_each_ext. intros yr st1 _.
  rewrite for_each_flat_map. apply for_each_ext. intros mo st2 Hmo.
  apply in_range in Hmo.
  unfold month_body, month_schedule. rewrite for_each_app.
  unfold Calendar.monthrange.
  assert ((1 <=? mo) && (mo <=? 12) = true) as ->
    by (apply andb_true_iff; split; apply Z.leb_le; lia).
  unfold first_day_of, last_day_of.
  destruct verbose; simpl; unfold bind, lift, print, ret; simpl;
    rewrite for_each_map; reflexivity.
Qed.

End Loops.

(* ===================================================================== *)
(** ** One day *)

Lemma offset_eqb_eq (a b : option Z) : offset_eqb a b = true <-> a = b.
Proof.
  destruct a, b; simpl; try (split; [discriminate|congruence]).
  - rewrite Z.eqb_eq. split; congruence.
  - tauto.
Qed.

Lemma dt_eqb_eq (a b : datetime) : dt_eqb a b = true <-> a = b.
Proof.
  unfold dt_eqb. rewrite !andb_true_iff, !Z.eqb_eq, offset_eqb_eq.
  destruct a, b; simpl. split.
  - intros ((((-> & ->) & ->) & ->) & ->). reflexivity.
  - intros H. injection H as -> -> -> -> ->. tauto.
Qed.

Lemma dt_eqb_refl (a : datetime) : dt_eqb a a = true.
Proof. apply dt_eqb_eq. reflexivity. Qed.

Section OneDay.
Variable requests_get : Z -> Z -> Z -> response.
Variables y m d : Z.

Lemma hour_loop_ok (data : list (string * row)) (st : state) :
  forallb (label_parses (y, m, d)) data = true ->
  hour_loop y m d data st
  = (Ok tt, mkstate (insert_rows (y, m, d) data (result_odict st))
                    (df_headers st) (stdout st) (requested st)).
Proof.
  unfold hour_loop. revert st.
  induction data as [|kv data IH]; intros st H; simpl.
  - destruct st; reflexivity.
  - apply andb_true_iff in H as [Hkv H]. simpl in Hkv.
    unfold bind at 1. unfold bind at 1. unfold lift, set_result.
    destruct (_to_datetime y m d (fst kv)) as [ts|e]; [|discriminate].
    rewrite (IH _ H). reflexivity.
Qed.

(** A label outside the format ends the loop over the hours with
    ValueError, whatever precedes it. *)
Lemma hour_loop_value_error (data : list (string * row)) (st : state) :
  Calendar.valid_date y m d = true -> 1000 <= y ->
  Calendar.next_day y m d <> None ->
  (exists kv, In kv data /\ Strptime.parse_I_p (fst kv) = None) ->
  exists st', hour_loop y m d data st = (Raise ValueError, st')
              /\ stdout st' = stdout st /\ requested st' = requested st.
Proof.
  intros Hv Hy Hn. unfold hour_loop. revert st.
  induction data as [|kv data IH]; intros st (bad & Hin & Hbad).
  - destruct Hin.
  - simpl. unfold bind at 1. unfold bind at 1. unfold lift, set_result.
    destruct (to_datetime_cases y m d Hv Hy (fst kv))
      as [[ts Hts] | [[Hts _] | [_ Hlast]]]; [| |contradiction].
    + rewrite Hts.
      destruct Hin as [<- | Hin].
      { rewrite (to_datetime_unparsed y m d _ Hbad) in Hts. discriminate. }
      destruct (IH (mkstate (odict_set dt_eqb ts (snd kv) (result_odict st))
                            (df_headers st) (stdout st) (requested st))
                   (ex_intro _ bad (conj Hin Hbad)))
        as (st' & Hrun & Hout & Hreq).
      exists st'. tauto.
    + rewrite Hts. exists st. tauto.
Qed.

Lemma get_nea_dict_data (st : state) (data : list (string * row)) :
  day_data requests_get (y, m, d) = Some data ->
  _get_nea_dict requests_get (mkdt y m d 0 None) st
  = (Ok (data, select_headers (mkdt y m d 0 None)), record_request (y, m, d) st).
Proof.
  unfold day_data, _get_nea_dict, record_request, date_of.
  cbn [year month day].
  destruct (requests_get y m d) as [msg|[rows|]]; try discriminate.
  destruct (parse_rows (skipn 2 rows) (select_headers (mkdt y m d 0 None)) [])
    as [data'|e]; [|discriminate].
  intros H. injection H as ->. reflexivity.
Qed.

Lemma get_nea_dict_fails (st : state) (msg : string) :
  requests_get y m d = RequestFails msg ->
  _get_nea_dict requests_get (mkdt y m d 0 None) st
  = (Raise (RequestException msg), record_request (y, m, d) st).
Proof.
  unfold _get_nea_dict, record_request, date_of. cbn [year month day].
  intros ->. reflexivity.
Qed.

Lemma get_nea_dict_raises (st : state) (rows : list (list string)) (e : exn) :
  requests_get y m d = Document (Some rows) ->
  parse_rows (skipn 2 rows) (select_headers (mkdt y m d 0 None)) [] = Raise e ->
  _get_nea_dict requests_get (mkdt y m d 0 None) st = (Raise e, record_request (y, m, d) st).
Proof.
  unfold _get_nea_dict, record_request, date_of. cbn [year month day].
  intros -> ->. reflexivity.
Qed.

(** The body of the day loop, once the date is built. *)
Lemma day_body_unfold (st : state) :
  Calendar.valid_date y m d = true ->
  day_body requests_get y m d st
  = try_except
      (dh <- _get_nea_dict requests_get (mkdt y m d 0 None) ;;
       cur <- get_df_headers ;;
       (if (List.length cur <? List.length (snd dh))%nat
        then set_df_headers (snd dh) else ret tt) ;;;
       hour_loop y m d (fst dh))
      (fun msg => print (ErrorFor y m d msg)) st.
Proof.
  intros Hv. unfold day_body, try_except, bind at 1, lift, datetime_ymd.
  rewrite Hv. reflexivity.
Qed.

Lemma day_body_succeeds (st : state) :
  day_succeeds requests_get (y, m, d) = true ->
  day_body requests_get y m d st = (Ok tt, after_day requests_get (y, m, d) st).
Proof.
  unfold day_succeeds. intros H. apply andb_true_iff in H as [Hv H].
  destruct (day_data requests_get (y, m, d)) as [data|] eqn:Hdata;
    [|discriminate].
  apply andb_true_iff in H as [_ H].
  rewrite (day_body_unfold _ Hv). unfold try_except, bind.
  rewrite (get_nea_dict_data _ _ Hdata).
  unfold after_day. rewrite Hdata.
  assert (exists t, requests_get y m d = Document t) as [t ->].
  { unfold day_data in Hdata.
    destruct (requests_get y m d) as [msg|t]; [discriminate|eauto]. }
  unfold get_df_headers. cbn [fst snd record_request df_headers].
  destruct (List.length (df_headers st) <? List.length (select_headers (mkdt y m d 0 None)))%nat;
    unfold set_df_headers, ret; rewrite (hour_loop_ok _ _ H); reflexivity.
Qed.

Lemma day_body_fetch_fails (st : state) (msg : string) :
  fetch_fails requests_get (y, m, d) msg ->
  day_body requests_get y m d st = (Ok tt, after_day requests_get (y, m, d) st).
Proof.
  intros [Hv Hf]. rewrite (day_body_unfold _ Hv). unfold try_except, bind.
  rewrite (get_nea_dict_fails _ _ Hf). unfold after_day. rewrite Hf.
  reflexivity.
Qed.

(** A row with too few cells: IndexError leaves the day's [try]. *)
Lemma day_body_index_error (st : state) (rows : list (list string)) :
  Calendar.valid_date y m d = true ->
  requests_get y m d = Document (Some rows) ->
  parse_rows (skipn 2 rows) (select_headers (mkdt y m d 0 None)) [] = Raise IndexError ->
  day_body requests_get y m d st = (Raise IndexError, record_request (y, m, d) st).
Proof.
  intros Hv Hdoc Hrows. rewrite (day_body_unfold _ Hv).
  unfold try_except, bind.
  rewrite (get_nea_dict_raises _ _ _ Hdoc Hrows). reflexivity.
Qed.

(** A label outside the format: ValueError leaves the day's [try]. *)
Lemma day_body_value_error (st : state) (data : list (string * row)) :
  Calendar.valid_date y m d = true -> 1000 <= y ->
  Calendar.next_day y m d <> None ->
  day_data requests_get (y, m, d) = Some data ->
  (exists kv, In kv data /\ Strptime.parse_I_p (fst kv) = None) ->
  exists st', day_body requests_get y m d st = (Raise ValueError, st')
              /\ stdout st' = stdout st
              /\ requested st' = requested st ++ [(y, m, d)].
Proof.
  intros Hv Hy Hn Hdata Hbad. rewrite (day_body_unfold _ Hv).
  unfold try_except, bind.
  rewrite (get_nea_dict_data _ _ Hdata).
  unfold get_df_headers. cbn [fst snd record_request df_headers].
  destruct (List.length (df_headers st) <? List.length (select_headers (mkdt y m d 0 None)))%nat;
    unfold set_df_headers, ret;
    match goal with
    | |- context [hour_loop y m d data ?s] =>
        destruct (hour_loop_value_error data s Hv Hy Hn Hbad)
          as (st' & -> & Hout & Hreq)
    end;
    exists st'; simpl in *; tauto.
Qed.

End OneDay.

(* ===================================================================== *)
(** ** Ordered dictionaries and rows *)

Section ODictFacts.
Context {K V : Type}.
Variable eqb : K -> K -> bool.
Hypothesis eqb_eq : forall a b, eqb a b = true <-> a = b.

Lemma in_odict_set (k k' : K) (v v' : V) (d : list (K * V)) :
  In (k', v') (odict_set eqb k v d) ->
  (k' = k /\ v' = v) \/ In (k', v') d.
Proof.
  induction d as [|[k0 v0] d IH]; simpl.
  - intros [H|[]]. injection H as <- <-. tauto.
  - destruct (eqb k k0) eqn:E.
    + apply eqb_eq in E. subst k0.
      intros [H|H]; [injection H as <- <-|]; tauto.
    + intros [H|H]; [tauto|]. apply IH in H. tauto.
Qed.

Lemma odict_set_keeps (k k' : K) (v : V) (d : list (K * V)) :
  In k' (odict_keys d) -> In k' (odict_keys (odict_set eqb k v d)).
Proof.
  unfold odict_keys.
  induction d as [|[k0 v0] d IH]; simpl; [tauto|].
  destruct (eqb k k0); simpl; tauto.
Qed.

Lemma odict_set_has (k : K) (v : V) (d : list (K * V)) :
  In (k, v) (odict_set eqb k v d).
Proof.
  induction d as [|[k0 v0] d IH]; simpl; [tauto|].
  destruct (eqb k k0) eqn:E; simpl; [|tauto].
  apply eqb_eq in E. subst. tauto.
Qed.

Lemma keys_odict_set (k k' : K) (v : V) (d : list (K * V)) :
  In k' (odict_keys (odict_set eqb k v d)) <-> k' = k \/ In k' (odict_keys d).
Proof.
  split.
  - unfold odict_keys. rewrite !in_map_iff.
    intros ([k1 v1] & <- & H). apply in_odict_set in H as [[-> _]|H].
    + tauto.
    + right. exists (k1, v1). tauto.
  - intros [->|H]; [|apply odict_set_keeps; assumption].
    unfold odict_keys. apply in_map_iff. exists (k, v).
    split; [reflexivity|apply odict_set_has].
Qed.

Lemma odict_get_none (k : K) (d : list (K * V)) :
  odict_get eqb k d = None <-> ~ In k (odict_keys d).
Proof.
  unfold odict_keys. induction d as [|[k0 v0] d IH]; simpl; [tauto|].
  destruct (eqb k k0) eqn:E.
  - apply eqb_eq in E. subst. split; [discriminate|tauto].
  - assert (k0 <> k) by (intros ->; rewrite (proj2 (eqb_eq k k)) in E;
                         [discriminate|reflexivity]).
    tauto.
Qed.

Lemma in_keys_value (k : K) (d : list (K * V)) :
  In k (odict_keys d) -> exists v, In (k, v) d.
Proof.
  unfold odict_keys. rewrite in_map_iff.
  intros ([k0 v0] & <- & H). exists v0. exact H.
Qed.
End ODictFacts.

Lemma string_eqb_eq (a b : string) : String.eqb a b = true <-> a = b.
Proof. apply String.eqb_eq. Qed.

Lemma mem_string_in (s : string) (l : list string) :
  mem_string s l = true <-> In s l.
Proof.
  unfold mem_string. rewrite existsb_exists. split.
  - intros (x & Hx & E). apply String.eqb_eq in E. subst. exact Hx.
  - intros H. exists s. split; [exact H|apply String.eqb_refl].
Qed.

(** A row that [fill_row] completes has exactly the headers as new keys. *)
Lemma fill_row_keys (items : list string) (hs : list string) :
  forall (index : nat) (r0 r : row),
    fill_row items index hs r0 = Ok r ->
    forall c, In c (odict_keys r) <-> In c (odict_keys r0) \/ In c hs.
Proof.
  induction hs as [|h hs IH]; intros index r0 r; simpl.
  - intros H. injection H as <-. tauto.
  - destruct (nth_error items index) as [cell|]; [|discriminate].
    intros H c. rewrite (IH _ _ _ H c).
    rewrite (keys_odict_set String.eqb string_eqb_eq). intuition congruence.
Qed.

(** Every row of the mapping [parse_rows] builds carries exactly the
    headers as keys. *)
Lemma parse_rows_keys (hs : list string) (rows : list (list string)) :
  forall (res0 res : list (string * row)),
    parse_rows rows hs res0 = Ok res ->
    forall label r, In (label, r) res ->
      In (label, r) res0 \/ (forall c, In c (odict_keys r) <-> In c hs).
Proof.
  induction rows as [|items rows IH]; intros res0 res; simpl.
  - intros H. injection H as <-. tauto.
  - destruct items as [|hour_text cells]; [discriminate|].
    destruct (fill_row (hour_text :: cells) 1 hs []) as [r1|e] eqn:Hfill;
      [|discriminate].
    intros H label r Hin.
    destruct (IH _ _ H label r Hin) as [Hin0|Hkeys]; [|tauto].
    apply (in_odict_set String.eqb string_eqb_eq) in Hin0 as [[-> ->]|Hin0];
      [|tauto].
    right. intros c. rewrite (fill_row_keys _ _ _ _ _ Hfill c). simpl. tauto.
Qed.

Lemma day_data_keys (requests_get : Z -> Z -> Z -> response) (y m d : Z)
    (data : list (string * row)) (label : string) (r : row) :
  day_data requests_get (y, m, d) = Some data -> In (label, r) data ->
  forall c, In c (odict_keys r) <-> In c (select_headers (mkdt y m d 0 None)).
Proof.
  unfold day_data.
  destruct (requests_get y m d) as [msg|[rows|]]; try discriminate.
  destruct (parse_rows (skipn 2 rows) (select_headers (mkdt y m d 0 None)) [])
    as [res|e] eqn:E; [|discriminate].
  intros H Hin. injection H as <-.
  destruct (parse_rows_keys _ _ _ _ E label r Hin) as [[]|H]. exact H.
Qed.

(* ===================================================================== *)
(** ** A run over the schedule *)

Lemma visits_app (a b : list action) : visits (a ++ b) = visits a ++ visits b.
Proof. unfold visits. apply flat_map_app. Qed.

Lemma visits_flat_map {A} (f : A -> list action) (l : list A) :
  visits (flat_map f l) = flat_map (fun x => visits (f x)) l.
Proof.
  induction l as [|x l IH]; simpl; [reflexivity|].
  rewrite visits_app, IH. reflexivity.
Qed.

(** The days of the schedule do not depend on [verbose]. *)
Lemma visits_schedule (ys ye ms me ds : Z) (de : option Z) (verbose : bool) :
  visits (schedule ys ye ms me ds de verbose) = visited ys ye ms me ds de.
Proof.
  unfold visited, schedule. rewrite !visits_flat_map.
  apply flat_map_ext. intros yr. rewrite !visits_flat_map.
  apply flat_map_ext. intros mo. unfold month_schedule.
  destruct verbose; reflexivity.
Qed.

(** Splitting the actions at a day of the schedule. *)
Lemma visits_split (acts : list action) :
  forall before date after,
    visits acts = before ++ date :: after ->
    exists acts1 acts2,
      acts = acts1 ++ Visit (fst (fst date)) (snd (fst date)) (snd date) :: acts2
      /\ visits acts1 = before /\ visits acts2 = after.
Proof.
  induction acts as [|a acts IH]; intros before date after H.
  - destruct before; discriminate.
  - destruct a as [yr mo|yr mo dy].
    + destruct (IH _ _ _ H) as (a1 & a2 & -> & H1 & H2).
      exists (Say yr mo :: a1), a2. tauto.
    + simpl in H. destruct before as [|b before].
      * simpl in H. injection H as <- H. exists [], acts. simpl. tauto.
      * simpl in H. injection H as <- H.
        destruct (IH _ _ _ H) as (a1 & a2 & -> & H1 & H2).
        exists (Visit yr mo dy :: a1), a2. simpl. rewrite H1. tauto.
Qed.

Lemma errors_app (a b : list event) : errors (a ++ b) = errors a ++ errors b.
Proof. unfold errors. apply filter_app. Qed.

Section Run.
Variable requests_get : Z -> Z -> Z -> response.

Lemma run_actions_ok (acts : list action) (st : state) :
  Forall (day_recovers requests_get) (visits acts) ->
  for_each acts (run_action requests_get) st
  = (Ok tt, fold_left (after_action requests_get) acts st).
Proof.
  revert st. induction acts as [|a acts IH]; intros st H; [reflexivity|].
  simpl. unfold bind. destruct a as [yr mo|yr mo dy].
  - simpl in *. apply IH. exact H.
  - simpl in H. apply Forall_cons_iff in H as [Hd H].
    simpl.
    assert (day_body requests_get yr mo dy st
            = (Ok tt, after_day requests_get (yr, mo, dy) st)) as ->.
    { destruct Hd as [Hs|[msg Hf]].
      - apply day_body_succeeds. exact Hs.
      - apply day_body_fetch_fails with msg. exact Hf. }
    apply IH. exact H.
Qed.

(** An exception that leaves the body of a day ends the run there: the
    later days are not reached. *)
Lemma run_actions_abort (acts1 acts2 : list action) (yr mo dy : Z)
    (st st' : state) (e : exn) :
  Forall (day_recovers requests_get) (visits acts1) ->
  day_body requests_get yr mo dy
           (fold_left (after_action requests_get) acts1 st) = (Raise e, st') ->
  for_each (acts1 ++ Visit yr mo dy :: acts2) (run_action requests_get) st
  = (Raise e, st').
Proof.
  intros H1 Hd. rewrite for_each_app. unfold bind.
  rewrite (run_actions_ok _ _ H1). simpl. unfold bind. rewrite Hd. reflexivity.
Qed.

Lemma day_succeeds_document (date : Z * Z * Z) :
  day_succeeds requests_get date = true ->
  exists t data, requests_get (fst (fst date)) (snd (fst date)) (snd date)
                 = Document t
                 /\ day_data requests_get date = Some data.
Proof.
  destruct date as [[yr mo] dy]. unfold day_succeeds. cbv beta iota zeta.
  cbn [fst snd].
  intros H. apply andb_true_iff in H as [_ H].
  destruct (day_data requests_get (yr, mo, dy)) as [data|] eqn:E;
    [|discriminate].
  unfold day_data in E.
  destruct (requests_get yr mo dy) as [msg|t]; [discriminate|].
  exists t, data. tauto.
Qed.

Lemma fetch_fails_no_data (date : Z * Z * Z) (msg : string) :
  fetch_fails requests_get date msg -> day_data requests_get date = None.
Proof.
  destruct date as [[yr mo] dy]. intros [_ H]. unfold day_data.
  rewrite H. reflexivity.
Qed.

(** The state after a run in which every day recovers. *)
Lemma fold_after_action (acts : list action) (st : state) :
  Forall (day_recovers requests_get) (visits acts) ->
  let st' := fold_left (after_action requests_get) acts st in
  result_odict st' = table_of requests_get (visits acts) (result_odict st)
  /\ df_headers st' = headers_of requests_get (visits acts) (df_headers st)
  /\ requested st' = requested st ++ visits acts
  /\ errors (stdout st')
     = errors (stdout st) ++ flat_map (error_line requests_get) (visits acts).
Proof.
  revert st. induction acts as [|a acts IH]; intros st H; cbv zeta.
  - simpl. rewrite !app_nil_r. tauto.
  - destruct a as [yr mo|yr mo dy].
    + simpl in H.
      destruct (IH (after_action requests_get st (Say yr mo)) H)
        as (H1 & H2 & H3 & H4).
      simpl in *. rewrite H1, H2, H3, H4.
      rewrite errors_app. simpl. rewrite app_nil_r. tauto.
    + simpl in H. apply Forall_cons_iff in H as [Hd H].
      destruct (IH (after_day requests_get (yr, mo, dy) st) H)
        as (H1 & H2 & H3 & H4).
      change (fold_left (after_action requests_get) (Visit yr mo dy :: acts) st)
        with (fold_left (after_action requests_get) acts
                        (after_day requests_get (yr, mo, dy) st)).
      rewrite H1, H2, H3, H4. clear IH H1 H2 H3 H4.
      change (visits (Visit yr mo dy :: acts)) with ((yr, mo, dy) :: visits acts).
      unfold table_of, headers_of, after_day. cbn [fold_left flat_map].
      destruct Hd as [Hs|[msg Hf]].
      * destruct (day_succeeds_document _ Hs) as (t & data & Hdoc & Hdata).
        cbn [fst snd] in Hdoc. rewrite Hdoc, Hdata.
        cbn [result_odict df_headers stdout requested error_line].
        rewrite Hdoc. rewrite <- !app_assoc. simpl. tauto.
      * rewrite (fetch_fails_no_data _ _ Hf).
        destruct Hf as [_ Hf]. rewrite Hf.
        cbn [result_odict df_headers stdout requested error_line].
        rewrite Hf. rewrite errors_app. simpl.
        rewrite <- !app_assoc. simpl. tauto.
Qed.

End Run.

(* ===================================================================== *)
(** ** The collected table *)

Arguments day_data : simpl never.
Arguments select_headers : simpl never.
Arguments _to_datetime : simpl never.
Arguments headers_at : simpl never.

Section Table.
Variable requests_get : Z -> Z -> Z -> response.

Lemma insert_rows_in (date : Z * Z * Z) (data : list (string * row)) :
  forall tbl ts r,
    In (ts, r) (insert_rows date data tbl) ->
    In (ts, r) tbl
    \/ exists label, In (label, r) data /\ timestamp_of date label = Ok ts.
Proof.
  destruct date as [[y m] d]. unfold insert_rows, timestamp_of. cbn [fst snd].
  induction data as [|[label0 r0] data IH]; intros tbl ts r; simpl; [tauto|].
  intros H. apply IH in H as [H|(label & Hin & Hts)].
  - destruct (_to_datetime y m d label0) as [ts0|e] eqn:E; [|tauto].
    apply (in_odict_set dt_eqb dt_eqb_eq) in H as [[-> ->]|H]; [|tauto].
    right. exists label0. tauto.
  - right. exists label. tauto.
Qed.

Lemma insert_rows_keeps (date : Z * Z * Z) (data : list (string * row)) :
  forall tbl ts,
    In ts (odict_keys tbl) -> In ts (odict_keys (insert_rows date data tbl)).
Proof.
  destruct date as [[y m] d]. unfold insert_rows.
  induction data as [|[label0 r0] data IH]; intros tbl ts H; simpl; [exact H|].
  apply IH. destruct (_to_datetime y m d label0); [|exact H].
  apply odict_set_keeps. exact H.
Qed.

Lemma insert_rows_has (date : Z * Z * Z) (data : list (string * row)) :
  forall tbl label r ts,
    In (label, r) data -> timestamp_of date label = Ok ts ->
    In ts (odict_keys (insert_rows date data tbl)).
Proof.
  destruct date as [[y m] d].
  unfold timestamp_of. cbn [fst snd].
  induction data as [|[label0 r0] data IH]; intros tbl label r ts Hin Hts;
    [destruct Hin|].
  destruct Hin as [Heq|Hin].
  - injection Heq as -> ->.
    change (insert_rows (y, m, d) ((label, r) :: data) tbl)
      with (insert_rows (y, m, d) data
              (match _to_datetime y m d label with
               | Ok ts => odict_set dt_eqb ts r tbl
               | Raise _ => tbl
               end)).
    rewrite Hts. apply insert_rows_keeps.
    apply (keys_odict_set dt_eqb dt_eqb_eq). tauto.
  - change (insert_rows (y, m, d) ((label0, r0) :: data) tbl)
      with (insert_rows (y, m, d) data
              (match _to_datetime y m d label0 with
               | Ok ts => odict_set dt_eqb ts r0 tbl
               | Raise _ => tbl
               end)).
    eapply IH; eassumption.
Qed.

Lemma table_of_in (dates : list (Z * Z * Z)) :
  forall tbl ts r,
    In (ts, r) (table_of requests_get dates tbl) ->
    In (ts, r) tbl
    \/ exists date data label,
         In date dates /\ day_data requests_get date = Some data
         /\ In (label, r) data /\ timestamp_of date label = Ok ts.
Proof.
  unfold table_of.
  induction dates as [|date dates IH]; intros tbl ts r; simpl; [tauto|].
  intros H. apply IH in H as [H|(date' & data & label & Hd & H)].
  - destruct (day_data requests_get date) as [data|] eqn:E; [|tauto].
    apply insert_rows_in in H as [H|(label & Hin & Hts)]; [tauto|].
    right. exists date, data, label. tauto.
  - right. exists date', data, label. tauto.
Qed.

Lemma table_of_keeps (dates : list (Z * Z * Z)) :
  forall tbl ts,
    In ts (odict_keys tbl) ->
    In ts (odict_keys (table_of requests_get dates tbl)).
Proof.
  unfold table_of.
  induction dates as [|date dates IH]; intros tbl ts H; simpl; [exact H|].
  apply IH. destruct (day_data requests_get date); [|exact H].
  apply insert_rows_keeps. exact H.
Qed.

Lemma table_of_has (dates : list (Z * Z * Z)) :
  forall tbl date data label r ts,
    In date dates -> day_data requests_get date = Some data ->
    In (label, r) data -> timestamp_of date label = Ok ts ->
    In ts (odict_keys (table_of requests_get dates tbl)).
Proof.
  induction dates as [|date0 dates IH];
    intros tbl date data label r ts Hd Hdata Hin Hts; [destruct Hd|].
  change (table_of requests_get (date0 :: dates) tbl)
    with (table_of requests_get dates
            (match day_data requests_get date0 with
             | Some data => insert_rows date0 data tbl
             | None => tbl
             end)).
  destruct Hd as [->|Hd].
  - rewrite Hdata. apply table_of_keeps.
    eapply insert_rows_has; eassumption.
  - eapply IH; eassumption.
Qed.

Lemma headers_of_cons (date : Z * Z * Z) (dates : list (Z * Z * Z))
    (hs : list string) :
  headers_of requests_get (date :: dates) hs
  = headers_of requests_get dates
      (match day_data requests_get date with
       | Some _ => if (List.length hs <? List.length (headers_at date))%nat
                   then headers_at date else hs
       | None => hs
       end).
Proof. destruct date as [[y m] d]. reflexivity. Qed.

Lemma headers_of_cases (dates : list (Z * Z * Z)) :
  forall hs,
    headers_of requests_get dates hs = hs
    \/ exists date data,
         In date dates /\ day_data requests_get date = Some data
         /\ headers_of requests_get dates hs = headers_at date.
Proof.
  induction dates as [|date0 dates IH]; intros hs; [left; reflexivity|].
  rewrite headers_of_cons.
  match goal with
  | |- context [headers_of requests_get dates ?h0] =>
      destruct (IH h0) as [H|(date & data & Hin & Hdata & H)]
  end.
  - rewrite H.
    destruct (day_data requests_get date0) as [data|] eqn:E; [|tauto].
    destruct (_ <? _)%nat; [|tauto].
    right. exists date0, data. simpl. tauto.
  - right. exists date, data. simpl. tauto.
Qed.

(** The rows of the table carry the keys of the schema of the day their
    timestamp comes from. *)
Lemma table_row_keys (dates : list (Z * Z * Z)) (ts : datetime) (r : row) :
  In (ts, r) (table_of requests_get dates []) ->
  In (source_date ts) dates
  /\ forall c, In c (odict_keys r) <-> In c (headers_at (source_date ts)).
Proof.
  intros H. apply table_of_in in H as [[]|(date & data & label & Hd & Hdata & Hin & Hts)].
  destruct date as [[y m] d]. unfold timestamp_of in Hts. cbn [fst snd] in Hts.
  apply to_datetime_source in Hts as (-> & _ & _).
  split; [exact Hd|].
  exact (day_data_keys _ _ _ _ _ _ _ Hdata Hin).
Qed.

Lemma union_keys_in (tbl : list (datetime * row)) (c : string) :
  In c (union_keys tbl)
  <-> exists ts r, In (ts, r) tbl /\ In c (odict_keys r).
Proof.
  unfold union_keys.
  assert (forall (ks acc : list string),
             In c (fold_left (fun acc' k => if mem_string k acc' then acc'
                                            else acc' ++ [k]) ks acc)
             <-> In c acc \/ In c ks) as Hinner.
  { induction ks as [|k ks IH]; intros acc; simpl; [tauto|].
    rewrite IH. destruct (mem_string k acc) eqn:E.
    - apply mem_string_in in E. split; [tauto|].
      intros [H|[->|H]]; tauto.
    - rewrite in_app_iff. simpl. tauto. }
  assert (forall acc,
             In c (fold_left
                     (fun acc kv =>
                        fold_left (fun acc' k => if mem_string k acc' then acc'
                                                 else acc' ++ [k])
                                  (odict_keys (snd kv)) acc) tbl acc)
             <-> In c acc \/ exists ts r, In (ts, r) tbl /\ In c (odict_keys r))
    as Houter.
  { induction tbl as [|[ts0 r0] tbl IH]; intros acc; simpl.
    - split; [tauto|]. intros [H|(ts & r & [] & _)]. exact H.
    - rewrite IH, Hinner. simpl. split.
      + intros [[H|H]|(ts & r & H1 & H2)]; [tauto| |].
        * right. exists ts0, r0. tauto.
        * right. exists ts, r. tauto.
      + intros [H|(ts & r & [H1|H1] & H2)]; [tauto| |].
        * injection H1 as <- <-. tauto.
        * right. exists ts, r. tauto. }
  rewrite Houter. simpl. tauto.
Qed.

Lemma cell_of_map (f : string -> option string) (cols : list string)
    (c : string) :
  In c cols -> cell_of cols (map f cols) c = f c.
Proof.
  induction cols as [|c0 cols IH]; simpl; [tauto|].
  destruct (String.eqb_spec c c0) as [->|Hne]; [reflexivity|].
  intros [->|H]; [congruence|auto].
Qed.

(** Selecting columns that all occur in the table gives the frame of the
    table over these columns. *)
Lemma getitem_from_dict (hs : list string) (tbl : list (datetime * row)) :
  (forall c, In c hs -> In c (union_keys tbl)) ->
  getitem_columns (from_dict_index tbl) hs = Ok (table_frame hs tbl).
Proof.
  intros H. unfold getitem_columns, from_dict_index, table_frame.
  cbn [columns frame].
  assert (forallb (fun c => mem_string c (union_keys tbl)) hs = true) as ->.
  { apply forallb_forall. intros c Hc. apply mem_string_in. auto. }
  f_equal. f_equal. rewrite map_map. apply map_ext. intros [ts r].
  cbn [fst snd]. f_equal. apply map_ext_in. intros c Hc.
  apply cell_of_map. auto.
Qed.

(** Every column of [df_headers] occurs in the collected table: the
    selection [df[df_headers]] does not raise. *)
Lemma columns_present (dates : list (Z * Z * Z)) :
  Forall (day_recovers requests_get) dates ->
  forall c, In c (headers_of requests_get dates []) ->
            In c (union_keys (table_of requests_get dates [])).
Proof.
  intros Hall c Hc.
  destruct (headers_of_cases dates []) as [H|(date & data & Hd & Hdata & H)].
  { rewrite H in Hc. destruct Hc. }
  rewrite H in Hc. clear H.
  rewrite Forall_forall in Hall.
  destruct (Hall _ Hd) as [Hs|[msg Hf]];
    [|rewrite (fetch_fails_no_data _ _ _ Hf) in Hdata; discriminate].
  destruct date as [[y m] d].
  unfold day_succeeds in Hs. rewrite Hdata in Hs.
  apply andb_true_iff in Hs as [_ Hs]. apply andb_true_iff in Hs as [Hne Hlab].
  destruct data as [|[label r0] data]; [discriminate|].
  simpl in Hlab. apply andb_true_iff in Hlab as [Hlab _].
  destruct (_to_datetime y m d label) as [ts|e] eqn:Hts; [|discriminate].
  assert (In ts (odict_keys (table_of requests_get dates []))) as Hkey.
  { eapply table_of_has; [exact Hd|exact Hdata|left; reflexivity|exact Hts]. }
  apply in_keys_value in Hkey as [r Hr].
  apply union_keys_in. exists ts, r. split; [exact Hr|].
  apply table_row_keys in Hr as [_ Hr]. apply Hr.
  apply to_datetime_source in Hts as (-> & _). exact Hc.
Qed.

End Table.

(* ===================================================================== *)
(** ** [_download_df] *)

Section DownloadFacts.
Variable requests_get : Z -> Z -> Z -> response.
Variable today_year : Z.
Variables (year_start : Z) (year_end : option Z).
Variables (month_start month_end day_start : Z).
Variable day_end : option Z.
Variable verbose : bool.

Hypothesis Hmonth_start : 1 <= month_start.
Hypothesis Hmonth_end : month_end <= 12.

(** When every day of the range succeeds or has its request fail, the run
    returns the frame of the rows of the successful days, requests every
    day in order and prints one error line per failed request. *)
Lemma download_df_collects :
  Forall (day_recovers requests_get)
         (visited year_start (year_end_or_today today_year year_end)
                  month_start month_end day_start day_end) ->
  exists st,
    _download_df requests_get today_year year_start year_end month_start
                 month_end day_start day_end verbose initial_state
    = (Ok (table_frame
             (headers_of requests_get
                (visited year_start (year_end_or_today today_year year_end)
                         month_start month_end day_start day_end) [])
             (table_of requests_get
                (visited year_start (year_end_or_today today_year year_end)
                         month_start month_end day_start day_end) [])), st)
    /\ requested st
       = visited year_start (year_end_or_today today_year year_end)
                 month_start month_end day_start day_end
    /\ errors (stdout st)
       = flat_map (error_line requests_get)
                  (visited year_start (year_end_or_today today_year year_end)
                           month_start month_end day_start day_end).
Proof.
  intros Hall. unfold _download_df, bind.
  rewrite download_loops_schedule by assumption.
  pose proof (visits_schedule year_start
                (year_end_or_today today_year year_end) month_start month_end
                day_start day_end verbose) as Hv.
  rewrite run_actions_ok by (rewrite Hv; exact Hall).
  match goal with
  | |- context [fold_left ?f ?acts initial_state] =>
      destruct (fold_after_action requests_get acts initial_state)
        as (H1 & H2 & H3 & H4); [rewrite Hv; exact Hall|];
      set (st := fold_left f acts initial_state) in *
  end.
  rewrite Hv in *. simpl in H1, H2, H3, H4.
  exists st. rewrite H1, H2.
  rewrite getitem_from_dict by (apply columns_present; exact Hall).
  tauto.
Qed.

(** An exception other than a failed request at a day of the range ends
    the run with that exception: nothing is returned, no line is printed
    for that day and the later days are not requested. *)
Lemma download_df_aborts (before after : list (Z * Z * Z)) (y m d : Z)
    (e : exn) :
  visited year_start (year_end_or_today today_year year_end)
          month_start month_end day_start day_end
  = before ++ (y, m, d) :: after ->
  Forall (day_recovers requests_get) before ->
  (forall st, exists st',
      day_body requests_get y m d st = (Raise e, st')
      /\ stdout st' = stdout st
      /\ requested st' = requested st ++ [(y, m, d)]) ->
  exists st,
    _download_df requests_get today_year year_start year_end month_start
                 month_end day_start day_end verbose initial_state
    = (Raise e, st)
    /\ requested st = before ++ [(y, m, d)]
    /\ errors (stdout st) = flat_map (error_line requests_get) before.
Proof.
  intros Hdays Hbefore Hday. unfold _download_df, bind.
  rewrite download_loops_schedule by assumption.
  pose proof (visits_schedule year_start
                (year_end_or_today today_year year_end) month_start month_end
                day_start day_end verbose) as Hv.
  rewrite Hdays in Hv.
  apply visits_split in Hv as (acts1 & acts2 & -> & Hv1 & Hv2).
  cbn [fst snd]. subst before.
  destruct (Hday (fold_left (after_action requests_get) acts1 initial_state))
    as (st' & Hrun & Hout & Hreq).
  rewrite (run_actions_abort _ _ _ _ _ _ _ _ _ Hbefore Hrun).
  exists st'. split; [reflexivity|].
  destruct (fold_after_action requests_get acts1 initial_state Hbefore)
    as (_ & _ & H3 & H4).
  rewrite Hreq, Hout, H3, H4. simpl. tauto.
Qed.

End DownloadFacts.

(* ===================================================================== *)
(** ** Partial failure *)

Section PartialFailure.
Variable requests_get : Z -> Z -> Z -> response.

Lemma table_of_app (l1 l2 : list (Z * Z * Z)) (tbl : list (datetime * row)) :
  table_of requests_get (l1 ++ l2) tbl
  = table_of requests_get l2 (table_of requests_get l1 tbl).
Proof. unfold table_of. apply fold_left_app. Qed.

Lemma headers_of_app (l1 l2 : list (Z * Z * Z)) (hs : list string) :
  headers_of requests_get (l1 ++ l2) hs
  = headers_of requests_get l2 (headers_of requests_get l1 hs).
Proof. unfold headers_of. apply fold_left_app. Qed.

(** A day without data leaves no trace in the table or the headers. *)
Lemma table_of_skip (before after : list (Z * Z * Z)) (bad : Z * Z * Z) :
  day_data requests_get bad = None ->
  table_of requests_get (before ++ bad :: after) []
  = table_of requests_get (before ++ after) []
  /\ headers_of requests_get (before ++ bad :: after) []
     = headers_of requests_get (before ++ after) [].
Proof.
  intros H. rewrite !table_of_app, !headers_of_app.
  rewrite headers_of_cons, H.
  unfold table_of at 1. cbn [fold_left]. rewrite H. tauto.
Qed.

Lemma error_line_succeeds (dates : list (Z * Z * Z)) :
  Forall (fun date => day_succeeds requests_get date = true) dates ->
  flat_map (error_line requests_get) dates = [].
Proof.
  induction 1 as [|date dates Hd _ IH]; [reflexivity|].
  cbn [flat_map]. rewrite IH, app_nil_r.
  destruct (day_succeeds_document _ _ Hd) as (t & _ & Hdoc & _).
  destruct date as [[y m] d]. simpl in *. rewrite Hdoc. reflexivity.
Qed.

Lemma succeeds_recovers (dates : list (Z * Z * Z)) :
  Forall (fun date => day_succeeds requests_get date = true) dates ->
  Forall (day_recovers requests_get) dates.
Proof. apply Forall_impl. intros date H. left. exact H. Qed.

Lemma index_table_frame (hs : list string) (tbl : list (datetime * row)) :
  index (table_frame hs tbl) = odict_keys tbl.
Proof.
  unfold index, table_frame, odict_keys. cbn [frame].
  rewrite map_map. reflexivity.
Qed.

End PartialFailure.

(** C6 (as amended): in a range where the request of exactly one day
    raises a RequestException and the page of every other day is read with
    at least one reading row, [_download_df] returns a table, prints
    exactly one error line, with that day's date and the text of the
    exception, and requests every day of the range, also those after the
    failed one.  The table is the one collected from the pages of the
    other days alone: its index holds exactly the timestamps of their
    rows, every row was read on the page of one of the other days and none
    on the page of the failed day.  A row can still carry the date of the
    failed day: then it is at 00:00, the 12am row of the page of the day
    before. *)
Theorem download_df_partial_failure
    (requests_get : Z -> Z -> Z -> response) (today_year : Z)
    (year_start : Z) (year_end : option Z)
    (month_start month_end day_start : Z) (day_end : option Z)
    (verbose : bool)
    (before after : list (Z * Z * Z)) (y m d : Z) (msg : string) :
  1 <= month_start -> month_end <= 12 ->
  visited year_start (year_end_or_today today_year year_end)
          month_start month_end day_start day_end
  = before ++ (y, m, d) :: after ->
  fetch_fails requests_get (y, m, d) msg ->
  Forall (fun date => day_succeeds requests_get date = true) (before ++ after) ->
  exists df st,
    _download_df requests_get today_year year_start year_end month_start
                 month_end day_start day_end verbose initial_state
    = (Ok df, st)
    /\ errors (stdout st) = [ErrorFor y m d msg]
    /\ requested st = before ++ (y, m, d) :: after
    /\ df = table_frame (headers_of requests_get (before ++ after) [])
                        (table_of requests_get (before ++ after) [])
    /\ (forall ts,
          In ts (index df) <->
          exists date data label r,
            In date (before ++ after)
            /\ day_data requests_get date = Some data
            /\ In (label, r) data /\ timestamp_of date label = Ok ts)
    /\ (forall ts, In ts (index df) -> source_date ts <> (y, m, d))
    /\ (forall ts, In ts (index df) -> In (source_date ts) (before ++ after))
    /\ (forall ts, In ts (index df) -> date_of ts = (y, m, d) -> hour ts = 0).
Proof.
  intros Hms Hme Hdays Hbad Hgood.
  assert (Forall (day_recovers requests_get)
                 (visited year_start (year_end_or_today today_year year_end)
                          month_start month_end day_start day_end)) as Hall.
  { rewrite Hdays. apply Forall_app.
    apply succeeds_recovers in Hgood. apply Forall_app in Hgood as [H1 H2].
    split; [exact H1|]. constructor; [|exact H2]. right. exists msg. exact Hbad. }
  destruct (download_df_collects requests_get today_year year_start year_end
              month_start month_end day_start day_end verbose Hms Hme Hall)
    as (st & Hrun & Hreq & Herr).
  rewrite Hdays in Hrun, Hreq, Herr.
  pose proof (fetch_fails_no_data _ _ _ Hbad) as Hnone.
  destruct (table_of_skip requests_get before after _ Hnone) as [Ht Hh].
  rewrite Ht, Hh in Hrun.
  eexists. exists st. split; [exact Hrun|].
  split.
  { rewrite Herr, flat_map_app. cbn [flat_map].
    apply Forall_app in Hgood as [H1 H2].
    rewrite (error_line_succeeds _ _ H1), (error_line_succeeds _ _ H2).
    destruct Hbad as [_ Hbad]. simpl. rewrite Hbad. reflexivity. }
  split; [exact Hreq|]. split; [reflexivity|].
  assert (forall ts,
             In ts (odict_keys (table_of requests_get (before ++ after) [])) ->
             exists date data label r,
               In date (before ++ after)
               /\ day_data requests_get date = Some data
               /\ In (label, r) data /\ timestamp_of date label = Ok ts) as Hfrom.
  { intros ts Hts. apply in_keys_value in Hts as [r Hr].
    apply table_of_in in Hr as [[]|(date & data & label & H)].
    exists date, data, label, r. exact H. }
  split; [|split; [|split]].
  - intros ts. rewrite index_table_frame. split; [apply Hfrom|].
    intros (date & data & label & r & Hd & Hdata & Hin & Hts).
    eapply table_of_has; eassumption.
  - intros ts. rewrite index_table_frame. intros Hts Hsrc.
    apply Hfrom in Hts as (date & data & label & r & Hd & Hdata & _ & Hts).
    destruct date as [[y' m'] d']. unfold timestamp_of in Hts.
    cbn [fst snd] in Hts.
    apply to_datetime_source in Hts as (Hs & _). rewrite Hs in Hsrc.
    rewrite Hsrc in Hdata. congruence.
  - intros ts. rewrite index_table_frame. intros Hts.
    apply Hfrom in Hts as (date & data & label & r & Hd & Hdata & _ & Hts).
    destruct date as [[y' m'] d']. unfold timestamp_of in Hts.
    cbn [fst snd] in Hts.
    apply to_datetime_source in Hts as (Hs & _). rewrite Hs. exact Hd.
  - intros ts. rewrite index_table_frame. intros Hts Hdate.
    apply Hfrom in Hts as (date & data & label & r & Hd & Hdata & _ & Hts).
    destruct date as [[y' m'] d']. unfold timestamp_of in Hts.
    cbn [fst snd] in Hts.
    pose proof (to_datetime_source _ _ _ _ _ Hts) as (Hs & _).
    unfold source_date in Hs.
    destruct (hour ts =? 0) eqn:Eh; [apply Z.eqb_eq; exact Eh|].
    rewrite Hdate in Hs. rewrite <- Hs in Hdata. congruence.
Qed.

Lemma download_df_partial_failure_witness :
  exists df st,
    _download_df (Samples.site_down_on (2016, 2, 29)) 2016 2016 (Some 2016)
                 2 3 28 (Some 1) true initial_state = (Ok df, st)
    /\ errors (stdout st) = [ErrorFor 2016 2 29 "timed out"]
    /\ requested st = [(2016, 2, 28); (2016, 2, 29); (2016, 3, 1)].
Proof.
  destruct (download_df_partial_failure
              (Samples.site_down_on (2016, 2, 29)) 2016 2016 (Some 2016)
              2 3 28 (Some 1) true [(2016, 2, 28)] [(2016, 3, 1)]
              2016 2 29 "timed out")
    as (df & st & H1 & H2 & H3 & _).
  - lia.
  - lia.
  - reflexivity.
  - split; reflexivity.
  - repeat constructor.
  - exists df, st. exact (conj H1 (conj H2 H3)).
Defined.

(** C6 as stated fails when a day that is fetched without an exception
    has a page without reading rows: over 2016-02-28..2016-02-29, the page
    of 2016-02-28 holding the two header rows only and the request of
    2016-02-29 timing out, the error line is printed but the run ends
    with KeyError at [df[df_headers]] and returns no table. *)
Lemma partial_failure_without_table :
  let site := MoreSamples.headers_only_site_down_on (2016, 2, 29) in
  let run := _download_df site 2016 2016 (Some 2016) 2 2 28 (Some 29) false
                          initial_state in
  site 2016 2 28 = Document (Some [[]; []])
  /\ site 2016 2 29 = RequestFails "timed out"
  /\ requested (snd run) = [(2016, 2, 28); (2016, 2, 29)]
  /\ stdout (snd run) = [ErrorFor 2016 2 29 "timed out"]
  /\ fst run = Raise KeyError
  /\ ~ (exists df, fst run = Ok df).
Proof.
  cbv zeta. split; [reflexivity|]. split; [reflexivity|].
  split; [vm_compute; reflexivity|]. split; [vm_compute; reflexivity|].
  split; [vm_compute; reflexivity|].
  intros [df H]. vm_compute in H. discriminate.
Qed.

(** The table of a run with a failed day can hold a row dated on that
    day: over 2016-02-28..2016-03-01 with the request of 2016-02-29 timing
    out, the 12am row of the page of 2016-02-28 is in the table at
    2016-02-29 00:00, the only row of that date. *)
Lemma partial_failure_midnight_row :
  exists df st,
    _download_df (Samples.site_down_on (2016, 2, 29)) 2016 2016 (Some 2016)
                 2 3 28 (Some 1) false initial_state = (Ok df, st)
    /\ In (mkdt 2016 2 29 0 sgt) (index df)
    /\ filter (fun ts => date_eqb (date_of ts) (2016, 2, 29)) (index df)
       = [mkdt 2016 2 29 0 sgt].
Proof.
  eexists. eexists. split; [vm_compute; reflexivity|].
  split; [vm_compute; tauto|vm_compute; reflexivity].
Qed.

(* ===================================================================== *)
(** ** A range across the 2014-04-01 cutoff *)

Lemma in_table_frame (hs : list string) (tbl : list (datetime * row))
    (ts : datetime) (cells : list (option string)) :
  In (ts, cells) (frame (table_frame hs tbl)) ->
  exists r, In (ts, r) tbl
            /\ cells = map (fun c => odict_get String.eqb c r) hs.
Proof.
  unfold table_frame. cbn [frame]. rewrite in_map_iff.
  intros ([ts0 r] & H & Hin). injection H as <- <-.
  exists r. tauto.
Qed.

(** C7 (as amended): collecting 2014-03-31 to 2014-04-01, the page of
    each day read with at least one reading row, returns a table without
    raising; its columns are the 6 PSI columns followed by the 6 PM2.5
    columns; every row was read on the page of one of the two days; every
    row read on the page of 2014-04-01 is in the table, and such a row has
    a value in each PSI column and the missing value in each PM2.5 column;
    a row read on the page of 2014-03-31 has a value in all 12 columns,
    and this includes the row at 2014-04-01 00:00, the 12am row of that
    page. *)
Theorem download_df_across_cutoff
    (requests_get : Z -> Z -> Z -> response) (today_year : Z) (verbose : bool) :
  day_succeeds requests_get (2014, 3, 31) = true ->
  day_succeeds requests_get (2014, 4, 1) = true ->
  exists df st,
    _download_df requests_get today_year 2014 (Some 2014) 3 4 31 (Some 1)
                 verbose initial_state = (Ok df, st)
    /\ columns df = PSI_headers ++ PM25_headers
    /\ requested st = [(2014, 3, 31); (2014, 4, 1)]
    /\ errors (stdout st) = []
    /\ (forall data label r,
          day_data requests_get (2014, 4, 1) = Some data ->
          In (label, r) data ->
          exists ts, _to_datetime 2014 4 1 label = Ok ts /\ In ts (index df))
    /\ (forall ts cells,
          In (ts, cells) (frame df) -> source_date ts = (2014, 4, 1) ->
          (forall c, In c PSI_headers -> cell_of (columns df) cells c <> None)
          /\ (forall c, In c PM25_headers -> cell_of (columns df) cells c = None))
    /\ (forall ts cells,
          In (ts, cells) (frame df) ->
          source_date ts = (2014, 3, 31) \/ source_date ts = (2014, 4, 1))
    /\ (forall ts cells,
          In (ts, cells) (frame df) -> source_date ts = (2014, 3, 31) ->
          forall c, In c (PSI_headers ++ PM25_headers) ->
                    cell_of (columns df) cells c <> None)
    /\ (forall cells,
          In (mkdt 2014 4 1 0 sgt, cells) (frame df) ->
          forall c, In c (PSI_headers ++ PM25_headers) ->
                    cell_of (columns df) cells c <> None).
Proof.
  intros H1 H2.
  assert (Forall (fun date => day_succeeds requests_get date = true)
                 [(2014, 3, 31); (2014, 4, 1)]) as Hgood
    by (repeat constructor; assumption).
  destruct (download_df_collects requests_get today_year 2014 (Some 2014)
              3 4 31 (Some 1) verbose ltac:(lia) ltac:(lia))
    as (st & Hrun & Hreq & Herr).
  { apply succeeds_recovers. exact Hgood. }
  change (visited 2014 (year_end_or_today today_year (Some 2014)) 3 4 31 (Some 1))
    with [(2014, 3, 31); (2014, 4, 1)] in *.
  destruct (day_succeeds_document _ _ H1) as (_ & data1 & _ & Hd1).
  destruct (day_succeeds_document _ _ H2) as (_ & data2 & _ & Hd2).
  assert (headers_of requests_get [(2014, 3, 31); (2014, 4, 1)] []
          = PSI_headers ++ PM25_headers) as Hhs.
  { rewrite !headers_of_cons, Hd1, Hd2. reflexivity. }
  rewrite Hhs in Hrun.
  eexists. exists st. split; [exact Hrun|].
  split; [reflexivity|]. split; [exact Hreq|].
  split; [rewrite Herr; apply error_line_succeeds; exact Hgood|].
  assert (forall ts cells,
            In (ts, cells)
               (frame (table_frame (PSI_headers ++ PM25_headers)
                         (table_of requests_get [(2014, 3, 31); (2014, 4, 1)] []))) ->
            source_date ts = (2014, 3, 31) ->
            forall c, In c (PSI_headers ++ PM25_headers) ->
                      cell_of (PSI_headers ++ PM25_headers) cells c <> None)
    as Hfull.
  { intros ts cells Hin Hsrc c Hc.
    apply in_table_frame in Hin as (r & Hr & ->).
    apply table_row_keys in Hr as [_ Hkeys]. rewrite Hsrc in Hkeys.
    change (headers_at (2014, 3, 31)) with (PSI_headers ++ PM25_headers)
      in Hkeys.
    rewrite cell_of_map by exact Hc.
    rewrite (odict_get_none String.eqb string_eqb_eq).
    intros Hn. apply Hn. apply Hkeys. exact Hc. }
  split; [|split; [|split; [|split]]].
  - intros data label r Hdata Hin.
    unfold day_succeeds in H2. rewrite Hdata in H2.
    apply andb_true_iff in H2 as [_ H2]. apply andb_true_iff in H2 as [_ H2].
    rewrite forallb_forall in H2. specialize (H2 _ Hin).
    unfold label_parses in H2. cbn [fst] in H2.
    destruct (_to_datetime 2014 4 1 label) as [ts|e] eqn:Hts; [|discriminate].
    exists ts. split; [reflexivity|].
    rewrite index_table_frame.
    apply (table_of_has requests_get _ [] (2014, 4, 1) data label r ts);
      [right; left; reflexivity|exact Hdata|exact Hin|exact Hts].
  - intros ts cells Hin Hsrc.
    apply in_table_frame in Hin as (r & Hr & ->).
    apply table_row_keys in Hr as [_ Hkeys]. rewrite Hsrc in Hkeys.
    change (headers_at (2014, 4, 1)) with PSI_headers in Hkeys.
    cbn [columns table_frame].
    split; intros c Hc; rewrite cell_of_map by (apply in_or_app; tauto).
    + rewrite (odict_get_none String.eqb string_eqb_eq).
      intros Hn. apply Hn. apply Hkeys. exact Hc.
    + apply (odict_get_none String.eqb string_eqb_eq).
      rewrite Hkeys. intros Hpsi.
      simpl in Hc, Hpsi.
      repeat (destruct Hc as [<-|Hc];
              [repeat (destruct Hpsi as [Hpsi|Hpsi]; [discriminate|]);
               destruct Hpsi|]).
      destruct Hc.
  - intros ts cells Hin.
    apply in_table_frame in Hin as (r & Hr & _).
    apply table_row_keys in Hr as [[Hs|[Hs|[]]] _]; [left|right];
      symmetry; exact Hs.
  - exact Hfull.
  - intros cells Hin. exact (Hfull _ cells Hin eq_refl).
Qed.

Lemma download_df_across_cutoff_witness :
  exists df st,
    _download_df Samples.steady_site 2016 2014 (Some 2014) 3 4 31 (Some 1)
                 false initial_state = (Ok df, st)
    /\ columns df = PSI_headers ++ PM25_headers.
Proof.
  destruct (download_df_across_cutoff Samples.steady_site 2016 false)
    as (df & st & H1 & H2 & _).
  - reflexivity.
  - reflexivity.
  - exists df, st. exact (conj H1 H2).
Defined.

(** C7 as stated fails for the row dated 2014-04-01 that comes from the
    page of 2014-03-31: on the steady site the table has the 12 columns
    and a row at 2014-04-01 00:00, the 12am row of 2014-03-31, and that
    row has a value, not the missing value, in each PM2.5 column. *)
Lemma across_cutoff_midnight_row :
  exists df st cells,
    day_succeeds Samples.steady_site (2014, 3, 31) = true
    /\ day_succeeds Samples.steady_site (2014, 4, 1) = true
    /\ _download_df Samples.steady_site 2016 2014 (Some 2014) 3 4 31 (Some 1)
                    false initial_state = (Ok df, st)
    /\ columns df = PSI_headers ++ PM25_headers
    /\ In (mkdt 2014 4 1 0 sgt, cells) (frame df)
    /\ date_of (mkdt 2014 4 1 0 sgt) = (2014, 4, 1)
    /\ map (cell_of (columns df) cells) PM25_headers = repeat (Some "55") 6.
Proof.
  eexists. eexists.
  exists (repeat (Some "55") 12).
  split; [vm_compute; reflexivity|]. split; [vm_compute; reflexivity|].
  split; [vm_compute; reflexivity|].
  split; [reflexivity|].
  split; [vm_compute; tauto|].
  split; reflexivity.
Qed.

(** Nor is an error excluded: when the page of 2014-03-31 is read without
    an exception but has no reading row, its 12 columns are kept as the
    column list while no row has a PM2.5 value, and the run ends with
    KeyError at [df[df_headers]]. *)
Lemma across_cutoff_without_rows :
  let site := MoreSamples.site_without_rows_on (2014, 3, 31) in
  let run := _download_df site 2016 2014 (Some 2014) 3 4 31 (Some 1) false
                          initial_state in
  site 2014 3 31 = Document (Some [[]; []])
  /\ site 2014 4 1 = Samples.steady_site 2014 4 1
  /\ requested (snd run) = [(2014, 3, 31); (2014, 4, 1)]
  /\ stdout (snd run) = []
  /\ fst run = Raise KeyError.
Proof.
  cbv zeta. split; [reflexivity|]. split; [reflexivity|].
  split; [vm_compute; reflexivity|]. split; vm_compute; reflexivity.
Qed.

(* ===================================================================== *)
(** ** Exceptions the day's handler does not catch *)

(** [fill_row] raises IndexError when the cells do not reach the last
    header. *)
Lemma fill_row_short (items : list string) (hs : list string) :
  forall (index : nat) (r : row),
    (index <= List.length items < index + List.length hs)%nat ->
    fill_row items index hs r = Raise IndexError.
Proof.
  induction hs as [|h hs IH]; intros index r H; simpl in *; [lia|].
  destruct (nth_error items index) as [cell|] eqn:E; [|reflexivity].
  apply IH.
  assert (index < List.length items)%nat
    by (apply nth_error_Some; congruence).
  lia.
Qed.

Lemma fill_row_raises (items : list string) (hs : list string) :
  forall (index : nat) (r : row) (e : exn),
    fill_row items index hs r = Raise e -> e = IndexError.
Proof.
  induction hs as [|h hs IH]; intros index r e; simpl; [discriminate|].
  destruct (nth_error items index); [apply IH|congruence].
Qed.

(** A row with fewer cells than one hour cell plus one cell per header
    makes [parse_rows] raise IndexError. *)
Lemma parse_rows_short (hs : list string) (rows : list (list string)) :
  forall res,
    (exists items, In items rows
                   /\ (List.length items < 1 + List.length hs)%nat) ->
    parse_rows rows hs res = Raise IndexError.
Proof.
  induction rows as [|items rows IH]; intros res (bad & Hin & Hshort).
  - destruct Hin.
  - cbn [parse_rows].
    destruct items as [|hour_text cells]; [reflexivity|].
    cbn [nth_error].
    destruct (fill_row (hour_text :: cells) 1 hs []) as [r|e] eqn:E.
    + apply IH. destruct Hin as [<-|Hin].
      * rewrite fill_row_short in E; [discriminate|simpl in *; lia].
      * exists bad. tauto.
    + apply fill_row_raises in E. subst. reflexivity.
Qed.

(** C8 (as amended): [_to_datetime] raises the parse error ValueError
    exactly when the hour label is outside the 12-hour format or the date
    is one [strptime] does not accept, which is a date that is no calendar
    date or has a year below 1000; so on a valid date with a four-digit
    year it is raised exactly for the labels outside the format.  When a
    page of the range holds such a label, [_download_df] does not recover:
    it raises ValueError itself, prints no error line for that day and
    requests no later day. *)
Theorem to_datetime_parse_error_propagates :
  (forall y m d hour_text,
      _to_datetime y m d hour_text = Raise ValueError
      <-> (Calendar.valid_date y m d = false \/ y < 1000
           \/ ~ hour12_format hour_text))
  /\ (forall y m d hour_text,
        Calendar.valid_date y m d = true -> 1000 <= y ->
        (_to_datetime y m d hour_text = Raise ValueError
         <-> ~ hour12_format hour_text))
  /\ (forall (requests_get : Z -> Z -> Z -> response) (today_year : Z)
             (year_start : Z) (year_end : option Z)
             (month_start month_end day_start : Z) (day_end : option Z)
             (verbose : bool)
             (before after : list (Z * Z * Z)) (y m d : Z)
             (data : list (string * row)) (label : string) (r : row),
        1 <= month_start -> month_end <= 12 ->
        visited year_start (year_end_or_today today_year year_end)
                month_start month_end day_start day_end
        = before ++ (y, m, d) :: after ->
        Forall (day_recovers requests_get) before ->
        Calendar.valid_date y m d = true -> 1000 <= y ->
        (y, m, d) <> (9999, 12, 31) ->
        day_data requests_get (y, m, d) = Some data ->
        In (label, r) data -> ~ hour12_format label ->
        exists st,
          _download_df requests_get today_year year_start year_end
                       month_start month_end day_start day_end verbose
                       initial_state = (Raise ValueError, st)
          /\ requested st = before ++ [(y, m, d)]
          /\ errors (stdout st) = flat_map (error_line requests_get) before).
Proof.
  assert (forall y m d hour_text,
            Calendar.valid_date y m d = true -> 1000 <= y ->
            (_to_datetime y m d hour_text = Raise ValueError
             <-> ~ hour12_format hour_text)) as Hgood.
  { intros y m d hour_text Hv Hy.
    rewrite <- StrptimeFacts.parse_I_p_format. split.
    + intros H.
      destruct (to_datetime_cases y m d Hv Hy hour_text)
        as [[ts Hts]|[[_ Hp]|[Ho _]]]; [congruence|exact Hp|congruence].
    + apply to_datetime_unparsed. }
  split; [|split; [exact Hgood|]].
  - intros y m d hour_text.
    destruct (Calendar.valid_date y m d) eqn:Hv.
    + destruct (Z_lt_le_dec y 1000) as [Hy|Hy].
      * split; [intros _; right; left; exact Hy|]. intros _.
        unfold _to_datetime, Strptime.strptime.
        apply Z.leb_gt in Hy. rewrite Hy. reflexivity.
      * rewrite (Hgood y m d hour_text Hv Hy). split; [tauto|].
        intros [H|[H|H]]; [discriminate|lia|exact H].
    + split; [intros _; left; reflexivity|]. intros _.
      unfold _to_datetime, Strptime.strptime. rewrite Hv, andb_false_r.
      reflexivity.
  - intros requests_get today_year year_start year_end month_start month_end
           day_start day_end verbose before after y m d data label r
           Hms Hme Hdays Hbefore Hv Hy Hlast Hdata Hin Hfmt.
    apply (download_df_aborts requests_get today_year year_start year_end
             month_start month_end day_start day_end verbose Hms Hme
             before after y m d ValueError Hdays Hbefore).
    intros st.
    apply (day_body_value_error requests_get y m d st data Hv Hy); [|exact Hdata|].
    + intros Hn. apply (CalendarFacts.next_day_none _ _ _ Hv) in Hn.
      destruct Hn as (-> & -> & ->). congruence.
    + exists (label, r). split; [exact Hin|].
      apply StrptimeFacts.parse_I_p_format. exact Hfmt.
Qed.

Lemma not_hour12_format_noon : ~ hour12_format "noon".
Proof.
  apply StrptimeFacts.parse_I_p_format. reflexivity.
Qed.

Lemma to_datetime_parse_error_propagates_witness :
  _to_datetime 2016 1 2 "noon" = Raise ValueError
  /\ exists st,
       _download_df (Samples.site_mislabelled_on (2016, 1, 2)) 2016 2016
                    (Some 2016) 1 1 1 (Some 3) true initial_state
       = (Raise ValueError, st)
       /\ requested st = [(2016, 1, 1); (2016, 1, 2)].
Proof.
  destruct to_datetime_parse_error_propagates as (_ & Ha & Hb).
  split.
  - apply (Ha 2016 1 2 "noon"); [reflexivity|lia|exact not_hour12_format_noon].
  - destruct (Hb (Samples.site_mislabelled_on (2016, 1, 2)) 2016 2016
                 (Some 2016) 1 1 1 (Some 3) true
                 [(2016, 1, 1)] [(2016, 1, 3)] 2016 1 2
                 [("11am", combine PSI_headers (repeat "55" 6));
                  ("noon", combine PSI_headers (repeat "55" 6));
                  ("1pm", combine PSI_headers (repeat "55" 6))]
                 "noon" (combine PSI_headers (repeat "55" 6)))
      as (st & H1 & H2 & _).
    + lia.
    + lia.
    + reflexivity.
    + constructor; [left; reflexivity|constructor].
    + reflexivity.
    + lia.
    + congruence.
    + reflexivity.
    + right; left; reflexivity.
    + exact not_hour12_format_noon.
    + exists st. exact (conj H1 H2).
Defined.

(** C8 as stated fails on a valid date whose year has fewer than four
    digits: the label "1am" is in the 12-hour format, and [_to_datetime]
    still raises the parse error, the text built from the date not
    matching [%Y]. *)
Lemma parse_error_on_good_label :
  Calendar.valid_date 999 1 1 = true
  /\ hour12_format "1am"
  /\ _to_datetime 999 1 1 "1am" = Raise ValueError.
Proof.
  split; [reflexivity|]. split; [|reflexivity].
  exists EmptyString, "1", "am", EmptyString.
  split; [reflexivity|]. split; [reflexivity|].
  split; [left; reflexivity|]. split; [left; reflexivity|reflexivity].
Qed.

(** C9 (as amended): a reading row with fewer cells than one hour cell
    plus one cell per column of the day's schema makes [_get_nea_dict]
    raise IndexError, which the handler of [_download_df] does not catch:
    the run ends with IndexError, without a table, without an error line
    for that day, and without requesting the later days. *)
Theorem download_df_short_row_aborts
    (requests_get : Z -> Z -> Z -> response) (today_year : Z)
    (year_start : Z) (year_end : option Z)
    (month_start month_end day_start : Z) (day_end : option Z)
    (verbose : bool)
    (before after : list (Z * Z * Z)) (y m d : Z)
    (rows : list (list string)) (items : list string) :
  1 <= month_start -> month_end <= 12 ->
  visited year_start (year_end_or_today today_year year_end)
          month_start month_end day_start day_end
  = before ++ (y, m, d) :: after ->
  Forall (day_recovers requests_get) before ->
  Calendar.valid_date y m d = true ->
  requests_get y m d = Document (Some rows) ->
  In items (skipn 2 rows) ->
  (List.length items < 1 + List.length (headers_at (y, m, d)))%nat ->
  exists st,
    _download_df requests_get today_year year_start year_end
                 month_start month_end day_start day_end verbose
                 initial_state = (Raise IndexError, st)
    /\ requested st = before ++ [(y, m, d)]
    /\ errors (stdout st) = flat_map (error_line requests_get) before.
Proof.
  intros Hms Hme Hdays Hbefore Hv Hdoc Hin Hshort.
  apply (download_df_aborts requests_get today_year year_start year_end
           month_start month_end day_start day_end verbose Hms Hme
           before after y m d IndexError Hdays Hbefore).
  intros st. eexists. split.
  - apply (day_body_index_error requests_get y m d st rows Hv Hdoc).
    apply parse_rows_short. exists items. split; [exact Hin|exact Hshort].
  - split; reflexivity.
Qed.

Lemma download_df_short_row_aborts_witness :
  exists st,
    _download_df (Samples.site_short_on (2016, 1, 2)) 2016 2016 (Some 2016)
                 1 1 1 (Some 3) true initial_state = (Raise IndexError, st)
    /\ requested st = [(2016, 1, 1); (2016, 1, 2)]
    /\ errors (stdout st) = [].
Proof.
  destruct (download_df_short_row_aborts
              (Samples.site_short_on (2016, 1, 2)) 2016 2016 (Some 2016)
              1 1 1 (Some 3) true [(2016, 1, 1)] [(2016, 1, 3)] 2016 1 2
              ([] :: [] :: [ "1am" :: repeat "55" 6; "2am" :: repeat "55" 6;
                             "3am" :: repeat "55" 5 ])
              ("3am" :: repeat "55" 5))
    as (st & H1 & H2 & H3).
  - lia.
  - lia.
  - reflexivity.
  - constructor; [left; reflexivity|constructor].
  - reflexivity.
  - reflexivity.
  - right; right; left; reflexivity.
  - simpl. lia.
  - exists st. exact (conj H1 (conj H2 H3)).
Defined.

(** C9 as stated fails: with one row of 2016-01-02 a cell short, the run
    over 2016-01-01..2016-01-03 ends with IndexError instead of skipping
    the day: there is no table, no error line, and 2016-01-03 is never
    requested. *)
Lemma download_df_short_row_not_skipped :
  let run := _download_df (Samples.site_short_on (2016, 1, 2)) 2016 2016
                          (Some 2016) 1 1 1 (Some 3) false initial_state in
  fst run = Raise IndexError
  /\ stdout (snd run) = []
  /\ requested (snd run) = [(2016, 1, 1); (2016, 1, 2)]
  /\ ~ (exists df, fst run = Ok df).
Proof.
  cbv zeta. split; [vm_compute; reflexivity|].
  split; [vm_compute; reflexivity|].
  split; [vm_compute; reflexivity|].
  intros [df H]. vm_compute in H. discriminate.
Qed.

(* ===================================================================== *)
(** ** The column list of a day *)

Lemma dt_ltb_cutoff (y m d : Z) :
  dt_ltb (mkdt y m d 0 None) pm_subsume_date = true
  <-> date_lt (y, m, d) (2014, 4, 1).
Proof.
  unfold dt_ltb, pm_subsume_date, date_lt. cbn [year month day hour].
  rewrite !orb_true_iff, !andb_true_iff, !Z.ltb_lt, !Z.eqb_eq. lia.
Qed.

(** C5: whenever [_get_nea_dict] returns for a date, the column list it
    returns is the 12-column list (the 6 PSI columns followed by the 6
    PM2.5 columns) if the date is strictly before 2014-04-01 and the
    6-column PSI list otherwise, and every row of the mapping has exactly
    these columns as keys. *)
Theorem get_nea_dict_schema
    (requests_get : Z -> Z -> Z -> response) (y m d : Z) (st st' : state)
    (data : list (string * row)) (headers : list string) :
  _get_nea_dict requests_get (mkdt y m d 0 None) st = (Ok (data, headers), st') ->
  (date_lt (y, m, d) (2014, 4, 1) ->
   headers = PSI_headers ++ PM25_headers /\ List.length headers = 12%nat)
  /\ (~ date_lt (y, m, d) (2014, 4, 1) ->
      headers = PSI_headers /\ List.length headers = 6%nat)
  /\ (forall label r, In (label, r) data ->
        forall c, In c (odict_keys r) <-> In c headers).
Proof.
  unfold _get_nea_dict. cbn [year month day].
  destruct (requests_get y m d) as [msg|[rows|]] eqn:Hdoc; try discriminate.
  destruct (parse_rows (skipn 2 rows) (select_headers (mkdt y m d 0 None)) [])
    as [res|e] eqn:Hrows; [|discriminate].
  intros H. injection H as <- <- _.
  split; [|split].
  - intros Hlt. apply dt_ltb_cutoff in Hlt.
    unfold select_headers. rewrite Hlt. split; reflexivity.
  - intros Hge. unfold select_headers.
    destruct (dt_ltb (mkdt y m d 0 None) pm_subsume_date) eqn:E.
    + apply dt_ltb_cutoff in E. contradiction.
    + split; reflexivity.
  - intros label r Hin.
    destruct (parse_rows_keys _ _ _ _ Hrows label r Hin) as [[]|H]. exact H.
Qed.

Lemma get_nea_dict_schema_witness :
  exists data st',
    _get_nea_dict Samples.steady_site (mkdt 2014 3 31 0 None) initial_state
    = (Ok (data, PSI_headers ++ PM25_headers), st').
Proof.
  destruct (_get_nea_dict Samples.steady_site (mkdt 2014 3 31 0 None)
                          initial_state) as [[[data headers]|e] st'] eqn:E.
  - exists data, st'.
    destruct (get_nea_dict_schema Samples.steady_site 2014 3 31 initial_state
                st' data headers E) as [H _].
    destruct H as [-> _]; [unfold date_lt; lia|]. reflexivity.
  - vm_compute in E. discriminate.
Defined.

(* ===================================================================== *)
(** ** The days of a range *)

(** Every day the loops reach lies in the month window
    [month_start..month_end] of its year, whatever the year. *)
Lemma visited_months (ys ye ms me ds : Z) (de : option Z) (y m d : Z) :
  In (y, m, d) (visited ys ye ms me ds de) ->
  ys <= y <= ye /\ ms <= m <= me.
Proof.
  unfold visited, schedule. rewrite !visits_flat_map.
  rewrite in_flat_map. intros (yr & Hyr & H).
  rewrite visits_flat_map in H. rewrite in_flat_map in H.
  destruct H as (mo & Hmo & H).
  apply in_range in Hyr. apply in_range in Hmo.
  unfold month_schedule in H. cbn [app] in H.
  unfold visits in H. rewrite flat_map_concat_map, map_map in H.
  apply in_concat in H as (l & Hl & Hin).
  apply in_map_iff in Hl as (dy & <- & _).
  destruct Hin as [Heq|[]]. injection Heq as <- <- <-. lia.
Qed.

(** C1 at a range across the end of a year: from 2010-12-31 to 2011-01-01
    the month loop runs over [range(12, 2)], which is empty, so no day is
    requested and the run returns an empty table; the claim asks for the
    two days 2010-12-31 and 2011-01-01. *)
Theorem download_df_skips_year_end
    (requests_get : Z -> Z -> Z -> response) (today_year : Z) (verbose : bool) :
  date_lt (2010, 12, 31) (2011, 1, 1)
  /\ visited 2010 2011 12 1 31 (Some 1) = []
  /\ _download_df requests_get today_year 2010 (Some 2011) 12 1 31 (Some 1)
                  verbose initial_state
     = (Ok (mkdf [] []), initial_state).
Proof.
  split; [simpl; lia|]. split; reflexivity.
Qed.

(** The range a run starts from by default, 2010-01-01 to today (here
    2016-05-10): June to December of every year are left out, although
    2010-06-01 lies in the range. *)
Lemma download_df_skips_months :
  date_lt (2010, 1, 1) (2010, 6, 1) /\ date_lt (2010, 6, 1) (2016, 5, 10)
  /\ ~ In (2010, 6, 1) (visited 2010 2016 1 5 1 (Some 10)).
Proof.
  split; [simpl; lia|]. split; [simpl; lia|].
  intros H. apply visited_months in H. lia.
Qed.

(* ===================================================================== *)
(** ** [_save_csv_per_day] *)

Lemma day_rank_next (y m d h : Z) (o : option Z) (next : datetime) :
  Calendar.valid_date y m d = true ->
  plus_one_day (mkdt y m d h o) = Ok next ->
  day_rank (mkdt y m d h o) < day_rank next
  /\ Calendar.valid_date (year next) (month next) (day next) = true.
Proof.
  intros Hv. unfold plus_one_day. cbn [year month day hour utcoffset].
  destruct (Calendar.next_day y m d) as [[[y' m'] d']|] eqn:En; [|discriminate].
  intros H. injection H as <-. cbn [year month day].
  split; [|exact (CalendarFacts.next_day_valid _ _ _ _ _ _ Hv En)].
  apply CalendarFacts.valid_date_spec in Hv.
  pose proof (CalendarFacts.num_days_bounds y m).
  unfold day_rank. cbn [year month day].
  unfold Calendar.next_day, Calendar.MAXYEAR in En.
  destruct (d <? Calendar.num_days y m); [injection En as <- <- <-; lia|].
  destruct (m <? 12) eqn:E2; [injection En as <- <- <-; lia|].
  apply Z.ltb_ge in E2.
  destruct (y <? 9999); [injection En as <- <- <-; lia|discriminate].
Qed.

Lemma dt_leb_day_rank (a b : datetime) :
  Calendar.valid_date (year a) (month a) (day a) = true ->
  Calendar.valid_date (year b) (month b) (day b) = true ->
  dt_leb a b = true -> day_rank a <= day_rank b.
Proof.
  intros Ha Hb. apply CalendarFacts.valid_date_spec in Ha, Hb.
  pose proof (CalendarFacts.num_days_bounds (year a) (month a)).
  pose proof (CalendarFacts.num_days_bounds (year b) (month b)).
  unfold dt_leb, dt_ltb, dt_eqb, day_rank.
  rewrite !orb_true_iff, !andb_true_iff, !Z.ltb_lt, !Z.eqb_eq. lia.
Qed.

(** The fuel of [_save_csv_per_day] is never what ends the loop: on valid
    dates the loop ends by its condition or by an exception. *)
Lemma per_day_loop_total (df : DataFrame) (last_day : datetime) :
  Calendar.valid_date (year last_day) (month last_day) (day last_day) = true ->
  forall (fuel : nat) (curr_day : datetime) (written : list csv_file),
    Calendar.valid_date (year curr_day) (month curr_day) (day curr_day) = true ->
    day_rank last_day - day_rank curr_day + 1 < Z.of_nat fuel ->
    (0 < fuel)%nat ->
    per_day_loop fuel df curr_day last_day written <> None.
Proof.
  intros Hlast. induction fuel as [|fuel IH]; intros curr_day written Hv Hfuel Hpos;
    [lia|].
  cbn [per_day_loop].
  destruct (dt_leb curr_day last_day) eqn:Hle; [|discriminate].
  destruct (getitem_slice df (replace_hour curr_day 0) (replace_hour curr_day 23));
    [|discriminate].
  destruct (plus_one_day curr_day) as [next|e] eqn:Hnext; [|discriminate].
  destruct curr_day as [y m d h o]. cbn [year month day] in Hv.
  destruct (day_rank_next _ _ _ _ _ _ Hv Hnext) as [Hrank Hvn].
  pose proof (dt_leb_day_rank (mkdt y m d h o) last_day Hv Hlast Hle).
  apply IH; [exact Hvn|lia|lia].
Qed.

(** C2 at the table collected for 2016-01-01 and 2016-01-02: its
    timestamps run from 2016-01-01 01:00 to 2016-01-03 00:00, three
    calendar days, and it is in ascending order; [_save_csv_per_day]
    writes two files, for 2016-01-01 and 2016-01-02, and the row of
    2016-01-03 00:00 is in neither: the loop stops when the day counter,
    which keeps the 01:00 of the first timestamp, passes the last
    timestamp. *)
Theorem save_csv_per_day_drops_last_day :
  index_min Samples.two_days = Some (mkdt 2016 1 1 1 sgt)
  /\ index_max Samples.two_days = Some (mkdt 2016 1 3 0 sgt)
  /\ is_monotonic_increasing (index Samples.two_days) = true
  /\ exists files,
       _save_csv_per_day Samples.two_days = Some (Ok tt, files)
       /\ map file_date files = [(2016, 1, 1); (2016, 1, 2)]
       /\ existsb (dt_eqb (mkdt 2016 1 3 0 sgt)) (index Samples.two_days) = true
       /\ forallb (fun f => negb (existsb (dt_eqb (mkdt 2016 1 3 0 sgt))
                                          (map fst (file_rows f)))) files
          = true.
Proof.
  split; [vm_compute; reflexivity|].
  split; [vm_compute; reflexivity|].
  split; [vm_compute; reflexivity|].
  eexists. split; [vm_compute; reflexivity|].
  split; [vm_compute; reflexivity|].
  split; vm_compute; reflexivity.
Qed.

(** C3 at a table whose index is out of order: the sorted copy that
    [df.sort_index()] returns is dropped, the slices are taken from the
    table as it came, and the first of them raises KeyError, its bound
    2016-01-01 00:00 being no entry of an index that is not monotonic; no
    file is written.  On the sorted table the same call writes the three
    files. *)
Theorem save_csv_per_day_does_not_sort :
  is_monotonic_increasing (index Samples.shuffled) = false
  /\ is_monotonic_increasing (index (sort_index Samples.shuffled)) = true
  /\ _save_csv_per_day Samples.shuffled = Some (Raise KeyError, [])
  /\ exists files,
       _save_csv_per_day (sort_index Samples.shuffled) = Some (Ok tt, files)
       /\ map file_date files = [(2016, 1, 1); (2016, 1, 2); (2016, 1, 3)].
Proof.
  split; [reflexivity|]. split; [reflexivity|].
  split; [vm_compute; reflexivity|].
  eexists. split; vm_compute; reflexivity.
Qed.

Lemma index_min_in (df : DataFrame) (t : datetime) :
  index_min df = Some t -> In t (index df).
Proof.
  unfold index_min. destruct (index df) as [|t0 ts]; [discriminate|].
  intros H. injection H as <-.
  assert (forall l m, In (fold_left (fun m x => if dt_ltb x m then x else m) l m)
                         (m :: l)) as Hfold.
  { induction l as [|x l IH]; intros m; simpl; [tauto|].
    destruct (IH (if dt_ltb x m then x else m)) as [H|H]; [|tauto].
    rewrite <- H. destruct (dt_ltb x m); tauto. }
  apply Hfold.
Qed.

Lemma index_max_in (df : DataFrame) (t : datetime) :
  index_max df = Some t -> In t (index df).
Proof.
  unfold index_max. destruct (index df) as [|t0 ts]; [discriminate|].
  intros H. injection H as <-.
  assert (forall l m, In (fold_left (fun m x => if dt_ltb m x then x else m) l m)
                         (m :: l)) as Hfold.
  { induction l as [|x l IH]; intros m; simpl; [tauto|].
    destruct (IH (if dt_ltb m x then x else m)) as [H|H]; [|tauto].
    rewrite <- H. destruct (dt_ltb m x); tauto. }
  apply Hfold.
Qed.

(** [_save_csv_per_day] returns or raises on every table of valid dates:
    its loop does not run out of fuel. *)
Lemma save_csv_per_day_total (df : DataFrame) :
  Forall (fun t => Calendar.valid_date (year t) (month t) (day t) = true)
         (index df) ->
  exists outcome, _save_csv_per_day df = Some outcome.
Proof.
  intros Hvalid. rewrite Forall_forall in Hvalid.
  unfold _save_csv_per_day.
  destruct (index_min df) as [curr_day|] eqn:Hmin;
    [|destruct (index_max df); eexists; reflexivity].
  destruct (index_max df) as [last_day|] eqn:Hmax; [|eexists; reflexivity].
  apply index_min_in in Hmin. apply index_max_in in Hmax.
  match goal with
  | |- exists o, ?x = Some o =>
      destruct x as [o|] eqn:E; [exists o; reflexivity|]
  end.
  exfalso. revert E.
  apply per_day_loop_total; [auto|auto|lia|lia].
Qed.

(* ===================================================================== *)
(** ** Which days a range reaches *)

Lemma range_nil (lo hi : Z) : hi <= lo -> range lo hi = [].
Proof.
  intros H. unfold range.
  replace (Z.to_nat (hi - lo)) with O by lia. reflexivity.
Qed.

Lemma range_cons (lo hi : Z) : lo < hi -> range lo hi = lo :: range (lo + 1) hi.
Proof.
  intros H. unfold range.
  replace (Z.to_nat (hi - lo)) with (S (Z.to_nat (hi - (lo + 1)))) by lia.
  cbn [seq map]. f_equal; [lia|].
  rewrite <- seq_shift, map_map. apply map_ext. intros i. lia.
Qed.

Lemma sorted_app {B} (R : B -> B -> Prop) (l1 l2 : list B) :
  StronglySorted R l1 -> StronglySorted R l2 ->
  (forall a b, In a l1 -> In b l2 -> R a b) ->
  StronglySorted R (l1 ++ l2).
Proof.
  induction 1 as [|x l1 Hs IH Hx]; intros H2 Hcross; [exact H2|].
  simpl. constructor.
  - apply IH; [exact H2|]. intros a b Ha Hb. apply Hcross; [right|]; assumption.
  - apply Forall_app. split; [exact Hx|].
    apply Forall_forall. intros b Hb. apply Hcross; [left; reflexivity|exact Hb].
Qed.

Lemma sorted_flat_map_range {B} (R : B -> B -> Prop) (f : Z -> list B) :
  (forall i, StronglySorted R (f i)) ->
  (forall i j a b, i < j -> In a (f i) -> In b (f j) -> R a b) ->
  forall (n : nat) (lo hi : Z),
    Z.to_nat (hi - lo) = n -> StronglySorted R (flat_map f (range lo hi)).
Proof.
  intros Hs Hcross. induction n as [|n IH]; intros lo hi Hn.
  - rewrite range_nil by lia. constructor.
  - rewrite range_cons by lia. cbn [flat_map].
    apply sorted_app; [apply Hs|apply IH; lia|].
    intros a b Ha Hb. apply in_flat_map in Hb as (j & Hj & Hb).
    apply in_range in Hj. apply (Hcross lo j); [lia|exact Ha|exact Hb].
Qed.

Section Visited.
Variables (year_start year_end month_start month_end day_start : Z).
Variable day_end : option Z.

(** The days of the range, as the three loops list them. *)
Lemma visited_eq :
  visited year_start year_end month_start month_end day_start day_end
  = flat_map
      (fun y =>
         flat_map
           (fun m =>
              map (fun d => (y, m, d))
                  (range (first_day_of year_start month_start day_start y m)
                         (last_day_of year_end month_end day_end y m + 1)))
           (range month_start (month_end + 1)))
      (range year_start (year_end + 1)).
Proof.
  unfold visited, schedule. rewrite visits_flat_map.
  apply flat_map_ext. intros y. rewrite visits_flat_map.
  apply flat_map_ext. intros m. unfold month_schedule. cbn [app].
  generalize (range (first_day_of year_start month_start day_start y m)
                    (last_day_of year_end month_end day_end y m + 1)).
  intros l. induction l as [|d l IH]; [reflexivity|].
  simpl. f_equal. exact IH.
Qed.

Lemma in_visited (y m d : Z) :
  In (y, m, d)
     (visited year_start year_end month_start month_end day_start day_end)
  <-> year_start <= y <= year_end /\ month_start <= m <= month_end
      /\ first_day_of year_start month_start day_start y m <= d
         <= last_day_of year_end month_end day_end y m.
Proof.
  rewrite visited_eq, in_flat_map. split.
  - intros (y' & Hy & H). apply in_flat_map in H as (m' & Hm & H).
    apply in_map_iff in H as (d' & Heq & Hd). injection Heq as <- <- <-.
    apply in_range in Hy, Hm, Hd. lia.
  - intros (Hy & Hm & Hd). exists y. split; [apply in_range; lia|].
    apply in_flat_map. exists m. split; [apply in_range; lia|].
    apply in_map_iff. exists d. split; [reflexivity|apply in_range; lia].
Qed.

(** The days are requested in strictly ascending order, so none twice. *)
Lemma visited_ascending :
  StronglySorted date_lt
    (visited year_start year_end month_start month_end day_start day_end).
Proof.
  rewrite visited_eq.
  apply sorted_flat_map_range with (n := Z.to_nat (year_end + 1 - year_start));
    [| |reflexivity].
  - intros y.
    apply sorted_flat_map_range
      with (n := Z.to_nat (month_end + 1 - month_start)); [| |reflexivity].
    + intros m.
      generalize (first_day_of year_start month_start day_start y m).
      generalize (last_day_of year_end month_end day_end y m + 1).
      intros hi lo. remember (Z.to_nat (hi - lo)) as n eqn:Hn.
      revert lo Hn. induction n as [|n IH]; intros lo Hn.
      * rewrite range_nil by lia. constructor.
      * rewrite range_cons by lia. cbn [map]. constructor; [apply IH; lia|].
        apply Forall_forall. intros [[y' m'] d'] H.
        apply in_map_iff in H as (d0 & Heq & Hd). injection Heq as <- <- <-.
        apply in_range in Hd. unfold date_lt. lia.
    + intros i j [[y1 m1] d1] [[y2 m2] d2] Hij Ha Hb.
      apply in_map_iff in Ha as (? & Heq & _). injection Heq as <- <- <-.
      apply in_map_iff in Hb as (? & Heq & _). injection Heq as <- <- <-.
      unfold date_lt. lia.
  - intros i j [[y1 m1] d1] [[y2 m2] d2] Hij Ha Hb.
    apply in_flat_map in Ha as (? & _ & Ha).
    apply in_map_iff in Ha as (? & Heq & _). injection Heq as <- <- <-.
    apply in_flat_map in Hb as (? & _ & Hb).
    apply in_map_iff in Hb as (? & Heq & _). injection Heq as <- <- <-.
    unfold date_lt. lia.
Qed.

End Visited.

(** No day outside the range is requested: every requested day lies
    between the start date and the end date. *)
Lemma visited_within_range (ys ye ms me ds de y m d : Z) :
  In (y, m, d) (visited ys ye ms me ds (Some de)) ->
  ~ date_lt (y, m, d) (ys, ms, ds) /\ ~ date_lt (ye, me, de) (y, m, d).
Proof.
  intros H. apply in_visited in H as (Hy & Hm & Hd).
  unfold first_day_of, last_day_of in Hd. unfold date_lt.
  destruct ((y =? ys) && (m =? ms)) eqn:E1;
    destruct ((y =? ye) && (m =? me)) eqn:E2;
    rewrite ?andb_true_iff, ?andb_false_iff, ?Z.eqb_eq, ?Z.eqb_neq in E1, E2;
    lia.
Qed.

(** Within one calendar year the loops are complete: every valid date
    between the start date and the end date is requested. *)
Lemma visited_same_year (yr ms me ds de y m d : Z) :
  Calendar.valid_date yr ms ds = true -> Calendar.valid_date yr me de = true ->
  Calendar.valid_date y m d = true ->
  (In (y, m, d) (visited yr yr ms me ds (Some de))
   <-> ~ date_lt (y, m, d) (yr, ms, ds) /\ ~ date_lt (yr, me, de) (y, m, d)).
Proof.
  intros Hs He Hv. split; [apply visited_within_range|].
  apply CalendarFacts.valid_date_spec in Hs, He, Hv.
  intros [H1 H2]. apply in_visited.
  unfold first_day_of, last_day_of. unfold date_lt in H1, H2.
  destruct ((y =? yr) && (m =? ms)) eqn:E1;
    destruct ((y =? yr) && (m =? me)) eqn:E2;
    rewrite ?andb_true_iff, ?andb_false_iff, ?Z.eqb_eq, ?Z.eqb_neq in E1, E2;
    lia.
Qed.


(* ===================================================================== *)
(** * Further properties *)

(** ** Hour labels *)

Module LabelFacts.
Import Strptime.

Lemma space_not_digit (c : ascii) (lo hi : Z) :
  is_space c = true -> 0 <= lo -> hi <= 9 -> digit_between lo hi c = None.
Proof.
  unfold is_space, digit_between. intros H Hlo Hhi.
  destruct ((lo <=? Z.of_N (N_of_ascii c) - 48)
            && (Z.of_N (N_of_ascii c) - 48 <=? hi)) eqn:E; [|reflexivity].
  apply andb_true_iff in E as [E1 E2].
  apply Z.leb_le in E1. apply Z.leb_le in E2.
  rewrite !orb_true_iff, !andb_true_iff, !Z.leb_le, !Z.eqb_eq in H. lia.
Qed.

Lemma space_not_letter (c : ascii) :
  is_space c = true -> ((c =? "m") || (c =? "M"))%char = false.
Proof.
  intros H.
  destruct (Ascii.eqb_spec c "m") as [->|_]; [discriminate H|].
  destruct (Ascii.eqb_spec c "M") as [->|_]; [discriminate H|].
  reflexivity.
Qed.

Lemma all_space_app (a b : string) :
  all_space (a ++ b)%string = all_space a && all_space b.
Proof.
  induction a as [|c a IH]; simpl; [reflexivity|].
  rewrite IH. apply andb_assoc.
Qed.

Lemma lstrip_all_space (s : string) :
  all_space s = true -> lstrip s = EmptyString.
Proof.
  induction s as [|c s IH]; simpl; [reflexivity|].
  intros H. apply andb_true_iff in H as [-> H]. auto.
Qed.

(** After the leading whitespace is gone, trailing whitespace is carried
    along unchanged. *)
Lemma lstrip_app_r (s post : string) :
  all_space post = true ->
  lstrip (s ++ post)%string
  = if all_space s then EmptyString else (lstrip s ++ post)%string.
Proof.
  intros Hpost. induction s as [|c s IH]; simpl.
  - apply lstrip_all_space. exact Hpost.
  - destruct (is_space c); simpl; [exact IH|reflexivity].
Qed.

Lemma directive_p_app (r post : string) :
  all_space post = true ->
  directive_p (r ++ post)%string
  = option_map (fun x => (fst x, (snd x ++ post)%string)) (directive_p r).
Proof.
  intros Hpost.
  destruct r as [|c1 [|c2 r]]; simpl.
  - destruct post as [|p1 [|p2 post]]; simpl; try reflexivity.
    simpl in Hpost. apply andb_true_iff in Hpost as [_ Hpost].
    apply andb_true_iff in Hpost as [H2 _].
    rewrite (space_not_letter _ H2). reflexivity.
  - destruct post as [|p1 post]; simpl; [reflexivity|].
    simpl in Hpost. apply andb_true_iff in Hpost as [H1 _].
    rewrite (space_not_letter _ H1). reflexivity.
  - destruct ((c2 =? "m") || (c2 =? "M"))%char; [|reflexivity].
    destruct ((c1 =? "a") || (c1 =? "A"))%char; [reflexivity|].
    destruct ((c1 =? "p") || (c1 =? "P"))%char; reflexivity.
Qed.

Lemma directive_I_app (t post : string) :
  all_space post = true ->
  directive_I (t ++ post)%string
  = map (fun x => (fst x, (snd x ++ post)%string)) (directive_I t).
Proof.
  intros Hpost. destruct t as [|c1 [|c2 r2]].
  - simpl. destruct post as [|p1 [|p2 post]]; [reflexivity| |].
    + simpl in *. apply andb_true_iff in Hpost as [H1 _].
      rewrite (space_not_digit _ 1 9 H1) by lia. reflexivity.
    + simpl in *. apply andb_true_iff in Hpost as [H1 Hpost].
      apply andb_true_iff in Hpost as [H2 _].
      rewrite (space_not_digit _ 1 9 H1) by lia.
      destruct (p1 =? "1")%char; destruct (p1 =? "0")%char;
        rewrite ?(space_not_digit _ 0 2 H2), ?(space_not_digit _ 1 9 H2) by lia;
        reflexivity.
  - simpl. destruct post as [|p1 post].
    + simpl. destruct (digit_between 1 9 c1); reflexivity.
    + simpl in *. apply andb_true_iff in Hpost as [H1 _].
      rewrite (space_not_digit _ 0 2 H1), (space_not_digit _ 1 9 H1) by lia.
      destruct (c1 =? "1")%char; destruct (c1 =? "0")%char;
        destruct (digit_between 1 9 c1); reflexivity.
  - simpl.
    destruct (c1 =? "1")%char; destruct (c1 =? "0")%char;
      destruct (digit_between 0 2 c2); destruct (digit_between 1 9 c2);
      destruct (digit_between 1 9 c1); reflexivity.
Qed.

Lemma first_match_app (alts : list (Z * string)) (post : string) :
  all_space post = true ->
  first_match (map (fun x => (fst x, (snd x ++ post)%string)) alts)
  = first_match alts.
Proof.
  intros Hpost. induction alts as [|[h r] alts IH]; simpl; [reflexivity|].
  rewrite directive_p_app by assumption.
  destruct (directive_p r) as [[pm r']|]; simpl; [|exact IH].
  rewrite all_space_app, Hpost, andb_true_r, IH. reflexivity.
Qed.

(** Whitespace around a label does not change how it is read. *)
Lemma parse_I_p_padding (pre s post : string) :
  all_space pre = true -> all_space post = true ->
  parse_I_p (pre ++ s ++ post)%string = parse_I_p s.
Proof.
  intros Hpre Hpost. unfold parse_I_p.
  rewrite StrptimeFacts.lstrip_app by assumption.
  rewrite lstrip_app_r by assumption.
  destruct (all_space s) eqn:E.
  - rewrite (lstrip_all_space _ E). reflexivity.
  - rewrite directive_I_app, first_match_app by assumption. reflexivity.
Qed.

End LabelFacts.

(** X1: whitespace before and after the hour label is ignored: a label
    padded with whitespace gives the same result, timestamp or exception,
    as the bare label (the hour cell of a page is not stripped before it
    reaches [_to_datetime]). *)
Theorem to_datetime_ignores_padding (y m d : Z) (pre hour_text post : string) :
  Strptime.all_space pre = true -> Strptime.all_space post = true ->
  _to_datetime y m d (pre ++ hour_text ++ post)%string
  = _to_datetime y m d hour_text.
Proof.
  intros Hpre Hpost. unfold _to_datetime, Strptime.strptime.
  rewrite (LabelFacts.parse_I_p_padding _ _ _ Hpre Hpost). reflexivity.
Qed.

Lemma to_datetime_ignores_padding_witness :
  Strptime.all_space " " = true /\ Strptime.all_space "  " = true
  /\ _to_datetime 2016 1 1 (" " ++ "11pm" ++ "  ")%string
     = _to_datetime 2016 1 1 "11pm".
Proof.
  split; [reflexivity|]. split; [reflexivity|].
  exact (to_datetime_ignores_padding 2016 1 1 " " "11pm" "  " eq_refl eq_refl).
Defined.

(** X2: the timestamps of different days never coincide: labels read on
    the pages of two different dates give different timestamps, so a day's
    rows never overwrite those of another day in the table. *)
Theorem to_datetime_days_disjoint
    (y1 m1 d1 y2 m2 d2 : Z) (label1 label2 : string) (t1 t2 : datetime) :
  (y1, m1, d1) <> (y2, m2, d2) ->
  _to_datetime y1 m1 d1 label1 = Ok t1 ->
  _to_datetime y2 m2 d2 label2 = Ok t2 ->
  t1 <> t2.
Proof.
  intros Hne H1 H2 Heq. subst t2.
  apply to_datetime_source in H1 as (S1 & _).
  apply to_datetime_source in H2 as (S2 & _).
  congruence.
Qed.

Lemma to_datetime_days_disjoint_witness :
  (2016, 1, 1) <> (2016, 1, 2)
  /\ _to_datetime 2016 1 1 "12am" = Ok (mkdt 2016 1 2 0 sgt)
  /\ _to_datetime 2016 1 2 "1am" = Ok (mkdt 2016 1 2 1 sgt)
  /\ mkdt 2016 1 2 0 sgt <> mkdt 2016 1 2 1 sgt.
Proof.
  assert ((2016, 1, 1) <> (2016, 1, 2)) as Hne by congruence.
  split; [exact Hne|]. split; [reflexivity|]. split; [reflexivity|].
  exact (to_datetime_days_disjoint 2016 1 1 2016 1 2 "12am" "1am" _ _
           Hne eq_refl eq_refl).
Defined.

(** The window of the timestamps of a day. *)
Lemma to_datetime_window (y m d : Z) (hour_text : string) (ts : datetime) :
  _to_datetime y m d hour_text = Ok ts ->
  Calendar.valid_date (year ts) (month ts) (day ts) = true
  /\ 0 <= hour ts <= 23 /\ utcoffset ts = Some 480
  /\ ((date_of ts = (y, m, d) /\ 1 <= hour ts)
      \/ (Calendar.next_day y m d = Some (date_of ts) /\ hour ts = 0)).
Proof.
  unfold _to_datetime, Strptime.strptime.
  destruct ((1000 <=? y) && Calendar.valid_date y m d) eqn:E; [|discriminate].
  apply andb_true_iff in E as [_ Hv].
  destruct (Strptime.parse_I_p hour_text) as [h|] eqn:Hp; [|discriminate].
  apply StrptimeFacts.parse_I_p_sound in Hp as [_ Hh].
  cbn [hour]. destruct (h =? 0) eqn:Eh.
  - unfold plus_one_day. cbn [year month day hour utcoffset].
    destruct (Calendar.next_day y m d) as [[[y' m'] d']|] eqn:En; [|discriminate].
    intros H. injection H as <-. cbn [year month day hour utcoffset date_of].
    split; [exact (CalendarFacts.next_day_valid _ _ _ _ _ _ Hv En)|].
    apply Z.eqb_eq in Eh. subst h.
    split; [lia|]. split; [reflexivity|]. right. split; reflexivity.
  - intros H. injection H as <-. cbn [year month day hour utcoffset date_of].
    apply Z.eqb_neq in Eh.
    split; [exact Hv|]. split; [lia|]. split; [reflexivity|].
    left. split; [reflexivity|lia].
Qed.


(** X3: a timestamp [_to_datetime] returns is a valid date at a whole hour
    from 0 to 23 with the offset +08:00; it is never 00:00 of the day
    asked for: it lies after that midnight and at most at the next one. *)
Theorem to_datetime_in_window (y m d : Z) (hour_text : string) (ts : datetime) :
  _to_datetime y m d hour_text = Ok ts ->
  Calendar.valid_date (year ts) (month ts) (day ts) = true
  /\ 0 <= hour ts <= 23 /\ utcoffset ts = Some 480
  /\ ((date_of ts = (y, m, d) /\ 1 <= hour ts)
      \/ (Calendar.next_day y m d = Some (date_of ts) /\ hour ts = 0)).
Proof. apply to_datetime_window. Qed.

Lemma to_datetime_in_window_witness :
  _to_datetime 2015 12 31 "12am" = Ok (mkdt 2016 1 1 0 sgt)
  /\ Calendar.valid_date 2016 1 1 = true.
Proof.
  split; [reflexivity|].
  exact (proj1 (to_datetime_in_window 2015 12 31 "12am"
                  (mkdt 2016 1 1 0 sgt) eq_refl)).
Defined.

(** X4: [_to_datetime] raises nothing but ValueError and OverflowError,
    and on a date it accepts OverflowError is raised exactly for a label
    read as hour 0 (12am) on 9999-12-31. *)
Theorem to_datetime_exceptions (y m d : Z) (hour_text : string) :
  (forall e, _to_datetime y m d hour_text = Raise e ->
             e = ValueError \/ e = OverflowError)
  /\ (Calendar.valid_date y m d = true -> 1000 <= y ->
      (_to_datetime y m d hour_text = Raise OverflowError
       <-> (y, m, d) = (9999, 12, 31)
           /\ Strptime.parse_I_p hour_text = Some 0)).
Proof.
  split.
  - intros e. unfold _to_datetime, Strptime.strptime.
    destruct ((1000 <=? y) && Calendar.valid_date y m d);
      [|intros H; injection H as <-; tauto].
    destruct (Strptime.parse_I_p hour_text) as [h|];
      [|intros H; injection H as <-; tauto].
    cbn [hour]. destruct (h =? 0); [|discriminate].
    unfold plus_one_day. cbn [year month day].
    destruct (Calendar.next_day y m d) as [[[y' m'] d']|]; [discriminate|].
    intros H. injection H as <-. tauto.
  - intros Hv Hy.
    destruct (Strptime.parse_I_p hour_text) as [h|] eqn:Hp.
    + rewrite (to_datetime_parsed y m d Hv Hy _ _ Hp).
      destruct (h =? 0) eqn:Eh.
      * apply Z.eqb_eq in Eh. subst h. unfold plus_one_day.
        cbn [year month day].
        destruct (Calendar.next_day y m d) as [[[y' m'] d']|] eqn:En.
        -- split; [discriminate|]. intros [Hd _].
           assert (Calendar.next_day y m d = None) as Hn
             by (apply (CalendarFacts.next_day_none _ _ _ Hv);
                 injection Hd as -> -> ->; tauto).
           congruence.
        -- apply (CalendarFacts.next_day_none _ _ _ Hv) in En.
           destruct En as (-> & -> & ->). tauto.
      * apply Z.eqb_neq in Eh. split; [discriminate|].
        intros [_ H]. injection H as ->. contradiction.
    + rewrite (to_datetime_unparsed y m d _ Hp).
      split; [discriminate|]. intros [_ H]. discriminate.
Qed.

Lemma to_datetime_exceptions_witness :
  Calendar.valid_date 9999 12 31 = true /\ 1000 <= 9999
  /\ _to_datetime 9999 12 31 " 12AM" = Raise OverflowError.
Proof.
  split; [reflexivity|]. split; [lia|].
  apply (proj2 (to_datetime_exceptions 9999 12 31 " 12AM") eq_refl ltac:(lia)).
  split; reflexivity.
Defined.

(* ===================================================================== *)
(** ** The mapping of one page *)

Section ODictMore.
Context {K V : Type}.
Variable eqb : K -> K -> bool.
Hypothesis eqb_eq : forall a b, eqb a b = true <-> a = b.

Lemma eqb_same (k : K) : eqb k k = true.
Proof. apply eqb_eq. reflexivity. Qed.

Lemma eqb_other (k k' : K) : k' <> k -> eqb k' k = false.
Proof.
  intros H. destruct (eqb k' k) eqn:E; [|reflexivity].
  apply eqb_eq in E. contradiction.
Qed.

Lemma odict_get_set_same (k : K) (v : V) (d : list (K * V)) :
  odict_get eqb k (odict_set eqb k v d) = Some v.
Proof.
  induction d as [|[k0 v0] d IH]; simpl.
  - rewrite eqb_same. reflexivity.
  - destruct (eqb k k0) eqn:E; simpl; rewrite E; [reflexivity|exact IH].
Qed.

Lemma odict_get_set_other (k k' : K) (v : V) (d : list (K * V)) :
  k' <> k ->
  odict_get eqb k' (odict_set eqb k v d) = odict_get eqb k' d.
Proof.
  intros Hne. induction d as [|[k0 v0] d IH]; simpl.
  - rewrite (eqb_other _ _ Hne). reflexivity.
  - destruct (eqb k k0) eqn:E; simpl.
    + apply eqb_eq in E. subst k0. rewrite (eqb_other _ _ Hne). reflexivity.
    + destruct (eqb k' k0); [reflexivity|exact IH].
Qed.

(** Assigning to a key never makes a second entry for it. *)
Lemma odict_set_nodup (k : K) (v : V) (d : list (K * V)) :
  NoDup (odict_keys d) -> NoDup (odict_keys (odict_set eqb k v d)).
Proof.
  unfold odict_keys. induction d as [|[k0 v0] d IH]; simpl; intros H.
  - constructor; [tauto|constructor].
  - destruct (eqb k k0) eqn:E; simpl; [exact H|].
    inversion H as [|? ? Hnot Hd]; subst.
    constructor; [|auto].
    intros Hin.
    apply (keys_odict_set eqb eqb_eq k k0 v d) in Hin as [->|Hin];
      [rewrite eqb_same in E; discriminate|contradiction].
Qed.

End ODictMore.

Module StripFacts.
Import Strptime.

Lemma lstrip_head (s : string) :
  lstrip s = EmptyString
  \/ exists c r, lstrip s = String c r /\ is_space c = false.
Proof.
  induction s as [|c s IH]; simpl; [tauto|].
  destruct (is_space c) eqn:E; [exact IH|].
  right. exists c, s. tauto.
Qed.

Lemma all_space_rstrip (s : string) :
  all_space s = false -> all_space (rstrip s) = false.
Proof.
  induction s as [|c s IH]; [discriminate|].
  intros H. cbn [rstrip]. rewrite H. cbn [all_space] in *.
  destruct (is_space c); [|reflexivity]. simpl in *. auto.
Qed.

Lemma rstrip_idem (s : string) : rstrip (rstrip s) = rstrip s.
Proof.
  induction s as [|c s IH]; [reflexivity|].
  cbn [rstrip]. destruct (all_space (String c s)) eqn:E; [reflexivity|].
  cbn [rstrip].
  assert (all_space (String c (rstrip s)) = false) as ->.
  { cbn [all_space] in *. destruct (is_space c); [|reflexivity].
    simpl in *. apply all_space_rstrip. exact E. }
  rewrite IH. reflexivity.
Qed.

(** What [strip] returns has no whitespace left at either end. *)
Lemma strip_trimmed (s : string) : trimmed (strip s).
Proof.
  unfold trimmed, strip. split; [|apply rstrip_idem].
  destruct (lstrip_head s) as [->|(c & r & -> & Hc)]; [reflexivity|].
  cbn [rstrip]. cbn [all_space]. rewrite Hc. cbn [andb lstrip].
  rewrite Hc. reflexivity.
Qed.

End StripFacts.

Lemma fill_row_frame (items : list string) (hs : list string) :
  forall (index : nat) (r0 r : row) (k : string),
    fill_row items index hs r0 = Ok r -> ~ In k hs ->
    odict_get String.eqb k r = odict_get String.eqb k r0.
Proof.
  induction hs as [|h hs IH]; intros index r0 r k; cbn [fill_row].
  - intros H _. injection H as <-. reflexivity.
  - destruct (nth_error items index) as [cell|]; [|discriminate].
    intros H Hk. rewrite (IH _ _ _ _ H) by (simpl in Hk; tauto).
    apply (odict_get_set_other String.eqb string_eqb_eq).
    intros ->. apply Hk. left. reflexivity.
Qed.

(** Column [i] of the headers receives the stripped text of cell [i] after
    the cell at [index]. *)
Lemma fill_row_cells (items : list string) (hs : list string) :
  NoDup hs ->
  forall (index : nat) (r0 r : row),
    fill_row items index hs r0 = Ok r ->
    forall i h, nth_error hs i = Some h ->
      exists cell, nth_error items (index + i) = Some cell
                   /\ odict_get String.eqb h r = Some (Strptime.strip cell).
Proof.
  induction 1 as [|h0 hs Hnot Hnd IH]; intros index r0 r; cbn [fill_row].
  - intros _ i h Hi. destruct i; discriminate.
  - destruct (nth_error items index) as [cell0|] eqn:E; [|discriminate].
    intros H i h Hi. destruct i as [|i].
    + injection Hi as <-. exists cell0. rewrite Nat.add_0_r.
      split; [exact E|].
      rewrite (fill_row_frame _ _ _ _ _ _ H Hnot).
      apply (odict_get_set_same String.eqb string_eqb_eq).
    + cbn [nth_error] in Hi.
      destruct (IH _ _ _ H i h Hi) as (cell & Hc & Hg).
      exists cell. rewrite Nat.add_succ_r. tauto.
Qed.

Lemma fill_row_ok (items : list string) (hs : list string) :
  forall (index : nat) (r0 : row),
    (index + List.length hs <= List.length items)%nat ->
    exists r, fill_row items index hs r0 = Ok r.
Proof.
  induction hs as [|h hs IH]; intros index r0 H; cbn [fill_row].
  - eexists; reflexivity.
  - destruct (nth_error items index) as [cell|] eqn:E.
    + apply IH. simpl in H. lia.
    + apply nth_error_None in E. simpl in H. lia.
Qed.

Lemma parse_rows_ok (hs : list string) (rows : list (list string)) :
  Forall (fun items => (List.length hs < List.length items)%nat) rows ->
  forall res0, exists res, parse_rows rows hs res0 = Ok res.
Proof.
  induction 1 as [|items rows Hi _ IH]; intros res0; cbn [parse_rows].
  - eexists; reflexivity.
  - destruct items as [|hour_text cells]; [simpl in Hi; lia|].
    cbn [nth_error].
    destruct (fill_row_ok (hour_text :: cells) hs 1 []) as [r ->];
      [simpl in *; lia|].
    apply IH.
Qed.

(** Where the entries of the mapping come from. *)
Lemma parse_rows_from (hs : list string) (rows : list (list string)) :
  forall res0 res,
    parse_rows rows hs res0 = Ok res ->
    forall label r, In (label, r) res ->
      In (label, r) res0
      \/ exists items, In items rows /\ nth_error items 0 = Some label
                       /\ fill_row items 1 hs [] = Ok r.
Proof.
  induction rows as [|items rows IH]; intros res0 res; cbn [parse_rows].
  - intros H. injection H as <-. tauto.
  - destruct items as [|hour_text cells]; [discriminate|]. cbn [nth_error].
    destruct (fill_row (hour_text :: cells) 1 hs []) as [r1|e] eqn:Hfill;
      [|discriminate].
    intros H label r Hin.
    destruct (IH _ _ H label r Hin) as [Hin0|(items & Hi & Hl & Hf)].
    + apply (in_odict_set String.eqb string_eqb_eq) in Hin0 as [[-> ->]|Hin0];
        [|tauto].
      right. exists (hour_text :: cells). simpl. tauto.
    + right. exists items. simpl. tauto.
Qed.

(** The keys of the mapping: the labels of the rows, each once. *)
Lemma parse_rows_labels (hs : list string) (rows : list (list string)) :
  forall res0 res,
    parse_rows rows hs res0 = Ok res ->
    (NoDup (odict_keys res0) -> NoDup (odict_keys res))
    /\ forall label,
         In label (odict_keys res)
         <-> In label (odict_keys res0)
             \/ exists items, In items rows /\ nth_error items 0 = Some label.
Proof.
  induction rows as [|items rows IH]; intros res0 res; cbn [parse_rows].
  - intros H. injection H as <-. split; [tauto|].
    intros label. split; [tauto|]. intros [H|(items & [] & _)]. exact H.
  - destruct items as [|hour_text cells]; [discriminate|]. cbn [nth_error].
    destruct (fill_row (hour_text :: cells) 1 hs []) as [r1|e]; [|discriminate].
    intros H. destruct (IH _ _ H) as [Hnd Hkeys]. split.
    + intros H0. apply Hnd.
      apply (odict_set_nodup String.eqb string_eqb_eq). exact H0.
    + intros label. rewrite Hkeys.
      rewrite (keys_odict_set String.eqb string_eqb_eq). split.
      * intros [[->|H0]|(items & Hi & Hl)]; [| tauto |].
        -- right. exists (hour_text :: cells). simpl. tauto.
        -- right. exists items. simpl. tauto.
      * intros [H0|(items & [<-|Hi] & Hl)]; [tauto| |].
        -- simpl in Hl. injection Hl as ->. tauto.
        -- right. exists items. tauto.
Qed.

Lemma select_headers_nodup (dt : datetime) : NoDup (select_headers dt).
Proof.
  unfold select_headers.
  destruct (dt_ltb dt pm_subsume_date);
    repeat (constructor; [simpl; intuition discriminate|]); constructor.
Qed.

(** X5: what a call of [_get_nea_dict] ends in.  It raises the request's
    exception when the request fails and AttributeError when the document
    has no table; with a table it returns exactly when every row after the
    two header rows has more cells than there are columns, and raises
    IndexError as soon as one has not.  In every case the call has made
    one request, for its date. *)
Theorem get_nea_dict_outcome
    (requests_get : Z -> Z -> Z -> response) (y m d : Z) (st : state) :
  let dt_ymd := mkdt y m d 0 None in
  let out := _get_nea_dict requests_get dt_ymd st in
  requested (snd out) = requested st ++ [(y, m, d)]
  /\ (forall msg, requests_get y m d = RequestFails msg ->
                  fst out = Raise (RequestException msg))
  /\ (requests_get y m d = Document None -> fst out = Raise AttributeError)
  /\ (forall rows,
        requests_get y m d = Document (Some rows) ->
        (Forall (fun items =>
                   (List.length (select_headers dt_ymd) < List.length items)%nat)
                (skipn 2 rows) ->
         exists data, fst out = Ok (data, select_headers dt_ymd))
        /\ (Exists (fun items =>
                      (List.length items <= List.length (select_headers dt_ymd))%nat)
                   (skipn 2 rows) ->
            fst out = Raise IndexError)).
Proof.
  cbv zeta. unfold _get_nea_dict, record_request, date_of.
  cbn [year month day].
  split.
  { destruct (requests_get y m d) as [msg|[rows|]]; try reflexivity.
    destruct (parse_rows (skipn 2 rows) (select_headers (mkdt y m d 0 None)) []);
      reflexivity. }
  split; [intros msg ->; reflexivity|].
  split; [intros ->; reflexivity|].
  intros rows ->. split.
  - intros Hall.
    destruct (parse_rows_ok _ _ Hall []) as [res ->].
    exists res. reflexivity.
  - intros Hex. apply Exists_exists in Hex as (items & Hin & Hshort).
    rewrite parse_rows_short; [reflexivity|].
    exists items. split; [exact Hin|lia].
Qed.

Lemma get_nea_dict_outcome_witness :
  fst (_get_nea_dict (Samples.site_short_on (2016, 1, 2))
                     (mkdt 2016 1 2 0 None) initial_state)
  = Raise IndexError.
Proof.
  apply (proj2 (proj2 (proj2 (get_nea_dict_outcome
                                (Samples.site_short_on (2016, 1, 2))
                                2016 1 2 initial_state)))
           ([] :: [] :: [ "1am" :: repeat "55" 6; "2am" :: repeat "55" 6;
                          "3am" :: repeat "55" 5 ]) eq_refl).
  right. right. left. simpl. lia.
Defined.

(** X6: a row of the mapping is read off a row of the page by position:
    the entry under a label comes from a row, after the two header rows,
    whose first cell is that label, and its value for column number [i] of
    the column list is the text of the row's cell number [i + 1], with the
    whitespace at both ends removed and nothing else changed. *)
Theorem get_nea_dict_cells
    (requests_get : Z -> Z -> Z -> response) (y m d : Z) (st st' : state)
    (data : list (string * row)) (headers : list string)
    (label : string) (r : row) :
  _get_nea_dict requests_get (mkdt y m d 0 None) st
  = (Ok (data, headers), st') ->
  In (label, r) data ->
  exists rows items,
    requests_get y m d = Document (Some rows)
    /\ In items (skipn 2 rows) /\ nth_error items 0 = Some label
    /\ forall i h, nth_error headers i = Some h ->
         exists cell, nth_error items (S i) = Some cell
                      /\ odict_get String.eqb h r = Some (Strptime.strip cell)
                      /\ trimmed (Strptime.strip cell).
Proof.
  unfold _get_nea_dict. cbn [year month day].
  destruct (requests_get y m d) as [msg|[rows|]]; try discriminate.
  destruct (parse_rows (skipn 2 rows) (select_headers (mkdt y m d 0 None)) [])
    as [res|e] eqn:Hrows; [|discriminate].
  intros H Hin. injection H as <- <- _.
  destruct (parse_rows_from _ _ _ _ Hrows label r Hin)
    as [[]|(items & Hi & Hl & Hf)].
  exists rows, items. split; [reflexivity|]. split; [exact Hi|].
  split; [exact Hl|].
  intros i h Hh.
  destruct (fill_row_cells items _ (select_headers_nodup _) 1 [] r Hf i h Hh)
    as (cell & Hc & Hg).
  exists cell. split; [exact Hc|]. split; [exact Hg|].
  apply StripFacts.strip_trimmed.
Qed.

Lemma get_nea_dict_cells_witness :
  exists rows items,
    Samples.steady_site 2016 1 1 = Document (Some rows)
    /\ In items (skipn 2 rows) /\ nth_error items 0 = Some "3pm".
Proof.
  destruct (_get_nea_dict Samples.steady_site (mkdt 2016 1 1 0 None)
                          initial_state) as [[[data headers]|e] st'] eqn:E;
    [|vm_compute in E; discriminate].
  assert (In ("3pm", combine PSI_headers (repeat "55" 6)) data) as Hin.
  { vm_compute in E. injection E as <- _ _.
    do 14 right. left. reflexivity. }
  destruct (get_nea_dict_cells Samples.steady_site 2016 1 1 initial_state st'
              data headers "3pm" _ E Hin)
    as (rows & items & H1 & H2 & H3 & _).
  exists rows, items. exact (conj H1 (conj H2 H3)).
Defined.

(** X7: the mapping has one entry per hour label: its keys are exactly the
    first cells of the rows after the two header rows, and no key occurs
    twice even when the page repeats a label. *)
Theorem get_nea_dict_labels
    (requests_get : Z -> Z -> Z -> response) (y m d : Z) (st st' : state)
    (data : list (string * row)) (headers : list string) :
  _get_nea_dict requests_get (mkdt y m d 0 None) st
  = (Ok (data, headers), st') ->
  NoDup (odict_keys data)
  /\ exists rows,
       requests_get y m d = Document (Some rows)
       /\ forall label,
            In label (odict_keys data)
            <-> exists items, In items (skipn 2 rows)
                              /\ nth_error items 0 = Some label.
Proof.
  unfold _get_nea_dict. cbn [year month day].
  destruct (requests_get y m d) as [msg|[rows|]]; try discriminate.
  destruct (parse_rows (skipn 2 rows) (select_headers (mkdt y m d 0 None)) [])
    as [res|e] eqn:Hrows; [|discriminate].
  intros H. injection H as <- _ _.
  destruct (parse_rows_labels _ _ _ _ Hrows) as [Hnd Hkeys].
  split; [apply Hnd; constructor|].
  exists rows. split; [reflexivity|].
  intros label. rewrite Hkeys. simpl. tauto.
Qed.

Lemma get_nea_dict_labels_witness :
  exists data,
    fst (_get_nea_dict (Samples.site_mislabelled_on (2016, 1, 2))
                       (mkdt 2016 1 2 0 None) initial_state)
    = Ok (data, PSI_headers)
    /\ NoDup (odict_keys data).
Proof.
  destruct (_get_nea_dict (Samples.site_mislabelled_on (2016, 1, 2))
                          (mkdt 2016 1 2 0 None) initial_state)
    as [[[data headers]|e] st'] eqn:E; [|vm_compute in E; discriminate].
  exists data. split.
  - simpl. vm_compute in E. injection E as _ <- _. reflexivity.
  - exact (proj1 (get_nea_dict_labels _ 2016 1 2 initial_state st' data
                    headers E)).
Defined.

(* ===================================================================== *)
(** ** Any run of [_download_df] *)

Lemma parse_rows_raises (hs : list string) (rows : list (list string)) :
  forall res0 e, parse_rows rows hs res0 = Raise e -> e = IndexError.
Proof.
  induction rows as [|items rows IH]; intros res0 e; cbn [parse_rows];
    [discriminate|].
  destruct items as [|hour_text cells];
    [cbn [nth_error]; intros H; injection H as <-; reflexivity|].
  cbn [nth_error].
  destruct (fill_row (hour_text :: cells) 1 hs []) as [r|e'] eqn:E.
  - apply IH.
  - apply fill_row_raises in E. subst e'. intros H. injection H as <-.
    reflexivity.
Qed.

Section AnyRun.
Variable requests_get : Z -> Z -> Z -> response.

(** The loop over the hours only touches the table, and only ends in the
    exceptions of [_to_datetime]. *)
Lemma hour_loop_frame (y m d : Z) (data : list (string * row)) :
  forall st,
    let out := hour_loop y m d data st in
    stdout (snd out) = stdout st /\ requested (snd out) = requested st
    /\ df_headers (snd out) = df_headers st
    /\ (forall e, fst out = Raise e -> e = ValueError \/ e = OverflowError).
Proof.
  unfold hour_loop.
  induction data as [|kv data IH]; intros st; cbn [for_each].
  - simpl. repeat split; discriminate.
  - unfold bind at 1. unfold bind at 1. unfold lift, set_result.
    destruct (_to_datetime y m d (fst kv)) as [ts|e] eqn:E.
    + match goal with
      | |- context [for_each data ?f ?s] => destruct (IH s) as (H1 & H2 & H3 & H4)
      end.
      cbv zeta in *. cbn [stdout requested df_headers] in *. tauto.
    + cbv zeta. cbn [fst snd]. repeat split.
      intros e' H. injection H as <-.
      unfold _to_datetime, Strptime.strptime in E.
      destruct ((1000 <=? y) && Calendar.valid_date y m d); [|left; congruence].
      destruct (Strptime.parse_I_p (fst kv)) as [h|]; [|left; congruence].
      cbn [hour] in E. destruct (h =? 0); [|discriminate].
      unfold plus_one_day in E. cbn [year month day] in E.
      destruct (Calendar.next_day y m d) as [[[? ?] ?]|]; [discriminate|].
      right. congruence.
Qed.

(** What the body of the day loop does to the requests and the output,
    whatever the site answers. *)
Lemma day_body_trace (y m d : Z) (st : state) :
  let out := day_body requests_get y m d st in
  (Calendar.valid_date y m d = false /\ out = (Raise ValueError, st))
  \/ (Calendar.valid_date y m d = true
      /\ requested (snd out) = requested st ++ [(y, m, d)]
      /\ stdout (snd out) = stdout st ++ error_line requests_get (y, m, d)).
Proof.
  cbv zeta. destruct (Calendar.valid_date y m d) eqn:Hv.
  - right. split; [reflexivity|].
    rewrite (day_body_unfold requests_get y m d st Hv).
    unfold try_except, bind at 1. unfold _get_nea_dict, error_line.
    cbn [year month day]. unfold record_request, date_of. cbn [year month day].
    destruct (requests_get y m d) as [msg|[rows|]].
    + simpl. tauto.
    + destruct (parse_rows (skipn 2 rows) (select_headers (mkdt y m d 0 None)) [])
        as [res|e] eqn:Hrows.
      * unfold bind, get_df_headers. cbn [fst snd df_headers].
        match goal with
        | |- context [if ?c then set_df_headers ?h else ret tt] =>
            destruct c; unfold set_df_headers, ret
        end;
          match goal with
          | |- context [hour_loop y m d res ?s] =>
              destruct (hour_loop_frame y m d res s) as (H1 & H2 & _ & H4);
              destruct (hour_loop y m d res s) as [[[]|e] s'] eqn:Hloop
          end;
          cbv zeta in *; cbn [fst snd stdout requested] in *;
          try (rewrite H1, H2, app_nil_r; tauto);
          destruct (H4 e eq_refl) as [-> | ->];
          cbn [fst snd]; rewrite H1, H2, app_nil_r; tauto.
      * apply parse_rows_raises in Hrows. subst e. simpl.
        rewrite app_nil_r. tauto.
    + simpl. rewrite app_nil_r. tauto.
  - left. split; [reflexivity|].
    unfold day_body, try_except, bind at 1, lift, datetime_ymd.
    rewrite Hv. reflexivity.
Qed.

(** A run over a list of actions gets past an initial part of it; the
    requests and the output are those of that part. *)
Lemma run_trace (acts : list action) :
  forall st,
    let out := for_each acts (run_action requests_get) st in
    exists acts1 acts2,
      acts = acts1 ++ acts2
      /\ requested (snd out) = requested st ++ visits acts1
      /\ stdout (snd out) = stdout st ++ flat_map (printed_by requests_get) acts1
      /\ (fst out = Ok tt -> acts2 = []).
Proof.
  induction acts as [|a acts IH]; intros st; cbv zeta.
  - exists [], []. simpl. rewrite !app_nil_r. tauto.
  - cbn [for_each]. unfold bind.
    destruct a as [y m|y m d]; cbn [run_action].
    + unfold print. cbv beta iota.
      match goal with
      | |- context [for_each acts ?f ?s] =>
          pose proof (IH s) as IH1; cbv zeta in IH1;
          destruct (for_each acts f s) as [r1 st1]
      end.
      cbn [fst snd stdout requested] in *.
      destruct IH1 as (a1 & a2 & -> & H1 & H2 & H3).
      exists (Say y m :: a1), a2.
      change (visits (Say y m :: a1)) with (visits a1).
      cbn [app flat_map printed_by].
      rewrite H1, H2, <- app_assoc. repeat split. exact H3.
    + destruct (day_body_trace y m d st) as [[Hv Hout]|(Hv & Hreq & Hprint)];
        cbv zeta in *.
      * rewrite Hout. exists [], (Visit y m d :: acts). simpl.
        rewrite !app_nil_r. repeat split. discriminate.
      * destruct (day_body requests_get y m d st) as [[[]|e] st1] eqn:Hd;
          cbn [fst snd] in *.
        -- pose proof (IH st1) as IH1. cbv zeta in IH1.
           destruct (for_each acts (run_action requests_get) st1) as [r2 st2].
           cbn [fst snd] in *.
           destruct IH1 as (a1 & a2 & -> & H1 & H2 & H3).
           exists (Visit y m d :: a1), a2.
           change (visits (Visit y m d :: a1)) with ((y, m, d) :: visits a1).
           cbn [app flat_map printed_by].
           rewrite H1, H2, Hreq, Hprint, <- !app_assoc. repeat split. exact H3.
        -- exists [Visit y m d], acts.
           change (visits [Visit y m d]) with [(y, m, d)].
           cbn [app flat_map printed_by].
           rewrite Hreq, Hprint, !app_nil_r. repeat split. discriminate.
Qed.

End AnyRun.

Lemma sorted_app_l {B} (R : B -> B -> Prop) (l1 l2 : list B) :
  StronglySorted R (l1 ++ l2) -> StronglySorted R l1.
Proof.
  induction l1 as [|x l1 IH]; simpl; intros H; [constructor|].
  inversion H as [|? ? Hs Hx]; subst. constructor; [auto|].
  apply Forall_app in Hx. tauto.
Qed.

Lemma date_lt_irrefl (a : Z * Z * Z) : ~ date_lt a a.
Proof. destruct a as [[y m] d]. unfold date_lt. lia. Qed.

Lemma sorted_nodup (l : list (Z * Z * Z)) :
  StronglySorted date_lt l -> NoDup l.
Proof.
  induction 1 as [|x l _ IH Hx]; constructor; [|exact IH].
  intros Hin. rewrite Forall_forall in Hx.
  exact (date_lt_irrefl x (Hx x Hin)).
Qed.

Lemma progress_app (a b : list event) :
  progress (a ++ b) = progress a ++ progress b.
Proof. unfold progress. apply filter_app. Qed.

Section AnyDownload.
Variable requests_get : Z -> Z -> Z -> response.
Variable today_year : Z.
Variables (year_start : Z) (year_end : option Z).
Variables (month_start month_end day_start : Z).
Variable day_end : option Z.
Variable verbose : bool.

Hypothesis Hmonth_start : 1 <= month_start.
Hypothesis Hmonth_end : month_end <= 12.

(** Whatever the site answers, the run gets past an initial part of its
    schedule and stops there or completes. *)
Lemma download_df_trace :
  exists acts1 acts2 st,
    snd (_download_df requests_get today_year year_start year_end month_start
                      month_end day_start day_end verbose initial_state) = st
    /\ schedule year_start (year_end_or_today today_year year_end)
                month_start month_end day_start day_end verbose
       = acts1 ++ acts2
    /\ requested st = visits acts1
    /\ stdout st = flat_map (printed_by requests_get) acts1
    /\ (forall df,
          fst (_download_df requests_get today_year year_start year_end
                            month_start month_end day_start day_end verbose
                            initial_state) = Ok df -> acts2 = []).
Proof.
  unfold _download_df, bind.
  rewrite download_loops_schedule by assumption.
  destruct (run_trace requests_get
              (schedule year_start (year_end_or_today today_year year_end)
                        month_start month_end day_start day_end verbose)
              initial_state) as (a1 & a2 & Heq & H1 & H2 & H3).
  cbv zeta in *.
  destruct (for_each _ (run_action requests_get) initial_state)
    as [[[]|e] st1]; cbn [fst snd] in *.
  - exists a1, a2, st1. simpl in H1, H2. repeat split; auto.
  - exists a1, a2, st1. simpl in H1, H2. repeat split; auto. discriminate.
Qed.

End AnyDownload.

Lemma for_each_preserves {A} (I : state -> Prop) (body : A -> M unit)
    (l : list A) :
  (forall x st, I st -> I (snd (body x st))) ->
  forall st, I st -> I (snd (for_each l body st)).
Proof.
  intros Hbody. induction l as [|x l IH]; intros st Hst; [exact Hst|].
  cbn [for_each]. unfold bind.
  pose proof (Hbody x st Hst) as H1.
  destruct (body x st) as [[[]|e] st1]; cbn [snd] in *; auto.
Qed.

Lemma run_action_valid (requests_get : Z -> Z -> Z -> response) (a : action)
    (st : state) :
  Forall (fun D => date_valid D = true) (requested st) ->
  Forall (fun D => date_valid D = true)
         (requested (snd (run_action requests_get a st))).
Proof.
  destruct a as [y m|y m d]; cbn [run_action].
  - unfold print. cbn [snd requested]. auto.
  - destruct (day_body_trace requests_get y m d st)
      as [[Hv Hout]|(Hv & Hreq & _)]; cbv zeta in *.
    + rewrite Hout. auto.
    + rewrite Hreq. intros H. apply Forall_app. split; [exact H|].
      constructor; [exact Hv|constructor].
Qed.

(** Every day requested is a calendar date: the request comes after
    [datetime.datetime(year, month, day)]. *)
Lemma download_df_requests_valid
    (requests_get : Z -> Z -> Z -> response) (today_year : Z)
    (year_start : Z) (year_end : option Z)
    (month_start month_end day_start : Z) (day_end : option Z)
    (verbose : bool) :
  1 <= month_start -> month_end <= 12 ->
  Forall (fun D => date_valid D = true)
         (requested
            (snd (_download_df requests_get today_year year_start year_end
                               month_start month_end day_start day_end verbose
                               initial_state))).
Proof.
  intros Hms Hme. unfold _download_df, bind.
  rewrite download_loops_schedule by assumption.
  pose proof (for_each_preserves
                (fun st => Forall (fun D => date_valid D = true) (requested st))
                (run_action requests_get)
                (schedule year_start (year_end_or_today today_year year_end)
                          month_start month_end day_start day_end verbose)
                (run_action_valid requests_get)
                initial_state (Forall_nil _)) as H.
  destruct (for_each _ (run_action requests_get) initial_state)
    as [[[]|e] st1]; cbn [snd] in *; exact H.
Qed.

(** X8: the days requested, in calendar terms.  In every run of
    [_download_df], whatever the site answers and however the run ends,
    the days are requested in strictly ascending calendar order, none
    twice, and each of them is a calendar date whose month lies in
    [month_start..month_end]; a run that returns a table has requested
    exactly the calendar dates from the start date to the end date whose
    month lies in [month_start..month_end].  So of a range over several
    years the dates in the months outside that window are not requested,
    in any year. *)
Theorem download_df_requests_in_order
    (requests_get : Z -> Z -> Z -> response) (today_year : Z)
    (year_start year_end month_start month_end day_start day_end : Z)
    (verbose : bool) :
  1 <= month_start -> month_end <= 12 ->
  let out := _download_df requests_get today_year year_start (Some year_end)
                          month_start month_end day_start (Some day_end)
                          verbose initial_state in
  StronglySorted date_lt (requested (snd out))
  /\ NoDup (requested (snd out))
  /\ (forall y m d,
        In (y, m, d) (requested (snd out)) ->
        Calendar.valid_date y m d = true /\ month_start <= m <= month_end)
  /\ (forall df,
        fst out = Ok df ->
        forall y m d,
          In (y, m, d) (requested (snd out)) <->
          Calendar.valid_date y m d = true
          /\ ~ date_lt (y, m, d) (year_start, month_start, day_start)
          /\ ~ date_lt (year_end, month_end, day_end) (y, m, d)
          /\ month_start <= m <= month_end).
Proof.
  intros Hms Hme. cbv zeta.
  pose proof (download_df_requests_valid requests_get today_year year_start
                (Some year_end) month_start month_end day_start (Some day_end)
                verbose Hms Hme) as Hvalid.
  destruct (download_df_trace requests_get today_year year_start
              (Some year_end) month_start month_end day_start (Some day_end)
              verbose Hms Hme)
    as (a1 & a2 & st & Hst & Heq & Hreq & _ & Hdone).
  rewrite Hst in *.
  pose proof (visits_schedule year_start
                (year_end_or_today today_year (Some year_end)) month_start
                month_end day_start (Some day_end) verbose) as Hv.
  cbn [year_end_or_today] in Hv, Heq.
  rewrite Heq, visits_app in Hv.
  assert (StronglySorted date_lt (requested st)) as Hsorted.
  { rewrite Hreq. apply sorted_app_l with (l2 := visits a2).
    rewrite Hv. apply visited_ascending. }
  rewrite Forall_forall in Hvalid.
  assert (forall y m d, In (y, m, d) (requested st) ->
            In (y, m, d) (visited year_start year_end month_start month_end
                                  day_start (Some day_end))) as Hin.
  { intros y m d H. rewrite <- Hv. apply in_or_app. left.
    rewrite <- Hreq. exact H. }
  split; [exact Hsorted|]. split; [apply sorted_nodup; exact Hsorted|].
  split.
  - intros y m d H. split; [exact (Hvalid _ H)|].
    apply Hin in H. apply in_visited in H. lia.
  - intros df Hdf y m d.
    assert (requested st
            = visited year_start year_end month_start month_end day_start
                      (Some day_end)) as Hall.
    { rewrite <- Hv, (Hdone df Hdf). cbn [visits]. rewrite app_nil_r.
      exact Hreq. }
    split.
    + intros H. split; [exact (Hvalid _ H)|].
      pose proof (visited_within_range _ _ _ _ _ _ _ _ _ (Hin _ _ _ H))
        as [H1 H2].
      apply Hin in H. apply in_visited in H. repeat split; try lia; assumption.
    + intros (Hval & Hge & Hle & Hm). rewrite Hall. apply in_visited.
      apply CalendarFacts.valid_date_spec in Hval.
      unfold first_day_of, last_day_of. unfold date_lt in Hge, Hle.
      destruct ((y =? year_start) && (m =? month_start)) eqn:E1;
        destruct ((y =? year_end) && (m =? month_end)) eqn:E2;
        rewrite ?andb_true_iff, ?andb_false_iff, ?Z.eqb_eq, ?Z.eqb_neq
          in E1, E2;
        unfold Calendar.monthrange; lia.
Qed.

Lemma download_df_requests_in_order_witness :
  let out := _download_df Samples.steady_site 2016 2010 (Some 2011) 12 12 31
                          (Some 1) false initial_state in
  StronglySorted date_lt (requested (snd out))
  /\ NoDup (requested (snd out))
  /\ (forall y m d,
        In (y, m, d) (requested (snd out)) ->
        Calendar.valid_date y m d = true /\ 12 <= m <= 12)
  /\ (forall df,
        fst out = Ok df ->
        forall y m d,
          In (y, m, d) (requested (snd out)) <->
          Calendar.valid_date y m d = true
          /\ ~ date_lt (y, m, d) (2010, 12, 31)
          /\ ~ date_lt (2011, 12, 1) (y, m, d)
          /\ 12 <= m <= 12).
Proof.
  exact (download_df_requests_in_order Samples.steady_site 2016 2010 2011
           12 12 31 1 false ltac:(lia) ltac:(lia)).
Defined.

(** X9: no run of [_download_df] requests a day outside the range: every
    requested day lies between the start date and the end date. *)
Theorem download_df_requests_in_range
    (requests_get : Z -> Z -> Z -> response) (today_year : Z)
    (year_start year_end month_start month_end day_start day_end : Z)
    (verbose : bool) (y m d : Z) :
  1 <= month_start -> month_end <= 12 ->
  In (y, m, d)
     (requested
        (snd (_download_df requests_get today_year year_start (Some year_end)
                           month_start month_end day_start (Some day_end)
                           verbose initial_state))) ->
  ~ date_lt (y, m, d) (year_start, month_start, day_start)
  /\ ~ date_lt (year_end, month_end, day_end) (y, m, d).
Proof.
  intros Hms Hme Hin.
  destruct (download_df_trace requests_get today_year year_start
              (Some year_end) month_start month_end day_start (Some day_end)
              verbose Hms Hme)
    as (a1 & a2 & st & Hst & Heq & Hreq & _ & _).
  rewrite Hst, Hreq in Hin.
  pose proof (visits_schedule year_start year_end month_start month_end
                day_start (Some day_end) verbose) as Hv.
  cbn [year_end_or_today] in Heq. rewrite Heq, visits_app in Hv.
  apply visited_within_range. rewrite <- Hv. apply in_or_app. tauto.
Qed.

Lemma download_df_requests_in_range_witness :
  ~ date_lt (2016, 2, 29) (2016, 2, 28) /\ ~ date_lt (2016, 3, 1) (2016, 2, 29).
Proof.
  apply (download_df_requests_in_range (Samples.site_down_on (2016, 2, 29))
           2016 2016 2016 2 3 28 1 true 2016 2 29); [lia|lia|].
  vm_compute. right. left. reflexivity.
Defined.

Lemma errors_printed_by (requests_get : Z -> Z -> Z -> response)
    (acts : list action) :
  errors (flat_map (printed_by requests_get) acts)
  = flat_map (error_line requests_get) (visits acts).
Proof.
  induction acts as [|a acts IH]; [reflexivity|].
  cbn [flat_map]. rewrite errors_app, IH.
  destruct a as [y m|y m d]; [reflexivity|].
  change (visits (Visit y m d :: acts)) with ((y, m, d) :: visits acts).
  cbn [flat_map printed_by]. f_equal.
  unfold error_line. destruct (requests_get y m d); reflexivity.
Qed.

(** X10: in every run of [_download_df] the error lines printed are
    exactly those of the requested days whose request raised, one each, in
    the order of the days; a day that ends the run with another exception
    leaves no error line. *)
Theorem download_df_error_lines
    (requests_get : Z -> Z -> Z -> response) (today_year : Z)
    (year_start : Z) (year_end : option Z)
    (month_start month_end day_start : Z) (day_end : option Z)
    (verbose : bool) :
  1 <= month_start -> month_end <= 12 ->
  let st := snd (_download_df requests_get today_year year_start year_end
                              month_start month_end day_start day_end verbose
                              initial_state) in
  errors (stdout st) = flat_map (error_line requests_get) (requested st)
  /\ forall y m d msg,
       In (ErrorFor y m d msg) (stdout st)
       <-> In (y, m, d) (requested st)
           /\ requests_get y m d = RequestFails msg.
Proof.
  intros Hms Hme. cbv zeta.
  destruct (download_df_trace requests_get today_year year_start year_end
              month_start month_end day_start day_end verbose Hms Hme)
    as (a1 & a2 & st & -> & _ & Hreq & Hout & _).
  assert (errors (stdout st)
          = flat_map (error_line requests_get) (requested st)) as Herr
    by (rewrite Hout, Hreq; apply errors_printed_by).
  split; [exact Herr|].
  intros y m d msg.
  assert (In (ErrorFor y m d msg) (stdout st)
          <-> In (ErrorFor y m d msg) (errors (stdout st))) as ->.
  { unfold errors. rewrite filter_In. tauto. }
  rewrite Herr, in_flat_map. split.
  - intros ([[y' m'] d'] & Hin & He). unfold error_line in He.
    destruct (requests_get y' m' d') as [msg'|t] eqn:E; [|destruct He].
    destruct He as [He|[]]. injection He as -> -> -> ->. tauto.
  - intros [Hin Hf]. exists (y, m, d). split; [exact Hin|].
    unfold error_line. rewrite Hf. left. reflexivity.
Qed.

Lemma download_df_error_lines_witness :
  1 <= 2 /\ 3 <= 12
  /\ errors (stdout (snd (_download_df (Samples.site_down_on (2016, 2, 29))
                                       2016 2016 (Some 2016) 2 3 28 (Some 1)
                                       true initial_state)))
     = [ErrorFor 2016 2 29 "timed out"].
Proof.
  split; [lia|]. split; [lia|].
  rewrite (proj1 (download_df_error_lines (Samples.site_down_on (2016, 2, 29))
                    2016 2016 (Some 2016) 2 3 28 (Some 1) true
                    ltac:(lia) ltac:(lia))).
  reflexivity.
Defined.

Lemma progress_error_line (requests_get : Z -> Z -> Z -> response)
    (date : Z * Z * Z) :
  progress (error_line requests_get date) = [].
Proof.
  destruct date as [[y m] d]. unfold error_line.
  destruct (requests_get y m d); reflexivity.
Qed.

Lemma progress_visits (requests_get : Z -> Z -> Z -> response) (y m : Z)
    (days : list Z) :
  progress (flat_map (printed_by requests_get) (map (Visit y m) days)) = [].
Proof.
  induction days as [|d days IH]; [reflexivity|].
  cbn [map flat_map printed_by]. rewrite progress_app, IH, app_nil_r.
  apply progress_error_line.
Qed.

Lemma progress_months (requests_get : Z -> Z -> Z -> response)
    (ys ye ms me ds : Z) (de : option Z) (verbose : bool) (y : Z)
    (months : list Z) :
  progress (flat_map (printed_by requests_get)
              (flat_map (month_schedule ys ye ms me ds de verbose y) months))
  = if verbose
    then map (fun ym => Processing (fst ym) (snd ym))
             (map (fun m => (y, m)) months)
    else [].
Proof.
  induction months as [|m months IHm].
  - destruct verbose; reflexivity.
  - cbn [flat_map]. rewrite flat_map_app, progress_app, IHm.
    unfold month_schedule. rewrite flat_map_app, progress_app.
    rewrite progress_visits, app_nil_r.
    destruct verbose; reflexivity.
Qed.

(** The progress lines of the whole schedule. *)
Lemma progress_schedule (requests_get : Z -> Z -> Z -> response)
    (ys ye ms me ds : Z) (de : option Z) (verbose : bool) :
  progress (flat_map (printed_by requests_get)
                     (schedule ys ye ms me ds de verbose))
  = if verbose
    then map (fun ym => Processing (fst ym) (snd ym)) (months_reached ys ye ms me)
    else [].
Proof.
  unfold schedule, months_reached.
  induction (range ys (ye + 1)) as [|y years IHy].
  - destruct verbose; reflexivity.
  - cbn [flat_map]. rewrite flat_map_app, progress_app, IHy, progress_months.
    destruct verbose; [|reflexivity].
    rewrite map_app. reflexivity.
Qed.

(** X11: the progress lines.  Without [verbose] no run prints one; with
    [verbose], a run that returns a table has printed one line per (year,
    month) pair of the two outer loops, in their order: for every year,
    the months [month_start..month_end]. *)
Theorem download_df_progress_lines
    (requests_get : Z -> Z -> Z -> response) (today_year : Z)
    (year_start : Z) (year_end : option Z)
    (month_start month_end day_start : Z) (day_end : option Z)
    (verbose : bool) :
  1 <= month_start -> month_end <= 12 ->
  let out := _download_df requests_get today_year year_start year_end
                          month_start month_end day_start day_end verbose
                          initial_state in
  (verbose = false -> progress (stdout (snd out)) = [])
  /\ (verbose = true -> forall df, fst out = Ok df ->
      progress (stdout (snd out))
      = map (fun ym => Processing (fst ym) (snd ym))
            (months_reached year_start
                            (year_end_or_today today_year year_end)
                            month_start month_end)).
Proof.
  intros Hms Hme. cbv zeta.
  destruct (download_df_trace requests_get today_year year_start year_end
              month_start month_end day_start day_end verbose Hms Hme)
    as (a1 & a2 & st & -> & Heq & _ & Hout & Hdone).
  pose proof (progress_schedule requests_get year_start
                (year_end_or_today today_year year_end) month_start month_end
                day_start day_end verbose) as Hp.
  rewrite Heq, flat_map_app, progress_app, <- Hout in Hp.
  split.
  - intros ->. apply app_eq_nil in Hp. tauto.
  - intros -> df Hdf. rewrite (Hdone df Hdf) in Hp. simpl in Hp.
    rewrite app_nil_r in Hp. exact Hp.
Qed.

Lemma download_df_progress_lines_witness :
  progress (stdout (snd (_download_df Samples.steady_site 2016 2015
                                      (Some 2016) 11 12 30 (Some 1) true
                                      initial_state)))
  = [Processing 2015 11; Processing 2015 12;
     Processing 2016 11; Processing 2016 12].
Proof.
  destruct (_download_df Samples.steady_site 2016 2015 (Some 2016) 11 12 30
                         (Some 1) true initial_state) as [[df|e] st] eqn:E;
    [|vm_compute in E; discriminate].
  pose proof (proj2 (download_df_progress_lines Samples.steady_site 2016 2015
                       (Some 2016) 11 12 30 (Some 1) true
                       ltac:(lia) ltac:(lia)) eq_refl) as H.
  cbv zeta in H. rewrite E in H. exact (H df eq_refl).
Defined.

(* ===================================================================== *)
(** ** The table a run returns *)

Lemma to_datetime_stamp_ok (y m d : Z) (hour_text : string) (ts : datetime) :
  _to_datetime y m d hour_text = Ok ts -> stamp_ok ts.
Proof.
  intros H. apply to_datetime_window in H. unfold stamp_ok. tauto.
Qed.

(** The keys of the table: none twice, all well-formed timestamps. *)
Section TableKeys.
Variable requests_get : Z -> Z -> Z -> response.

Lemma hour_loop_keys (y m d : Z) (data : list (string * row)) :
  forall st, keys_ok st -> keys_ok (snd (hour_loop y m d data st)).
Proof.
  unfold hour_loop. apply for_each_preserves.
  intros kv st [Hnd Hok]. unfold bind, lift, set_result.
  destruct (_to_datetime y m d (fst kv)) as [ts|e] eqn:E;
    [|split; assumption].
  cbn [snd]. unfold keys_ok. cbn [result_odict]. split.
  - apply (odict_set_nodup dt_eqb dt_eqb_eq). exact Hnd.
  - apply Forall_forall. intros k Hk.
    apply (keys_odict_set dt_eqb dt_eqb_eq) in Hk as [->|Hk].
    + exact (to_datetime_stamp_ok _ _ _ _ _ E).
    + rewrite Forall_forall in Hok. auto.
Qed.

Lemma day_body_keys (y m d : Z) :
  forall st, keys_ok st -> keys_ok (snd (day_body requests_get y m d st)).
Proof.
  intros st Hst. unfold day_body, try_except, bind at 1, lift, datetime_ymd.
  destruct (Calendar.valid_date y m d); [|exact Hst].
  unfold bind at 1. unfold _get_nea_dict, record_request.
  cbn [year month day].
  destruct (requests_get y m d) as [msg|[rows|]]; try exact Hst.
  destruct (parse_rows (skipn 2 rows) (select_headers (mkdt y m d 0 None)) [])
    as [res|e] eqn:Hrows.
  - unfold bind, get_df_headers. cbn [fst snd df_headers].
    match goal with
    | |- context [if ?c then set_df_headers ?h else ret tt] =>
        destruct c; unfold set_df_headers, ret
    end;
      match goal with
      | |- context [hour_loop y m d res ?s] =>
          pose proof (hour_loop_keys y m d res s Hst) as Hk;
          destruct (hour_loop y m d res s) as [[[]|e] s']
      end;
      cbn [snd] in *; try exact Hk; destruct e; exact Hk.
  - apply parse_rows_raises in Hrows. subst e. exact Hst.
Qed.

Lemma download_loops_keys (ys ye ms me ds : Z) (de : option Z) (verbose : bool) :
  forall st, keys_ok st ->
    keys_ok (snd (download_loops requests_get ys ye ms me ds de verbose st)).
Proof.
  unfold download_loops. apply for_each_preserves. intros yr.
  apply for_each_preserves. intros mo st Hst.
  unfold month_body, bind, lift, print, ret.
  destruct verbose; cbn [snd];
    (destruct (Calendar.monthrange yr mo) as [nd|e]; [|exact Hst]);
    apply for_each_preserves; [intros dy; apply day_body_keys|exact Hst
                              |intros dy; apply day_body_keys|exact Hst].
Qed.

End TableKeys.

Lemma getitem_columns_index (d df : DataFrame) (hs : list string) :
  getitem_columns d hs = Ok df -> index df = index d.
Proof.
  unfold getitem_columns.
  destruct (forallb _ hs); [|discriminate].
  intros H. injection H as <-. unfold index. cbn [frame].
  rewrite map_map. reflexivity.
Qed.

Lemma index_from_dict (tbl : list (datetime * row)) :
  index (from_dict_index tbl) = odict_keys tbl.
Proof.
  unfold index, from_dict_index, odict_keys. cbn [frame].
  rewrite map_map. reflexivity.
Qed.

(** X12: whatever the site answers, a table that [_download_df] returns
    has no timestamp twice in its index, and every timestamp of the index
    is a valid date at a whole hour from 0 to 23 with the offset +08:00. *)
Theorem download_df_index_unique
    (requests_get : Z -> Z -> Z -> response) (today_year : Z)
    (year_start : Z) (year_end : option Z)
    (month_start month_end day_start : Z) (day_end : option Z)
    (verbose : bool) (df : DataFrame) :
  fst (_download_df requests_get today_year year_start year_end month_start
                    month_end day_start day_end verbose initial_state)
  = Ok df ->
  NoDup (index df) /\ Forall stamp_ok (index df).
Proof.
  unfold _download_df, bind.
  pose proof (download_loops_keys requests_get year_start
                (year_end_or_today today_year year_end) month_start month_end
                day_start day_end verbose initial_state) as Hk.
  destruct (download_loops requests_get year_start
              (year_end_or_today today_year year_end) month_start month_end
              day_start day_end verbose initial_state) as [[[]|e] st];
    cbn [fst snd] in *; [|discriminate].
  intros H. apply getitem_columns_index in H.
  rewrite H, index_from_dict. apply Hk.
  split; constructor.
Qed.

Lemma download_df_index_unique_witness :
  NoDup (index Samples.two_days).
Proof.
  apply (download_df_index_unique Samples.steady_site 2016 2016 (Some 2016)
           1 1 1 (Some 2) false Samples.two_days).
  vm_compute. reflexivity.
Defined.

(* ===================================================================== *)
(** ** Columns and missing values *)

Section Columns.
Variable requests_get : Z -> Z -> Z -> response.

Lemma headers_at_cases (date : Z * Z * Z) :
  (date_lt date (2014, 4, 1) /\ headers_at date = PSI_headers ++ PM25_headers)
  \/ (~ date_lt date (2014, 4, 1) /\ headers_at date = PSI_headers).
Proof.
  destruct date as [[y m] d]. unfold headers_at, select_headers.
  cbn [fst snd].
  destruct (dt_ltb (mkdt y m d 0 None) pm_subsume_date) eqn:E.
  - left. split; [apply dt_ltb_cutoff; exact E|reflexivity].
  - right. split; [|reflexivity].
    intros H. apply dt_ltb_cutoff in H. congruence.
Qed.

(** [df_headers] never gets shorter, and is at least as long as the
    column list of every day that returned data. *)
Lemma headers_of_longest (dates : list (Z * Z * Z)) :
  forall hs,
    (List.length hs <= List.length (headers_of requests_get dates hs))%nat
    /\ forall date data,
         In date dates -> day_data requests_get date = Some data ->
         (List.length (headers_at date)
          <= List.length (headers_of requests_get dates hs))%nat.
Proof.
  induction dates as [|date0 dates IH]; intros hs.
  - split; [simpl; lia|]. intros date data [].
  - rewrite headers_of_cons.
    match goal with
    | |- context [headers_of requests_get dates ?h0] =>
        destruct (IH h0) as [Hge Hall];
        assert (List.length hs <= List.length h0
                /\ (forall data, day_data requests_get date0 = Some data ->
                      List.length (headers_at date0) <= List.length h0))%nat
          as [Hhs H0]
    end.
    { destruct (day_data requests_get date0) as [data0|];
        [|split; [lia|discriminate]].
      destruct (List.length hs <? List.length (headers_at date0))%nat eqn:E.
      - apply Nat.ltb_lt in E. split; [lia|]. intros _ _. lia.
      - apply Nat.ltb_ge in E. split; [lia|]. intros _ _. exact E. }
    split; [lia|].
    intros date data [<-|Hin] Hdata.
    + specialize (H0 data Hdata). lia.
    + exact (Hall date data Hin Hdata).
Qed.

End Columns.

(** X13: the columns of the table.  In a run in which every day of the
    range succeeds or has its request fail, the table has the 12 columns
    (PSI, then PM2.5) as soon as one successful day lies before
    2014-04-01, the 6 PSI columns when there are successful days but none
    before 2014-04-01, and neither columns nor rows when no day
    succeeds. *)
Theorem download_df_columns
    (requests_get : Z -> Z -> Z -> response) (today_year : Z)
    (year_start : Z) (year_end : option Z)
    (month_start month_end day_start : Z) (day_end : option Z)
    (verbose : bool) :
  1 <= month_start -> month_end <= 12 ->
  let days := visited year_start (year_end_or_today today_year year_end)
                      month_start month_end day_start day_end in
  Forall (day_recovers requests_get) days ->
  exists df st,
    _download_df requests_get today_year year_start year_end month_start
                 month_end day_start day_end verbose initial_state
    = (Ok df, st)
    /\ ((exists date, In date days
                      /\ day_succeeds requests_get date = true
                      /\ date_lt date (2014, 4, 1)) ->
        columns df = PSI_headers ++ PM25_headers)
    /\ ((exists date, In date days /\ day_succeeds requests_get date = true) ->
        (forall date, In date days -> day_succeeds requests_get date = true ->
                      ~ date_lt date (2014, 4, 1)) ->
        columns df = PSI_headers)
    /\ ((forall date, In date days -> day_succeeds requests_get date = false) ->
        columns df = [] /\ frame df = []).
Proof.
  intros Hms Hme days Hall.
  destruct (download_df_collects requests_get today_year year_start year_end
              month_start month_end day_start day_end verbose Hms Hme Hall)
    as (st & Hrun & _ & _).
  fold days in Hrun.
  eexists. exists st. split; [exact Hrun|]. cbn [columns frame table_frame].
  assert (forall date data,
             In date days -> day_data requests_get date = Some data ->
             day_succeeds requests_get date = true) as Hdata_ok.
  { intros date data Hin Hdata. rewrite Forall_forall in Hall.
    destruct (Hall date Hin) as [Hs|[msg Hf]]; [exact Hs|].
    rewrite (fetch_fails_no_data _ _ _ Hf) in Hdata. discriminate. }
  destruct (headers_of_longest requests_get days []) as [_ Hlong].
  split; [|split].
  - intros (date & Hin & Hs & Hlt).
    destruct (day_succeeds_document _ _ Hs) as (_ & data & _ & Hdata).
    specialize (Hlong date data Hin Hdata).
    destruct (headers_at_cases date) as [[_ Hh]|[Hge _]]; [|contradiction].
    rewrite Hh in Hlong.
    destruct (headers_of_cases requests_get days [])
      as [H|(date' & data' & Hin' & Hdata' & H)];
      rewrite H in *; [simpl in Hlong; lia|].
    destruct (headers_at_cases date') as [[_ Hh']|[_ Hh']];
      rewrite Hh' in *; [reflexivity|simpl in Hlong; lia].
  - intros (date & Hin & Hs) Hnone.
    destruct (day_succeeds_document _ _ Hs) as (_ & data & _ & Hdata).
    specialize (Hlong date data Hin Hdata).
    destruct (headers_of_cases requests_get days [])
      as [H|(date' & data' & Hin' & Hdata' & H)]; rewrite H in *.
    + destruct (headers_at_cases date) as [[_ Hh]|[_ Hh]];
        rewrite Hh in Hlong; simpl in Hlong; lia.
    + destruct (headers_at_cases date') as [[Hlt _]|[_ Hh']]; [|exact Hh'].
      exfalso. exact (Hnone date' Hin' (Hdata_ok _ _ Hin' Hdata') Hlt).
  - intros Hnone. split.
    + destruct (headers_of_cases requests_get days [])
        as [H|(date' & data' & Hin' & Hdata' & _)]; [exact H|].
      specialize (Hnone date' Hin'). rewrite (Hdata_ok _ _ Hin' Hdata') in Hnone.
      discriminate.
    + destruct (table_of requests_get days []) as [|[ts r] tbl] eqn:E;
        [reflexivity|].
      assert (In (ts, r) (table_of requests_get days [])) as Hin
        by (rewrite E; left; reflexivity).
      apply table_of_in in Hin as [[]|(date & data & label & Hd & Hdata & _)].
      specialize (Hnone date Hd). rewrite (Hdata_ok _ _ Hd Hdata) in Hnone.
      discriminate.
Qed.

Lemma download_df_columns_witness :
  exists df st,
    _download_df (Samples.site_down_on (2016, 2, 29)) 2016 2016 (Some 2016)
                 2 2 29 (Some 29) true initial_state = (Ok df, st)
    /\ columns df = [] /\ frame df = [].
Proof.
  destruct (download_df_columns (Samples.site_down_on (2016, 2, 29)) 2016 2016
              (Some 2016) 2 2 29 (Some 29) true ltac:(lia) ltac:(lia))
    as (df & st & Hrun & _ & _ & Hnone).
  - constructor; [|constructor]. right. exists "timed out". split; reflexivity.
  - exists df, st. split; [exact Hrun|]. apply Hnone.
    intros date [<-|[]]. reflexivity.
Defined.

(** X14: where the missing values are.  In a run in which every day of the
    range succeeds or has its request fail, a cell of the returned table
    is the missing value exactly when its column is not a column of the
    day the row was read on: rows of days before 2014-04-01 have a value
    in every column, rows of later days lack exactly the PM2.5 columns. *)
Theorem download_df_missing_cells
    (requests_get : Z -> Z -> Z -> response) (today_year : Z)
    (year_start : Z) (year_end : option Z)
    (month_start month_end day_start : Z) (day_end : option Z)
    (verbose : bool) :
  1 <= month_start -> month_end <= 12 ->
  Forall (day_recovers requests_get)
         (visited year_start (year_end_or_today today_year year_end)
                  month_start month_end day_start day_end) ->
  exists df st,
    _download_df requests_get today_year year_start year_end month_start
                 month_end day_start day_end verbose initial_state
    = (Ok df, st)
    /\ forall ts cells c,
         In (ts, cells) (frame df) -> In c (columns df) ->
         (cell_of (columns df) cells c = None
          <-> ~ In c (headers_at (source_date ts))).
Proof.
  intros Hms Hme Hall.
  destruct (download_df_collects requests_get today_year year_start year_end
              month_start month_end day_start day_end verbose Hms Hme Hall)
    as (st & Hrun & _ & _).
  eexists. exists st. split; [exact Hrun|].
  intros ts cells c Hin Hc. cbn [columns table_frame] in *.
  apply in_table_frame in Hin as (r & Hr & ->).
  rewrite cell_of_map by exact Hc.
  rewrite (odict_get_none String.eqb string_eqb_eq).
  apply table_row_keys in Hr as [_ Hkeys]. rewrite Hkeys. tauto.
Qed.

Lemma download_df_missing_cells_witness :
  exists df st,
    _download_df Samples.steady_site 2016 2014 (Some 2014) 3 4 31 (Some 1)
                 false initial_state = (Ok df, st).
Proof.
  destruct (download_df_missing_cells Samples.steady_site 2016 2014 (Some 2014)
              3 4 31 (Some 1) false ltac:(lia) ltac:(lia))
    as (df & st & Hrun & _).
  - repeat constructor.
  - exists df, st. exact Hrun.
Defined.

(* ===================================================================== *)
(** ** Ranges that end a run early *)

Lemma for_each_skip {A} (l : list A) (body : A -> M unit) :
  (forall x st, body x st = (Ok tt, st)) ->
  forall st, for_each l body st = (Ok tt, st).
Proof.
  intros H. induction l as [|x l IH]; intros st; [reflexivity|].
  cbn [for_each]. unfold bind. rewrite H. apply IH.
Qed.

(** X15: a range whose end year is before its start year, or whose end
    month is before its start month, is empty: [_download_df] requests
    nothing, prints nothing and returns a table without rows or columns.
    This includes every range over a year end, such as November to
    February. *)
Theorem download_df_empty_range
    (requests_get : Z -> Z -> Z -> response) (today_year : Z)
    (year_start year_end month_start month_end day_start : Z)
    (day_end : option Z) (verbose : bool) :
  year_end < year_start \/ month_end < month_start ->
  _download_df requests_get today_year year_start (Some year_end) month_start
               month_end day_start day_end verbose initial_state
  = (Ok (mkdf [] []), initial_state).
Proof.
  intros H. unfold _download_df, bind, download_loops.
  cbn [year_end_or_today].
  assert (for_each (range year_start (year_end + 1))
            (fun year =>
               for_each (range month_start (month_end + 1))
                 (month_body requests_get year_start year_end month_start
                             month_end day_start day_end verbose year))
            initial_state = (Ok tt, initial_state)) as ->.
  { destruct H as [H|H].
    - rewrite range_nil by lia. reflexivity.
    - apply for_each_skip. intros yr st.
      rewrite range_nil by lia. reflexivity. }
  reflexivity.
Qed.

Lemma download_df_empty_range_witness :
  _download_df Samples.steady_site 2016 2015 (Some 2016) 11 2 1 (Some 28)
               true initial_state
  = (Ok (mkdf [] []), initial_state).
Proof.
  apply (download_df_empty_range Samples.steady_site 2016 2015 2016 11 2 1
           (Some 28) true).
  right. lia.
Defined.

(** X16: a start month outside 1..12, in a range that is not empty, ends
    the run with IllegalMonthError at the first month, before any request:
    only the progress line of that month may have been printed. *)
Theorem download_df_illegal_month
    (requests_get : Z -> Z -> Z -> response) (today_year : Z)
    (year_start year_end month_start month_end day_start : Z)
    (day_end : option Z) (verbose : bool) :
  year_start <= year_end -> month_start <= month_end ->
  month_start < 1 \/ 12 < month_start ->
  exists st,
    _download_df requests_get today_year year_start (Some year_end)
                 month_start month_end day_start day_end verbose initial_state
    = (Raise IllegalMonthError, st)
    /\ requested st = []
    /\ stdout st = if verbose then [Processing year_start month_start] else [].
Proof.
  intros Hy Hm Hbad. unfold _download_df, bind, download_loops.
  cbn [year_end_or_today].
  rewrite (range_cons year_start) by lia. cbn [for_each]. unfold bind.
  rewrite (range_cons month_start) by lia. cbn [for_each]. unfold bind.
  unfold month_body at 1. unfold bind, lift, Calendar.monthrange.
  assert ((1 <=? month_start) && (month_start <=? 12) = false) as ->.
  { apply andb_false_iff. rewrite Z.leb_gt, Z.leb_gt. lia. }
  destruct verbose; eexists; split; reflexivity || (split; reflexivity).
Qed.

Lemma download_df_illegal_month_witness :
  exists st,
    _download_df Samples.steady_site 2016 2016 (Some 2016) 0 3 1 (Some 5)
                 true initial_state = (Raise IllegalMonthError, st)
    /\ requested st = [].
Proof.
  destruct (download_df_illegal_month Samples.steady_site 2016 2016 2016 0 3 1
              (Some 5) true ltac:(lia) ltac:(lia) ltac:(lia))
    as (st & H1 & H2 & _).
  exists st. exact (conj H1 H2).
Defined.

Section Aborts.
Variable requests_get : Z -> Z -> Z -> response.

Lemma day_body_invalid_date (y m d : Z) (st : state) :
  Calendar.valid_date y m d = false ->
  day_body requests_get y m d st = (Raise ValueError, st).
Proof.
  intros Hv. unfold day_body, try_except, bind at 1, lift, datetime_ymd.
  rewrite Hv. reflexivity.
Qed.

Lemma day_body_no_table (y m d : Z) (st : state) :
  Calendar.valid_date y m d = true ->
  requests_get y m d = Document None ->
  day_body requests_get y m d st
  = (Raise AttributeError, record_request (y, m, d) st).
Proof.
  intros Hv Hdoc. rewrite (day_body_unfold requests_get y m d st Hv).
  unfold try_except, bind, _get_nea_dict. cbn [year month day].
  rewrite Hdoc. reflexivity.
Qed.

End Aborts.

(** X17: a day of the range that is no calendar date (a day number below
    1 or past the end of its month) ends the run with ValueError when the
    loop reaches it, without a request for it: no table is returned,
    although every earlier day has been requested. *)
Theorem download_df_invalid_day_aborts
    (requests_get : Z -> Z -> Z -> response) (today_year : Z)
    (year_start : Z) (year_end : option Z)
    (month_start month_end day_start : Z) (day_end : option Z)
    (verbose : bool)
    (before after : list (Z * Z * Z)) (y m d : Z) :
  1 <= month_start -> month_end <= 12 ->
  visited year_start (year_end_or_today today_year year_end)
          month_start month_end day_start day_end
  = before ++ (y, m, d) :: after ->
  Forall (day_recovers requests_get) before ->
  Calendar.valid_date y m d = false ->
  exists st,
    _download_df requests_get today_year year_start year_end month_start
                 month_end day_start day_end verbose initial_state
    = (Raise ValueError, st)
    /\ requested st = before
    /\ errors (stdout st) = flat_map (error_line requests_get) before.
Proof.
  intros Hms Hme Hdays Hbefore Hv. unfold _download_df, bind.
  rewrite download_loops_schedule by assumption.
  pose proof (visits_schedule year_start
                (year_end_or_today today_year year_end) month_start month_end
                day_start day_end verbose) as Hvis.
  rewrite Hdays in Hvis.
  apply visits_split in Hvis as (acts1 & acts2 & -> & Hv1 & Hv2).
  cbn [fst snd]. subst before.
  rewrite (run_actions_abort requests_get acts1 acts2 y m d initial_state
             (fold_left (after_action requests_get) acts1 initial_state)
             ValueError Hbefore (day_body_invalid_date _ _ _ _ _ Hv)).
  eexists. split; [reflexivity|].
  destruct (fold_after_action requests_get acts1 initial_state Hbefore)
    as (_ & _ & H3 & H4).
  rewrite H3, H4. simpl. tauto.
Qed.

Lemma download_df_invalid_day_aborts_witness :
  exists st,
    _download_df Samples.steady_site 2016 2015 (Some 2015) 4 4 29 (Some 31)
                 false initial_state = (Raise ValueError, st)
    /\ requested st = [(2015, 4, 29); (2015, 4, 30)].
Proof.
  destruct (download_df_invalid_day_aborts Samples.steady_site 2016 2015
              (Some 2015) 4 4 29 (Some 31) false
              [(2015, 4, 29); (2015, 4, 30)] [] 2015 4 31)
    as (st & H1 & H2 & _).
  - lia.
  - lia.
  - reflexivity.
  - repeat constructor.
  - reflexivity.
  - exists st. exact (conj H1 H2).
Defined.

(** X18: a document without a table makes [_get_nea_dict] raise
    AttributeError, which the handler of [_download_df] does not catch:
    the run ends with it, without a table, without an error line for that
    day and without requesting the later days. *)
Theorem download_df_no_table_aborts
    (requests_get : Z -> Z -> Z -> response) (today_year : Z)
    (year_start : Z) (year_end : option Z)
    (month_start month_end day_start : Z) (day_end : option Z)
    (verbose : bool)
    (before after : list (Z * Z * Z)) (y m d : Z) :
  1 <= month_start -> month_end <= 12 ->
  visited year_start (year_end_or_today today_year year_end)
          month_start month_end day_start day_end
  = before ++ (y, m, d) :: after ->
  Forall (day_recovers requests_get) before ->
  Calendar.valid_date y m d = true ->
  requests_get y m d = Document None ->
  exists st,
    _download_df requests_get today_year year_start year_end month_start
                 month_end day_start day_end verbose initial_state
    = (Raise AttributeError, st)
    /\ requested st = before ++ [(y, m, d)]
    /\ errors (stdout st) = flat_map (error_line requests_get) before.
Proof.
  intros Hms Hme Hdays Hbefore Hv Hdoc.
  apply (download_df_aborts requests_get today_year year_start year_end
           month_start month_end day_start day_end verbose Hms Hme
           before after y m d AttributeError Hdays Hbefore).
  intros st. eexists. split; [apply day_body_no_table; assumption|].
  split; reflexivity.
Qed.

Lemma download_df_no_table_aborts_witness :
  exists st,
    _download_df (MoreSamples.site_without_table_on (2016, 1, 2)) 2016 2016
                 (Some 2016) 1 1 1 (Some 3) false initial_state
    = (Raise AttributeError, st)
    /\ requested st = [(2016, 1, 1); (2016, 1, 2)].
Proof.
  destruct (download_df_no_table_aborts
              (MoreSamples.site_without_table_on (2016, 1, 2)) 2016 2016
              (Some 2016) 1 1 1 (Some 3) false
              [(2016, 1, 1)] [(2016, 1, 3)] 2016 1 2)
    as (st & H1 & H2 & _).
  - lia.
  - lia.
  - reflexivity.
  - repeat constructor.
  - reflexivity.
  - reflexivity.
  - exists st. exact (conj H1 H2).
Defined.

(* ===================================================================== *)
(** ** Pages without reading rows *)

Section Passes.
Variable requests_get : Z -> Z -> Z -> response.

Lemma day_fetched_data (date : Z * Z * Z) :
  day_fetched requests_get date = true ->
  exists t data,
    requests_get (fst (fst date)) (snd (fst date)) (snd date) = Document t
    /\ day_data requests_get date = Some data.
Proof.
  destruct date as [[y m] d]. unfold day_fetched. cbn [fst snd].
  intros H. apply andb_true_iff in H as [_ H].
  destruct (day_data requests_get (y, m, d)) as [data|] eqn:E; [|discriminate].
  unfold day_data in E.
  destruct (requests_get y m d) as [msg|t]; [discriminate|].
  exists t, data. tauto.
Qed.

Lemma day_body_fetched (y m d : Z) (st : state) :
  day_fetched requests_get (y, m, d) = true ->
  day_body requests_get y m d st = (Ok tt, after_day requests_get (y, m, d) st).
Proof.
  intros H. destruct (day_fetched_data _ H) as (t & data & Hdoc & Hdata).
  cbn [fst snd] in Hdoc. unfold day_fetched in H. rewrite Hdata in H.
  apply andb_true_iff in H as [Hv H].
  rewrite (day_body_unfold requests_get y m d st Hv). unfold try_except, bind.
  rewrite (get_nea_dict_data requests_get y m d st data Hdata).
  unfold after_day. rewrite Hdata, Hdoc.
  unfold get_df_headers. cbn [fst snd record_request df_headers].
  destruct (List.length (df_headers st)
            <? List.length (select_headers (mkdt y m d 0 None)))%nat;
    unfold set_df_headers, ret;
    rewrite (hour_loop_ok y m d data _ H); reflexivity.
Qed.

Lemma run_actions_pass (acts : list action) (st : state) :
  Forall (day_passes requests_get) (visits acts) ->
  for_each acts (run_action requests_get) st
  = (Ok tt, fold_left (after_action requests_get) acts st).
Proof.
  revert st. induction acts as [|a acts IH]; intros st H; [reflexivity|].
  cbn [for_each fold_left]. unfold bind. destruct a as [yr mo|yr mo dy].
  - cbn [run_action after_action]. unfold print. apply IH. exact H.
  - change (visits (Visit yr mo dy :: acts)) with ((yr, mo, dy) :: visits acts)
      in H.
    apply Forall_cons_iff in H as [Hd H]. cbn [run_action after_action].
    assert (day_body requests_get yr mo dy st
            = (Ok tt, after_day requests_get (yr, mo, dy) st)) as ->.
    { destruct Hd as [Hs|[msg Hf]].
      - apply day_body_fetched. exact Hs.
      - apply day_body_fetch_fails with msg. exact Hf. }
    apply IH. exact H.
Qed.

(** The table, the headers and the requests after a run in which every
    day passes. *)
Lemma fold_after_pass (acts : list action) :
  forall st,
    Forall (day_passes requests_get) (visits acts) ->
    result_odict (fold_left (after_action requests_get) acts st)
    = table_of requests_get (visits acts) (result_odict st)
    /\ df_headers (fold_left (after_action requests_get) acts st)
       = headers_of requests_get (visits acts) (df_headers st)
    /\ requested (fold_left (after_action requests_get) acts st)
       = requested st ++ visits acts.
Proof.
  induction acts as [|a acts IH]; intros st H.
  - simpl. rewrite app_nil_r. tauto.
  - destruct a as [yr mo|yr mo dy].
    + destruct (IH (after_action requests_get st (Say yr mo)) H)
        as (H1 & H2 & H3).
      cbn [fold_left]. rewrite H1, H2, H3. simpl. tauto.
    + change (visits (Visit yr mo dy :: acts))
        with ((yr, mo, dy) :: visits acts) in *.
      apply Forall_cons_iff in H as [Hd H].
      destruct (IH (after_day requests_get (yr, mo, dy) st) H)
        as (H1 & H2 & H3).
      cbn [fold_left after_action]. rewrite H1, H2, H3. clear IH H1 H2 H3.
      rewrite headers_of_cons.
      unfold table_of at 2. cbn [fold_left]. fold (table_of requests_get).
      unfold after_day.
      destruct Hd as [Hs|[msg Hf]].
      * destruct (day_fetched_data _ Hs) as (t & data & Hdoc & Hdata).
        cbn [fst snd] in Hdoc. rewrite Hdoc, Hdata.
        cbn [result_odict df_headers requested].
        rewrite <- app_assoc. repeat split.
      * rewrite (fetch_fails_no_data _ _ _ Hf).
        destruct Hf as [_ Hf]. rewrite Hf.
        cbn [result_odict df_headers requested].
        rewrite <- app_assoc. repeat split.
Qed.

End Passes.

Lemma getitem_columns_missing (d : DataFrame) (hs : list string) (c : string) :
  In c hs -> ~ In c (columns d) -> getitem_columns d hs = Raise KeyError.
Proof.
  intros Hc Hnot. unfold getitem_columns.
  destruct (forallb (fun c0 => mem_string c0 (columns d)) hs) eqn:E;
    [|reflexivity].
  rewrite forallb_forall in E. specialize (E c Hc).
  apply mem_string_in in E. contradiction.
Qed.

(** X19: reading rows that never come.  When every day of the range
    passes (its page is read, or its request fails) and some day whose
    page is read has a column list that no day with reading rows reaches
    in length, [_download_df] raises KeyError after the last day: the
    column list kept in [df_headers] holds a column that no row of the
    table has.  This is the case when no page has a reading row, and when
    the pages before 2014-04-01 have none while later pages have some. *)
Theorem download_df_headers_without_rows
    (requests_get : Z -> Z -> Z -> response) (today_year : Z)
    (year_start : Z) (year_end : option Z)
    (month_start month_end day_start : Z) (day_end : option Z)
    (verbose : bool) (date0 : Z * Z * Z) (data0 : list (string * row)) :
  1 <= month_start -> month_end <= 12 ->
  let days := visited year_start (year_end_or_today today_year year_end)
                      month_start month_end day_start day_end in
  Forall (day_passes requests_get) days ->
  In date0 days -> day_data requests_get date0 = Some data0 ->
  (forall date data,
      In date days -> day_data requests_get date = Some data ->
      (List.length (headers_at date0) <= List.length (headers_at date))%nat ->
      data = []) ->
  exists st,
    _download_df requests_get today_year year_start year_end month_start
                 month_end day_start day_end verbose initial_state
    = (Raise KeyError, st)
    /\ requested st = days.
Proof.
  intros Hms Hme days Hall Hin0 Hdata0 Hempty.
  unfold _download_df, bind.
  rewrite download_loops_schedule by assumption.
  pose proof (visits_schedule year_start
                (year_end_or_today today_year year_end) month_start month_end
                day_start day_end verbose) as Hv.
  fold days in Hv.
  rewrite run_actions_pass by (rewrite Hv; exact Hall).
  match goal with
  | |- context [fold_left ?f ?acts initial_state] =>
      destruct (fold_after_pass requests_get acts initial_state)
        as (H1 & H2 & H3); [rewrite Hv; exact Hall|];
      set (st := fold_left f acts initial_state) in *
  end.
  rewrite Hv in *. cbn [result_odict df_headers requested initial_state app] in *.
  exists st. split; [|exact H3]. f_equal.
  rewrite H1, H2.
  (* every row of the table has the 6 PSI columns only, if there is one *)
  assert (forall ts r c,
             In (ts, r) (table_of requests_get days []) ->
             In c (odict_keys r) ->
             In c PSI_headers
             /\ headers_at date0 = PSI_headers ++ PM25_headers) as Hrows.
  { intros ts r c Hr Hc.
    pose proof (table_row_keys requests_get days ts r Hr) as [_ Hkeys].
    apply table_of_in in Hr as [[]|(date & data & label & Hd & Hdata & Hl & Hts)].
    destruct date as [[y m] d]. unfold timestamp_of in Hts. cbn [fst snd] in Hts.
    apply to_datetime_source in Hts as (Hsrc & _). rewrite Hsrc in Hkeys.
    apply Hkeys in Hc.
    assert (~ (List.length (headers_at date0)
               <= List.length (headers_at (y, m, d)))%nat) as Hlen.
    { intros Hle. rewrite (Hempty _ _ Hd Hdata Hle) in Hl. destruct Hl. }
    destruct (headers_at_cases date0) as [[_ H0]|[_ H0]];
      destruct (headers_at_cases (y, m, d)) as [[_ Hd']|[_ Hd']];
      rewrite H0, Hd' in *; simpl in Hlen; try lia.
    tauto. }
  destruct (headers_of_longest requests_get days []) as [_ Hlong].
  specialize (Hlong date0 data0 Hin0 Hdata0).
  destruct (headers_of_cases requests_get days [])
    as [H|(date' & data' & Hin' & Hdata' & H)]; rewrite H in *.
  { destruct (headers_at_cases date0) as [[_ H0]|[_ H0]];
      rewrite H0 in Hlong; simpl in Hlong; lia. }
  destruct (headers_at_cases date') as [[_ Hh']|[_ Hh']]; rewrite Hh' in *.
  - apply getitem_columns_missing with (c := "PM2.5-North");
      [simpl; tauto|].
    cbn [columns from_dict_index]. rewrite union_keys_in.
    intros (ts & r & Hr & Hc).
    destruct (Hrows ts r _ Hr Hc) as [Hpsi _].
    simpl in Hpsi. intuition discriminate.
  - apply getitem_columns_missing with (c := "PSI-North");
      [simpl; tauto|].
    cbn [columns from_dict_index]. rewrite union_keys_in.
    intros (ts & r & Hr & Hc).
    destruct (Hrows ts r _ Hr Hc) as [_ H0].
    rewrite H0 in Hlong. simpl in Hlong. lia.
Qed.

Lemma download_df_headers_without_rows_witness :
  exists st,
    _download_df MoreSamples.site_empty_before_cutoff 2016 2014 (Some 2014)
                 3 4 31 (Some 1) false initial_state = (Raise KeyError, st)
    /\ requested st = [(2014, 3, 31); (2014, 4, 1)].
Proof.
  apply (download_df_headers_without_rows
           MoreSamples.site_empty_before_cutoff 2016 2014 (Some 2014)
           3 4 31 (Some 1) false (2014, 3, 31) []).
  - lia.
  - lia.
  - constructor; [left; reflexivity|].
    constructor; [left; reflexivity|constructor].
  - left. reflexivity.
  - reflexivity.
  - intros date data [<-|[<-|[]]] Hdata Hlen.
    + vm_compute in Hdata. injection Hdata as <-. reflexivity.
    + vm_compute in Hlen. lia.
Defined.

(* ===================================================================== *)
(** ** Slices of an ascending frame *)

Lemma dt_ltb_spec (a b : datetime) :
  dt_ltb a b = true <->
  year a < year b \/ (year a = year b /\
  (month a < month b \/ (month a = month b /\
  (day a < day b \/ (day a = day b /\ hour a < hour b))))).
Proof.
  unfold dt_ltb.
  rewrite !orb_true_iff, !andb_true_iff, !Z.ltb_lt, !Z.eqb_eq. lia.
Qed.

Lemma dt_ltb_trans (a b c : datetime) :
  dt_ltb a b = true -> dt_ltb b c = true -> dt_ltb a c = true.
Proof. rewrite !dt_ltb_spec. lia. Qed.

Lemma dt_ltb_irrefl (a : datetime) : dt_ltb a a = false.
Proof.
  destruct (dt_ltb a a) eqn:E; [|reflexivity].
  apply dt_ltb_spec in E. lia.
Qed.

Lemma dt_ltb_asym (a b : datetime) : dt_ltb a b = true -> dt_ltb b a = false.
Proof.
  intros H. destruct (dt_ltb b a) eqn:E; [|reflexivity].
  apply dt_ltb_spec in H. apply dt_ltb_spec in E. lia.
Qed.

Lemma dt_leb_spec (a b : datetime) :
  dt_leb a b = true <-> dt_ltb a b = true \/ a = b.
Proof. unfold dt_leb. rewrite orb_true_iff, dt_eqb_eq. tauto. Qed.

Lemma dt_ltb_leb_trans (a b c : datetime) :
  dt_ltb a b = true -> dt_leb b c = true -> dt_leb a c = true.
Proof.
  intros H1 H2. apply dt_leb_spec. apply dt_leb_spec in H2 as [H2|<-].
  - left. exact (dt_ltb_trans _ _ _ H1 H2).
  - tauto.
Qed.

Section SortedLists.
Context {B : Type}.
Variable R : B -> B -> Prop.

(** In a sorted list the elements satisfying a downward closed predicate
    form an initial part. *)
Lemma sorted_filter_prefix (p : B -> bool) (l : list B) :
  StronglySorted R l ->
  (forall x y, R x y -> p y = true -> p x = true) ->
  firstn (List.length (filter p l)) l = filter p l
  /\ skipn (List.length (filter p l)) l = filter (fun x => negb (p x)) l.
Proof.
  intros Hs Hp. induction Hs as [|x l Hs IH Hx].
  - split; reflexivity.
  - cbn [filter]. destruct (p x) eqn:E; cbn [negb List.length firstn skipn].
    + destruct IH as [IH1 IH2]. rewrite IH1, IH2. split; reflexivity.
    + assert (forall y, In y l -> p y = false) as Hall.
      { intros y Hy. rewrite Forall_forall in Hx.
        destruct (p y) eqn:Ey; [|reflexivity].
        rewrite (Hp x y (Hx y Hy) Ey) in E. discriminate. }
      assert (filter p l = []) as ->.
      { clear -Hall. induction l as [|y l IH]; [reflexivity|].
        cbn [filter]. rewrite (Hall y) by (left; reflexivity).
        apply IH. intros z Hz. apply Hall. right. exact Hz. }
      split; [reflexivity|]. cbn [List.length skipn]. f_equal.
      clear -Hall. induction l as [|y l IH]; [reflexivity|].
      cbn [filter]. rewrite (Hall y) by (left; reflexivity). cbn [negb].
      f_equal. apply IH. intros z Hz. apply Hall. right. exact Hz.
Qed.

Lemma sorted_filter (p : B -> bool) (l : list B) :
  StronglySorted R l -> StronglySorted R (filter p l).
Proof.
  induction 1 as [|x l Hs IH Hx]; [constructor|].
  cbn [filter]. destruct (p x); [|exact IH].
  constructor; [exact IH|].
  apply Forall_forall. intros y Hy. apply filter_In in Hy as [Hy _].
  rewrite Forall_forall in Hx. auto.
Qed.

End SortedLists.

Lemma sorted_map_fst {A C} (R : A -> A -> Prop) (l : list (A * C)) :
  StronglySorted R (map fst l) ->
  StronglySorted (fun r1 r2 => R (fst r1) (fst r2)) l.
Proof.
  induction l as [|x l IH]; intros H; [constructor|].
  inversion H as [|? ? Hs Hx]; subst. constructor; [auto|].
  apply Forall_forall. intros y Hy. rewrite Forall_forall in Hx.
  apply Hx. apply in_map. exact Hy.
Qed.

Lemma sorted_monotonic (idx : list datetime) :
  StronglySorted (fun a b => dt_ltb a b = true) idx ->
  is_monotonic_increasing idx = true.
Proof.
  induction 1 as [|a l Hs IH Hx]; [reflexivity|].
  destruct l as [|b l]; [reflexivity|].
  change (dt_leb a b && is_monotonic_increasing (b :: l) = true).
  rewrite IH, andb_true_r.
  inversion Hx; subst. apply dt_leb_spec. tauto.
Qed.

Lemma get_loc_in (label : datetime) (l : list datetime) (i : nat) :
  get_loc label l = Some i -> In label l.
Proof.
  revert i. induction l as [|t l IH]; intros i; cbn [get_loc]; [discriminate|].
  destruct (dt_eqb label t) eqn:E.
  - apply dt_eqb_eq in E. subst. left. reflexivity.
  - destruct (get_loc label l) as [j|]; [|discriminate].
    intros _. right. exact (IH j eq_refl).
Qed.

Lemma filter_none {B} (p : B -> bool) (l : list B) :
  (forall x, In x l -> p x = false) -> filter p l = [].
Proof.
  induction l as [|y l IH]; intros Hp; [reflexivity|].
  cbn [filter]. rewrite (Hp y) by (left; reflexivity).
  apply IH. intros z Hz. apply Hp. right. exact Hz.
Qed.

(** The position of a label of the index counts the entries before it. *)
Lemma get_loc_sorted (idx : list datetime) (label : datetime) :
  StronglySorted (fun a b => dt_ltb a b = true) idx ->
  forall i,
    get_loc label idx = Some i ->
    i = List.length (filter (fun t => dt_ltb t label) idx)
    /\ S i = List.length (filter (fun t => dt_leb t label) idx).
Proof.
  induction 1 as [|t l Hs IH Hx]; intros i; cbn [get_loc]; [discriminate|].
  rewrite Forall_forall in Hx.
  destruct (dt_eqb label t) eqn:E.
  - apply dt_eqb_eq in E. subst t. intros H. injection H as <-.
    cbn [filter]. rewrite dt_ltb_irrefl.
    assert (dt_leb label label = true) as -> by (apply dt_leb_spec; tauto).
    rewrite !filter_none; [split; reflexivity| |].
    + intros x Hin. destruct (dt_leb x label) eqn:El; [|reflexivity].
      apply dt_leb_spec in El as [El| ->].
      * rewrite (dt_ltb_asym _ _ (Hx x Hin)) in El. discriminate.
      * pose proof (Hx _ Hin) as Hc. rewrite dt_ltb_irrefl in Hc. discriminate.
    + intros x Hin. apply dt_ltb_asym. auto.
  - destruct (get_loc label l) as [j|] eqn:Ej; [|discriminate].
    intros H. injection H as <-.
    pose proof (get_loc_in _ _ _ Ej) as Hin.
    destruct (IH j eq_refl) as [H1 H2].
    cbn [filter]. rewrite (Hx _ Hin).
    assert (dt_leb t label = true) as ->
      by (apply dt_leb_spec; left; auto).
    cbn [List.length]. split; congruence.
Qed.

Lemma get_slice_bound_left (idx : list datetime) (label : datetime) :
  StronglySorted (fun a b => dt_ltb a b = true) idx ->
  get_slice_bound idx label Left
  = Ok (List.length (filter (fun t => dt_ltb t label) idx)).
Proof.
  intros Hs. unfold get_slice_bound, searchsorted_monotonic.
  destruct (get_loc label idx) as [i|] eqn:E.
  - destruct (get_loc_sorted _ _ Hs _ E) as [-> _]. reflexivity.
  - rewrite (sorted_monotonic _ Hs). reflexivity.
Qed.

Lemma get_slice_bound_right (idx : list datetime) (label : datetime) :
  StronglySorted (fun a b => dt_ltb a b = true) idx ->
  get_slice_bound idx label Right
  = Ok (List.length (filter (fun t => dt_leb t label) idx)).
Proof.
  intros Hs. unfold get_slice_bound, searchsorted_monotonic.
  destruct (get_loc label idx) as [i|] eqn:E.
  - destruct (get_loc_sorted _ _ Hs _ E) as [_ ->]. reflexivity.
  - rewrite (sorted_monotonic _ Hs). reflexivity.
Qed.

Lemma filter_map_length {A C} (p : C -> bool) (f : A -> C) (l : list A) :
  List.length (filter p (map f l))
  = List.length (filter (fun x => p (f x)) l).
Proof.
  induction l as [|x l IH]; [reflexivity|].
  cbn [map filter]. destruct (p (f x)); cbn [List.length]; rewrite IH;
    reflexivity.
Qed.

Lemma filter_filter {A} (p q : A -> bool) (l : list A) :
  filter q (filter p l) = filter (fun x => p x && q x) l.
Proof.
  induction l as [|x l IH]; [reflexivity|].
  cbn [filter]. destruct (p x); cbn [filter andb]; [|exact IH].
  destruct (q x); rewrite IH; reflexivity.
Qed.

Lemma filter_same {A} (p q : A -> bool) (l : list A) :
  (forall x, In x l -> p x = true -> q x = true) ->
  filter q (filter p l) = filter p l.
Proof.
  intros H. rewrite filter_filter. apply filter_ext_in.
  intros x Hx. destruct (p x) eqn:E; [|reflexivity].
  rewrite (H x Hx E). reflexivity.
Qed.

(** On a frame in ascending order the slice [df[start:stop]] holds exactly
    the rows from [start] to [stop], both included, and never raises. *)
Lemma getitem_slice_sorted (df : DataFrame) (start stop : datetime) :
  ascending df -> dt_ltb start stop = true ->
  getitem_slice df start stop
  = Ok (mkdf (columns df)
             (filter (fun r => negb (dt_ltb (fst r) start)
                               && dt_leb (fst r) stop) (frame df))).
Proof.
  intros Hs Hlt. unfold ascending, index in Hs. unfold getitem_slice, index.
  rewrite (get_slice_bound_left _ start Hs), (get_slice_bound_right _ stop Hs).
  rewrite !filter_map_length. f_equal. f_equal.
  apply sorted_map_fst in Hs.
  set (R := fun r1 r2 : datetime * list (option string) =>
              dt_ltb (fst r1) (fst r2) = true) in *.
  set (P := fun r : datetime * list (option string) => dt_ltb (fst r) start).
  set (Q := fun r : datetime * list (option string) => dt_leb (fst r) stop).
  destruct (sorted_filter_prefix R P (frame df) Hs) as [Hfirst Hskip].
  { intros x y Hxy Hy. exact (dt_ltb_trans _ _ _ Hxy Hy). }
  rewrite Hskip.
  set (S := filter (fun x => negb (P x)) (frame df)).
  assert (List.length (filter Q (frame df))
          = (List.length (filter P (frame df)) + List.length (filter Q S))%nat)
    as Hlen.
  { rewrite <- (firstn_skipn (List.length (filter P (frame df))) (frame df))
      at 1.
    rewrite Hfirst, Hskip, filter_app, length_app. f_equal.
    rewrite filter_same; [reflexivity|].
    intros x _ Hx. unfold P, Q in *. apply dt_leb_spec. left.
    exact (dt_ltb_trans _ _ _ Hx Hlt). }
  rewrite Hlen.
  replace (List.length (filter P (frame df)) + List.length (filter Q S)
           - List.length (filter P (frame df)))%nat
    with (List.length (filter Q S)) by lia.
  destruct (sorted_filter_prefix R Q S) as [HfirstS _].
  { apply sorted_filter. exact Hs. }
  { intros x y Hxy Hy. exact (dt_ltb_leb_trans _ _ _ Hxy Hy). }
  rewrite HfirstS. unfold S. apply filter_filter.
Qed.

(** The window from 00:00 to 23:00 of a day holds the timestamps of that
    date. *)
Lemma day_window (c t : datetime) :
  stamp_ok c -> stamp_ok t ->
  negb (dt_ltb t (replace_hour c 0)) && dt_leb t (replace_hour c 23)
  = date_eqb (date_of t) (date_of c).
Proof.
  intros (_ & Hc & Hco) (_ & Ht & Hto).
  destruct c as [yc mc dc hc oc], t as [yt mt dt ht ot].
  cbn [year month day hour utcoffset] in *. subst oc ot.
  unfold replace_hour, date_of, date_eqb, dt_leb, dt_eqb, dt_ltb.
  cbn [year month day hour utcoffset offset_eqb].
  rewrite Z.eqb_refl, andb_true_r.
  apply Bool.eq_iff_eq_true.
  rewrite !andb_true_iff, negb_true_iff, !orb_true_iff, !andb_true_iff,
    !orb_false_iff, !andb_false_iff, !orb_true_iff, !andb_true_iff,
    !Z.ltb_lt, !Z.ltb_ge, !Z.eqb_eq, !Z.eqb_neq.
  lia.
Qed.

(** *** The dates the loop of [_save_csv_per_day] goes through *)

Lemma increasing_sorted (idx : list datetime) :
  increasing idx = true ->
  StronglySorted (fun a b => dt_ltb a b = true) idx.
Proof.
  intros H. apply Sorted_StronglySorted.
  { intros a b c. apply dt_ltb_trans. }
  induction idx as [|a l IH]; [constructor|].
  destruct l as [|b l]; [repeat constructor|].
  change (dt_ltb a b && increasing (b :: l) = true) in H.
  apply andb_true_iff in H as [Hab Hl].
  constructor; [exact (IH Hl)|]. constructor. exact Hab.
Qed.

Lemma increasing_ascending (df : DataFrame) :
  increasing (index df) = true -> ascending df.
Proof. apply increasing_sorted. Qed.

Lemma stamp_okb_spec (ts : datetime) : stamp_okb ts = true -> stamp_ok ts.
Proof.
  unfold stamp_okb, stamp_ok.
  rewrite !andb_true_iff, !Z.leb_le. intros [[[Hv H0] H23] Ho].
  split; [exact Hv|]. split; [lia|].
  destruct (utcoffset ts) as [o|]; [|discriminate].
  cbn in Ho. apply Z.eqb_eq in Ho. subst. reflexivity.
Qed.

Lemma stamps_okb_spec (idx : list datetime) :
  forallb stamp_okb idx = true -> Forall stamp_ok idx.
Proof.
  intros H. apply Forall_forall. intros t Ht.
  apply stamp_okb_spec. rewrite forallb_forall in H. auto.
Qed.

Lemma timestamp_yearsb_spec (idx : list datetime) :
  forallb timestamp_yearsb idx = true -> Forall timestamp_years idx.
Proof.
  intros H. apply Forall_forall. intros t Ht. rewrite forallb_forall in H.
  pose proof (H t Ht) as Hb. unfold timestamp_yearsb in Hb.
  apply andb_true_iff in Hb as [H1 H2]. unfold timestamp_years. lia.
Qed.

Lemma next_day_least (y m d : Z) (n D : Z * Z * Z) :
  Calendar.valid_date y m d = true -> date_valid D = true ->
  Calendar.next_day y m d = Some n ->
  date_lt (y, m, d) D -> ~ date_lt D n.
Proof.
  destruct D as [[Y M] Dd]. cbn [date_valid]. intros Hv HD Hn Hlt.
  apply CalendarFacts.valid_date_spec in Hv, HD.
  unfold Calendar.next_day, Calendar.MAXYEAR in Hn. unfold date_lt in *.
  assert (Y = y -> M = m -> Dd <= Calendar.num_days y m) as Hsame
    by (intros -> ->; lia).
  destruct (d <? Calendar.num_days y m) eqn:E1.
  - injection Hn as <-. lia.
  - apply Z.ltb_ge in E1.
    destruct (m <? 12) eqn:E2.
    + injection Hn as <-. apply Z.ltb_lt in E2. lia.
    + apply Z.ltb_ge in E2. destruct (y <? 9999) eqn:E3; [|discriminate].
      injection Hn as <-. lia.
Qed.

Lemma next_day_later (y m d : Z) (n : Z * Z * Z) :
  Calendar.valid_date y m d = true ->
  Calendar.next_day y m d = Some n -> date_lt (y, m, d) n.
Proof.
  intros Hv Hn. apply CalendarFacts.valid_date_spec in Hv.
  unfold Calendar.next_day, Calendar.MAXYEAR in Hn. unfold date_lt.
  destruct (d <? Calendar.num_days y m) eqn:E1.
  - injection Hn as <-. lia.
  - destruct (m <? 12) eqn:E2.
    + injection Hn as <-. apply Z.ltb_lt in E2. lia.
    + destruct (y <? 9999) eqn:E3; [|discriminate].
      injection Hn as <-. apply Z.ltb_lt in E3. lia.
Qed.

Lemma date_valid_max (D : Z * Z * Z) :
  date_valid D = true -> ~ date_lt D max_date -> D = max_date.
Proof.
  destruct D as [[Y M] Dd]. cbn [date_valid]. intros Hv Hlt.
  apply CalendarFacts.valid_date_spec in Hv.
  pose proof (CalendarFacts.num_days_bounds Y M).
  unfold date_lt, max_date in *.
  assert (Y = 9999 /\ M = 12 /\ Dd = 31) as (-> & -> & ->) by lia.
  reflexivity.
Qed.

Lemma dt_ltb_false_trans (a b c : datetime) :
  dt_ltb a b = false -> dt_ltb b c = false -> dt_ltb a c = false.
Proof.
  intros H1 H2. destruct (dt_ltb a c) eqn:E; [|reflexivity].
  apply dt_ltb_spec in E.
  apply not_true_iff_false in H1, H2. rewrite dt_ltb_spec in H1, H2. lia.
Qed.

(** [df.index.min()] is below and [df.index.max()] above every entry. *)
Lemma index_min_least (df : DataFrame) (lo : datetime) :
  index_min df = Some lo ->
  forall t, In t (index df) -> dt_ltb t lo = false.
Proof.
  unfold index_min. destruct (index df) as [|t0 ts]; [discriminate|].
  intros H. injection H as <-.
  assert (forall l m,
            dt_ltb m (fold_left (fun m x => if dt_ltb x m then x else m) l m)
            = false
            /\ forall t, In t l ->
                 dt_ltb t (fold_left (fun m x => if dt_ltb x m then x else m) l m)
                 = false) as Hfold.
  { induction l as [|x l IH]; intros m; cbn [fold_left].
    - split; [apply dt_ltb_irrefl|intros t []].
    - destruct (IH (if dt_ltb x m then x else m)) as [H1 H2].
      destruct (dt_ltb x m) eqn:E.
      + split.
        * apply dt_ltb_false_trans with x; [apply dt_ltb_asym; exact E|exact H1].
        * intros t [<-|Ht]; auto.
      + split; [exact H1|]. intros t [<-|Ht]; [|auto].
        apply dt_ltb_false_trans with m; assumption. }
  intros t [<-|Ht]; [exact (proj1 (Hfold ts t0))|exact (proj2 (Hfold ts t0) t Ht)].
Qed.

Lemma index_max_greatest (df : DataFrame) (hi : datetime) :
  index_max df = Some hi ->
  forall t, In t (index df) -> dt_ltb hi t = false.
Proof.
  unfold index_max. destruct (index df) as [|t0 ts]; [discriminate|].
  intros H. injection H as <-.
  assert (forall l m,
            dt_ltb (fold_left (fun m x => if dt_ltb m x then x else m) l m) m
            = false
            /\ forall t, In t l ->
                 dt_ltb (fold_left (fun m x => if dt_ltb m x then x else m) l m) t
                 = false) as Hfold.
  { induction l as [|x l IH]; intros m; cbn [fold_left].
    - split; [apply dt_ltb_irrefl|intros t []].
    - destruct (IH (if dt_ltb m x then x else m)) as [H1 H2].
      destruct (dt_ltb m x) eqn:E.
      + split.
        * apply dt_ltb_false_trans with x; [exact H1|apply dt_ltb_asym; exact E].
        * intros t [<-|Ht]; auto.
      + split; [exact H1|]. intros t [<-|Ht]; [|auto].
        apply dt_ltb_false_trans with m; assumption. }
  intros t [<-|Ht]; [exact (proj1 (Hfold ts t0))|exact (proj2 (Hfold ts t0) t Ht)].
Qed.

(** Two timestamps of Singapore time, neither before the other, are the
    same. *)
Lemma dt_leb_total (a b : datetime) :
  utcoffset a = sgt -> utcoffset b = sgt ->
  dt_ltb b a = false -> dt_leb a b = true.
Proof.
  intros Ha Hb H. apply not_true_iff_false in H. rewrite dt_ltb_spec in H.
  apply dt_leb_spec.
  destruct (dt_ltb a b) eqn:E; [left; reflexivity|right].
  apply not_true_iff_false in E. rewrite dt_ltb_spec in E.
  destruct a as [ya ma da ha oa], b as [yb mb db hb ob].
  cbn [year month day hour utcoffset] in *. subst oa ob.
  assert (ya = yb /\ ma = mb /\ da = db /\ ha = hb) as (-> & -> & -> & ->)
    by lia.
  reflexivity.
Qed.

Lemma at_hour_leb (D : Z * Z * Z) (h : Z) (last : datetime) :
  utcoffset last = sgt ->
  (dt_leb (at_hour D h) last = true <->
   date_lt D (date_of last) \/ (D = date_of last /\ h <= hour last)).
Proof.
  destruct D as [[y m] d], last as [yl ml dl hl ol].
  cbn [utcoffset]. intros ->.
  unfold at_hour, date_of, date_lt. cbn [year month day].
  rewrite dt_leb_spec, dt_ltb_spec. cbn [year month day hour].
  split.
  - intros [H|H].
    + destruct (Z.eq_dec y yl) as [->|?]; [|left; lia].
      destruct (Z.eq_dec m ml) as [->|?]; [|left; lia].
      destruct (Z.eq_dec d dl) as [->|?]; [|left; lia].
      right. split; [reflexivity|lia].
    + injection H as -> -> -> ->. right. split; [reflexivity|lia].
  - intros [H|[H Hh]]; [left; lia|].
    injection H as -> -> ->.
    destruct (Z.eq_dec h hl) as [->|Hne]; [right; reflexivity|left; lia].
Qed.

Lemma at_hour_self (c : datetime) :
  utcoffset c = sgt -> at_hour (date_of c) (hour c) = c.
Proof. destruct c as [y m d h o]. cbn. intros ->. reflexivity. Qed.

(** A day's slice of an ascending frame is the day's file. *)
Lemma day_slice (df : DataFrame) (c : datetime) :
  ascending df -> Forall stamp_ok (index df) -> stamp_ok c ->
  getitem_slice df (replace_hour c 0) (replace_hour c 23)
  = Ok (mkdf (columns df) (file_rows (day_file df (date_of c)))).
Proof.
  intros Hs Hok Hc. rewrite getitem_slice_sorted; [|exact Hs|].
  - f_equal. f_equal. cbn [day_file file_rows]. apply filter_ext_in.
    intros r Hr. apply day_window; [exact Hc|].
    rewrite Forall_forall in Hok. apply Hok. unfold index. apply in_map.
    exact Hr.
  - apply dt_ltb_spec. unfold replace_hour. cbn [year month day hour]. lia.
Qed.

Lemma date_total (a b : Z * Z * Z) : ~ date_lt a b -> a = b \/ date_lt b a.
Proof.
  destruct a as [[y1 m1] d1], b as [[y2 m2] d2]. unfold date_lt. intros H.
  destruct (Z.eq_dec y1 y2) as [->|?]; [|right; lia].
  destruct (Z.eq_dec m1 m2) as [->|?]; [|right; lia].
  destruct (Z.eq_dec d1 d2) as [->|?]; [left; reflexivity|right; lia].
Qed.

Lemma date_lt_trans (a b c : Z * Z * Z) :
  date_lt a b -> date_lt b c -> date_lt a c.
Proof.
  destruct a as [[y1 m1] d1], b as [[y2 m2] d2], c as [[y3 m3] d3].
  unfold date_lt. lia.
Qed.

Lemma at_hour_mono (D : Z * Z * Z) (c last : datetime) :
  utcoffset c = sgt -> utcoffset last = sgt ->
  ~ date_lt D (date_of c) ->
  dt_leb (at_hour D (hour c)) last = true -> dt_leb c last = true.
Proof.
  intros Hc Hl Hge H. rewrite <- (at_hour_self c Hc).
  apply at_hour_leb; [exact Hl|]. apply at_hour_leb in H; [|exact Hl].
  destruct (date_total _ _ Hge) as [->|Hlt]; [exact H|].
  destruct H as [H|[-> H]].
  - left. exact (date_lt_trans _ _ _ Hlt H).
  - left. exact Hlt.
Qed.

Lemma plus_one_day_ok (c n : datetime) :
  stamp_ok c -> plus_one_day c = Ok n ->
  stamp_ok n /\ hour n = hour c
  /\ Calendar.next_day (year c) (month c) (day c) = Some (date_of n).
Proof.
  intros (Hv & Hh & Ho). unfold plus_one_day.
  destruct (Calendar.next_day (year c) (month c) (day c)) as [[[y m] d]|] eqn:En;
    [|discriminate].
  intros H. injection H as <-. unfold stamp_ok, date_of.
  cbn [year month day hour utcoffset].
  split; [|split; reflexivity].
  split; [exact (CalendarFacts.next_day_valid _ _ _ _ _ _ Hv En)|].
  split; assumption.
Qed.

Lemma plus_one_day_raises (c : datetime) (e : exn) :
  stamp_ok c -> plus_one_day c = Raise e ->
  e = OverflowError /\ date_of c = max_date.
Proof.
  intros (Hv & _). unfold plus_one_day.
  destruct (Calendar.next_day (year c) (month c) (day c)) as [[[y m] d]|] eqn:En;
    [discriminate|].
  intros H. injection H as <-. split; [reflexivity|].
  apply (CalendarFacts.next_day_none _ _ _ Hv) in En as (Hy & Hm & Hd).
  unfold date_of, max_date. rewrite Hy, Hm, Hd. reflexivity.
Qed.

(** The loop of [_save_csv_per_day] on an ascending frame: which files it
    writes, one per date, and how it ends. *)
Lemma per_day_loop_sorted (df : DataFrame) (last : datetime) :
  ascending df -> Forall stamp_ok (index df) -> utcoffset last = sgt ->
  forall fuel curr written r files,
    stamp_ok curr ->
    per_day_loop fuel df curr last written = Some (r, files) ->
    exists dates,
      files = written ++ map (day_file df) dates
      /\ consecutive dates
      /\ hd_error dates
         = (if dt_leb curr last then Some (date_of curr) else None)
      /\ (forall D, In D dates <->
            date_valid D = true /\ ~ date_lt D (date_of curr)
            /\ dt_leb (at_hour D (hour curr)) last = true)
      /\ ((r = Ok tt /\ ~ In max_date dates)
          \/ (r = Raise OverflowError /\ In max_date dates)).
Proof.
  intros Hs Hok Hlast.
  induction fuel as [|fuel IH]; intros curr written r files Hc Hrun;
    [discriminate|].
  cbn [per_day_loop] in Hrun.
  pose proof Hc as (Hcv & Hch & Hco).
  assert (date_valid (date_of curr) = true) as Hcd by exact Hcv.
  destruct (dt_leb curr last) eqn:Hle.
  - rewrite (day_slice df curr Hs Hok Hc) in Hrun. cbn [columns frame] in Hrun.
    change (mkcsv (date_of (replace_hour curr 0)) (columns df)
                  (file_rows (day_file df (date_of curr))))
      with (day_file df (date_of curr)) in Hrun.
    destruct (plus_one_day curr) as [next|e] eqn:Hnext.
    + destruct (plus_one_day_ok _ _ Hc Hnext) as (Hn & Hh & Hnd).
      destruct (IH next _ r files Hn Hrun)
        as (dates & Hf & Hcons & Hhd & Hin & Hr).
      pose proof (next_day_later _ _ _ _ Hcv Hnd) as Hlater.
      exists (date_of curr :: dates).
      split; [rewrite Hf, <- app_assoc; reflexivity|].
      split.
      { destruct dates as [|b rest]; [exact I|].
        split; [|exact Hcons].
        cbn [hd_error] in Hhd.
        destruct (dt_leb next last); [|discriminate].
        injection Hhd as ->. exact Hnd. }
      split; [reflexivity|].
      split.
      { intros D. split.
        - intros [<-|HD].
          + split; [exact Hcd|]. split; [apply date_lt_irrefl|].
            rewrite (at_hour_self curr Hco). exact Hle.
          + apply Hin in HD as (Hv & Hge & Hl). rewrite Hh in Hl.
            split; [exact Hv|]. split; [|exact Hl].
            intros Hlt. apply Hge.
            exact (date_lt_trans _ _ _ Hlt Hlater).
        - intros (Hv & Hge & Hl).
          destruct (date_total _ _ Hge) as [->|Hlt]; [left; reflexivity|].
          right. apply Hin. split; [exact Hv|]. rewrite Hh.
          split; [|exact Hl].
          exact (next_day_least _ _ _ _ _ Hcv Hv Hnd Hlt). }
      assert (date_of curr <> max_date) as Hnm.
      { intros Heq. unfold date_of, max_date in Heq.
        injection Heq as Hy Hm Hd.
        assert (Calendar.next_day (year curr) (month curr) (day curr) = None)
          as Hnone by (apply CalendarFacts.next_day_none; auto).
        congruence. }
      destruct Hr as [[-> Hr]|[-> Hr]].
      * left. split; [reflexivity|]. intros [H|H]; [exact (Hnm H)|exact (Hr H)].
      * right. split; [reflexivity|]. right. exact Hr.
    + destruct (plus_one_day_raises _ _ Hc Hnext) as (-> & Hmax).
      injection Hrun as <- <-.
      exists [date_of curr].
      split; [reflexivity|]. split; [exact I|]. split; [reflexivity|].
      split.
      { intros D. split.
        - intros [<-|[]].
          split; [exact Hcd|]. split; [apply date_lt_irrefl|].
          rewrite (at_hour_self curr Hco). exact Hle.
        - intros (Hv & Hge & _). left. rewrite Hmax in *.
          symmetry. exact (date_valid_max _ Hv Hge). }
      right. split; [reflexivity|]. left. exact Hmax.
  - injection Hrun as <- <-. exists [].
    split; [rewrite app_nil_r; reflexivity|].
    split; [exact I|]. split; [reflexivity|].
    split.
    { intros D. split; [intros []|]. intros (_ & Hge & Hl). exfalso.
      rewrite (at_hour_mono D curr last Hco Hlast Hge Hl) in Hle.
      discriminate. }
    left. split; [reflexivity|]. intros [].
Qed.

Lemma date_eqb_eq (a b : Z * Z * Z) : date_eqb a b = true <-> a = b.
Proof.
  destruct a as [[y1 m1] d1], b as [[y2 m2] d2]. unfold date_eqb.
  rewrite !andb_true_iff, !Z.eqb_eq. split.
  - intros [[-> ->] ->]. reflexivity.
  - intros H. injection H as -> -> ->. auto.
Qed.

Lemma date_valid_below_max (D : Z * Z * Z) :
  date_valid D = true -> ~ date_lt max_date D.
Proof.
  destruct D as [[Y M] Dd]. cbn [date_valid]. intros Hv.
  apply CalendarFacts.valid_date_spec in Hv.
  pose proof (CalendarFacts.num_days_bounds Y M).
  unfold date_lt, max_date. lia.
Qed.

Lemma date_lt_dt_ltb (a b : datetime) :
  date_lt (date_of a) (date_of b) -> dt_ltb a b = true.
Proof. unfold date_lt, date_of. rewrite dt_ltb_spec. lia. Qed.

Lemma in_day_file (df : DataFrame) (D : Z * Z * Z)
    (row : datetime * list (option string)) :
  In row (file_rows (day_file df D)) <->
  In row (frame df) /\ date_of (fst row) = D.
Proof.
  cbn [day_file file_rows]. rewrite filter_In, date_eqb_eq. tauto.
Qed.

(** [_save_csv_per_day] on a frame in ascending order, with [lo] and [hi]
    its first and last timestamps. *)
Lemma save_csv_per_day_sorted (df : DataFrame) (lo hi : datetime)
    (r : result unit) (files : list csv_file) :
  ascending df -> Forall stamp_ok (index df) ->
  index_min df = Some lo -> index_max df = Some hi ->
  _save_csv_per_day df = Some (r, files) ->
  stamp_ok lo /\ stamp_ok hi /\
  exists dates,
    files = map (day_file df) dates
    /\ consecutive dates
    /\ hd_error dates = Some (date_of lo)
    /\ (forall D, In D dates <->
          date_valid D = true /\ ~ date_lt D (date_of lo)
          /\ (date_lt D (date_of hi) \/ (D = date_of hi /\ hour lo <= hour hi)))
    /\ ((r = Ok tt /\ ~ In max_date dates)
        \/ (r = Raise OverflowError /\ In max_date dates)).
Proof.
  intros Hs Hok Hmin Hmax Hrun.
  pose proof Hok as Hall. rewrite Forall_forall in Hall.
  pose proof (Hall _ (index_min_in _ _ Hmin)) as Hlo.
  pose proof (Hall _ (index_max_in _ _ Hmax)) as Hhi.
  split; [exact Hlo|]. split; [exact Hhi|].
  pose proof Hlo as (_ & _ & Hloo). pose proof Hhi as (_ & _ & Hhio).
  unfold _save_csv_per_day in Hrun. rewrite Hmin, Hmax in Hrun.
  destruct (per_day_loop_sorted df hi Hs Hok Hhio _ _ _ _ _ Hlo Hrun)
    as (dates & Hf & Hcons & Hhd & Hin & Hr).
  exists dates. split; [exact Hf|]. split; [exact Hcons|].
  split.
  { rewrite Hhd, (dt_leb_total lo hi Hloo Hhio); [reflexivity|].
    exact (index_max_greatest _ _ Hmax _ (index_min_in _ _ Hmin)). }
  split; [|exact Hr].
  intros D. rewrite (Hin D), (at_hour_leb D (hour lo) hi Hhio). tauto.
Qed.

(** On timestamps of the years that pandas holds, the day counter never
    leaves the calendar and the function returns. *)
Lemma save_csv_per_day_returns (df : DataFrame) :
  ascending df -> Forall stamp_ok (index df) ->
  Forall timestamp_years (index df) ->
  exists files, _save_csv_per_day df = Some (Ok tt, files).
Proof.
  intros Hs Hok Hyears.
  destruct (save_csv_per_day_total df) as [[r files] Hrun].
  { apply Forall_forall. intros t Ht. rewrite Forall_forall in Hok.
    exact (proj1 (Hok t Ht)). }
  destruct (index_min df) as [lo|] eqn:Hmin;
    [destruct (index_max df) as [hi|] eqn:Hmax|].
  - destruct (save_csv_per_day_sorted df lo hi r files Hs Hok Hmin Hmax Hrun)
      as (_ & _ & dates & _ & _ & _ & Hin & Hr).
    destruct Hr as [[-> _]|[_ Hr]]; [exists files; exact Hrun|].
    exfalso. apply Hin in Hr as (_ & _ & Hr).
    rewrite Forall_forall in Hyears.
    pose proof (Hyears _ (index_max_in _ _ Hmax)) as Hy.
    unfold timestamp_years in Hy. unfold max_date, date_of, date_lt in Hr.
    destruct Hr as [Hr|[Hr _]]; [lia|]. injection Hr as Hr _ _. lia.
  - unfold _save_csv_per_day in Hrun. rewrite Hmin, Hmax in Hrun.
    injection Hrun as <- <-. exists []. unfold _save_csv_per_day.
    rewrite Hmin, Hmax. reflexivity.
  - unfold _save_csv_per_day in Hrun. rewrite Hmin in Hrun.
    exists []. unfold _save_csv_per_day. rewrite Hmin.
    destruct (index_max df); reflexivity.
Qed.

(** X20: one file per date.  On a frame whose timestamps are in strictly
    ascending order, [_save_csv_per_day] returns, no slice raising, and
    every file it writes has the columns of the frame and exactly the rows
    of the frame whose timestamp lies on the date in the file's name, in
    the order of the frame. *)
Theorem save_csv_per_day_one_file_per_date (df : DataFrame) :
  ascending df -> Forall stamp_ok (index df) ->
  Forall timestamp_years (index df) ->
  exists files,
    _save_csv_per_day df = Some (Ok tt, files)
    /\ forall f, In f files ->
         file_columns f = columns df
         /\ file_rows f
            = filter (fun row => date_eqb (date_of (fst row)) (file_date f))
                     (frame df).
Proof.
  intros Hs Hok Hyears.
  destruct (save_csv_per_day_returns df Hs Hok Hyears) as [files Hrun].
  exists files. split; [exact Hrun|].
  destruct (index_min df) as [lo|] eqn:Hmin;
    [destruct (index_max df) as [hi|] eqn:Hmax|].
  - destruct (save_csv_per_day_sorted df lo hi _ files Hs Hok Hmin Hmax Hrun)
      as (_ & _ & dates & -> & _).
    intros f Hf. apply in_map_iff in Hf as (D & <- & _).
    split; reflexivity.
  - unfold _save_csv_per_day in Hrun. rewrite Hmin, Hmax in Hrun.
    injection Hrun as <-. intros f [].
  - unfold _save_csv_per_day in Hrun. rewrite Hmin in Hrun.
    assert (files = []) as -> by (destruct (index_max df); congruence).
    intros f [].
Qed.

Lemma save_csv_per_day_one_file_per_date_witness :
  exists files,
    _save_csv_per_day Samples.two_days = Some (Ok tt, files)
    /\ forall f, In f files ->
         file_columns f = columns Samples.two_days
         /\ file_rows f
            = filter (fun row => date_eqb (date_of (fst row)) (file_date f))
                     (frame Samples.two_days).
Proof.
  apply save_csv_per_day_one_file_per_date.
  - apply increasing_ascending. vm_compute. reflexivity.
  - apply stamps_okb_spec. vm_compute. reflexivity.
  - apply timestamp_yearsb_spec. vm_compute. reflexivity.
Defined.

(** X21: which dates get a file.  On an ascending frame whose first
    timestamp is [lo] and last is [hi], the files are named after
    consecutive calendar dates, the first being the date of [lo]; a date
    has a file exactly when it is a calendar date from the date of [lo]
    on and either lies before the date of [hi], or is the date of [hi] and
    the hour of [lo] is not later than the hour of [hi].  So the date of
    the last timestamp gets no file when the first timestamp is later in
    its day than the last one is. *)
Theorem save_csv_per_day_dates (df : DataFrame) (lo hi : datetime) :
  ascending df -> Forall stamp_ok (index df) ->
  Forall timestamp_years (index df) ->
  index_min df = Some lo -> index_max df = Some hi ->
  exists files,
    _save_csv_per_day df = Some (Ok tt, files)
    /\ consecutive (map file_date files)
    /\ hd_error (map file_date files) = Some (date_of lo)
    /\ forall D,
         In D (map file_date files) <->
         date_valid D = true /\ ~ date_lt D (date_of lo)
         /\ (date_lt D (date_of hi) \/ (D = date_of hi /\ hour lo <= hour hi)).
Proof.
  intros Hs Hok Hyears Hmin Hmax.
  destruct (save_csv_per_day_returns df Hs Hok Hyears) as [files Hrun].
  exists files. split; [exact Hrun|].
  destruct (save_csv_per_day_sorted df lo hi _ files Hs Hok Hmin Hmax Hrun)
    as (_ & _ & dates & -> & Hcons & Hhd & Hin & _).
  rewrite map_map. cbn [day_file file_date]. rewrite map_id.
  split; [exact Hcons|]. split; [exact Hhd|exact Hin].
Qed.

Lemma save_csv_per_day_dates_witness :
  exists files,
    _save_csv_per_day Samples.two_days = Some (Ok tt, files)
    /\ consecutive (map file_date files)
    /\ hd_error (map file_date files) = Some (2016, 1, 1)
    /\ forall D,
         In D (map file_date files) <->
         date_valid D = true /\ ~ date_lt D (2016, 1, 1)
         /\ (date_lt D (2016, 1, 3) \/ (D = (2016, 1, 3) /\ 1 <= 0)).
Proof.
  apply (save_csv_per_day_dates Samples.two_days (mkdt 2016 1 1 1 sgt)
           (mkdt 2016 1 3 0 sgt)).
  - apply increasing_ascending. vm_compute. reflexivity.
  - apply stamps_okb_spec. vm_compute. reflexivity.
  - apply timestamp_yearsb_spec. vm_compute. reflexivity.
  - vm_compute. reflexivity.
  - vm_compute. reflexivity.
Defined.

(** What [_save_csv_per_day] does with a frame in ascending order. *)
Lemma save_csv_per_day_kept (df : DataFrame) (lo hi : datetime) :
  ascending df -> Forall stamp_ok (index df) ->
  Forall timestamp_years (index df) ->
  index_min df = Some lo -> index_max df = Some hi ->
  exists files,
    _save_csv_per_day df = Some (Ok tt, files)
    /\ forall row, In row (frame df) ->
         (forall f, In f files -> In row (file_rows f) ->
                    file_date f = date_of (fst row))
         /\ ((exists f, In f files /\ In row (file_rows f)) <->
             (date_of (fst row) <> date_of hi \/ hour lo <= hour hi)).
Proof.
  intros Hs Hok Hyears Hmin Hmax.
  destruct (save_csv_per_day_returns df Hs Hok Hyears) as [files Hrun].
  exists files. split; [exact Hrun|]. intros row Hrow.
  destruct (save_csv_per_day_sorted df lo hi _ files Hs Hok Hmin Hmax Hrun)
    as (_ & _ & dates & -> & _ & _ & Hin & _).
  assert (In (fst row) (index df)) as Ht
    by (unfold index; apply in_map; exact Hrow).
  rewrite Forall_forall in Hok. pose proof (Hok _ Ht) as (Hv & _).
  assert (~ date_lt (date_of (fst row)) (date_of lo)) as Hge.
  { intros H. apply date_lt_dt_ltb in H.
    rewrite (index_min_least _ _ Hmin _ Ht) in H. discriminate. }
  assert (~ date_lt (date_of hi) (date_of (fst row))) as Hle.
  { intros H. apply date_lt_dt_ltb in H.
    rewrite (index_max_greatest _ _ Hmax _ Ht) in H. discriminate. }
  split.
  - intros f Hf Hr. apply in_map_iff in Hf as (D & <- & _).
    apply in_day_file in Hr as [_ Hr]. cbn [day_file file_date]. auto.
  - split.
    + intros (f & Hf & Hr). apply in_map_iff in Hf as (D & <- & HD).
      apply in_day_file in Hr as [_ <-].
      apply Hin in HD as (_ & _ & [H|[H Hh]]); [left|right; exact Hh].
      intros Heq. rewrite Heq in H. exact (date_lt_irrefl _ H).
    + intros H. exists (day_file df (date_of (fst row))).
      split; [|apply in_day_file; auto].
      apply in_map. apply Hin. split; [exact Hv|]. split; [exact Hge|].
      destruct (date_total _ _ Hle) as [Heq|Hlt]; [|left; exact Hlt].
      destruct H as [H|H]; [congruence|]. right. auto.
Qed.

(** X22: which rows reach a file.  On an ascending frame whose first
    timestamp is [lo] and last is [hi], a row is written to at most one
    file, the one named after the date of its timestamp, and it is written
    at all exactly when its date is not the date of [hi], or the hour of
    [lo] is not later than the hour of [hi]: the rows left out are those of
    the last date, when the first timestamp is later in its day than the
    last one. *)
Theorem save_csv_per_day_rows (df : DataFrame) (lo hi : datetime) :
  ascending df -> Forall stamp_ok (index df) ->
  Forall timestamp_years (index df) ->
  index_min df = Some lo -> index_max df = Some hi ->
  exists files,
    _save_csv_per_day df = Some (Ok tt, files)
    /\ forall row, In row (frame df) ->
         (forall f, In f files -> In row (file_rows f) ->
                    file_date f = date_of (fst row))
         /\ ((exists f, In f files /\ In row (file_rows f)) <->
             (date_of (fst row) <> date_of hi \/ hour lo <= hour hi)).
Proof. apply save_csv_per_day_kept. Qed.

Lemma save_csv_per_day_rows_witness :
  exists files,
    _save_csv_per_day Samples.two_days = Some (Ok tt, files)
    /\ forall row, In row (frame Samples.two_days) ->
         (forall f, In f files -> In row (file_rows f) ->
                    file_date f = date_of (fst row))
         /\ ((exists f, In f files /\ In row (file_rows f)) <->
             (date_of (fst row) <> (2016, 1, 3) \/ 1 <= 0)).
Proof.
  apply (save_csv_per_day_rows Samples.two_days (mkdt 2016 1 1 1 sgt)
           (mkdt 2016 1 3 0 sgt)).
  - apply increasing_ascending. vm_compute. reflexivity.
  - apply stamps_okb_spec. vm_compute. reflexivity.
  - apply timestamp_yearsb_spec. vm_compute. reflexivity.
  - vm_compute. reflexivity.
  - vm_compute. reflexivity.
Defined.

Lemma get_loc_none (label : datetime) (idx : list datetime) :
  ~ In label idx -> get_loc label idx = None.
Proof.
  intros H. destruct (get_loc label idx) as [i|] eqn:E; [|reflexivity].
  elim H. exact (get_loc_in _ _ _ E).
Qed.

(** X23: a frame out of order.  When the index is neither ascending nor
    descending and has no entry at 00:00 of the date of its smallest
    timestamp, or none at 23:00 of that date, the first slice raises
    KeyError: [_save_csv_per_day] ends there and has written no file.  The
    call of [sort_index] before the loop does not change the frame. *)
Theorem save_csv_per_day_unsorted (df : DataFrame) (lo : datetime) :
  Forall stamp_ok (index df) ->
  index_min df = Some lo ->
  is_monotonic_increasing (index df) = false ->
  is_monotonic_decreasing (index df) = false ->
  ~ In (replace_hour lo 0) (index df) \/ ~ In (replace_hour lo 23) (index df) ->
  _save_csv_per_day df = Some (Raise KeyError, []).
Proof.
  intros Hok Hmin Hinc Hdec Hmiss.
  rewrite Forall_forall in Hok.
  pose proof (index_min_in _ _ Hmin) as Hlo_in.
  destruct (index_max df) as [hi|] eqn:Hmax.
  2:{ unfold index_max in Hmax. destruct (index df); [destruct Hlo_in|discriminate]. }
  pose proof (Hok _ Hlo_in) as (_ & _ & Hloo).
  pose proof (Hok _ (index_max_in _ _ Hmax)) as (_ & _ & Hhio).
  unfold _save_csv_per_day. rewrite Hmin, Hmax. cbn [per_day_loop].
  rewrite (dt_leb_total lo hi Hloo Hhio (index_max_greatest _ _ Hmax _ Hlo_in)).
  assert (forall label s, ~ In label (index df) ->
            get_slice_bound (index df) label s = Raise KeyError) as Hbound.
  { intros label s Hl. unfold get_slice_bound, searchsorted_monotonic.
    rewrite (get_loc_none _ _ Hl), Hinc, Hdec. reflexivity. }
  unfold getitem_slice.
  destruct Hmiss as [Hl|Hr].
  - rewrite (Hbound _ Left Hl). reflexivity.
  - rewrite (Hbound _ Right Hr).
    destruct (get_slice_bound (index df) (replace_hour lo 0) Left) as [i|e] eqn:E;
      [reflexivity|].
    unfold get_slice_bound, searchsorted_monotonic in E.
    rewrite Hinc, Hdec in E.
    destruct (get_loc (replace_hour lo 0) (index df)); [discriminate|].
    injection E as <-. reflexivity.
Qed.

Lemma save_csv_per_day_unsorted_witness :
  _save_csv_per_day Samples.shuffled = Some (Raise KeyError, []).
Proof.
  apply (save_csv_per_day_unsorted Samples.shuffled (mkdt 2016 1 1 1 sgt)).
  - apply stamps_okb_spec. vm_compute. reflexivity.
  - vm_compute. reflexivity.
  - vm_compute. reflexivity.
  - vm_compute. reflexivity.
  - left. cbn. intros [H|[H|[H|[]]]]; discriminate H.
Defined.

(* ===================================================================== *)
(** ** From the download to the export *)

Section ODictAppend.
Context {K V : Type}.
Variable eqb : K -> K -> bool.

(** Setting a key that the dict does not hold appends it. *)
Lemma odict_set_new (k : K) (v : V) (d : list (K * V)) :
  (forall k', In k' (odict_keys d) -> eqb k k' = false) ->
  odict_set eqb k v d = d ++ [(k, v)].
Proof.
  induction d as [|[k' v'] d IH]; intros H; [reflexivity|].
  cbn [odict_set app]. rewrite (H k') by (left; reflexivity).
  f_equal. apply IH. intros k1 Hk1. apply H. right. exact Hk1.
Qed.

End ODictAppend.

Lemma dt_ltb_neq (a b : datetime) : dt_ltb a b = true -> dt_eqb b a = false.
Proof.
  intros H. destruct (dt_eqb b a) eqn:E; [|reflexivity].
  apply dt_eqb_eq in E. subst. rewrite dt_ltb_irrefl in H. discriminate.
Qed.

Lemma odict_keys_app {K V} (d1 d2 : list (K * V)) :
  odict_keys (d1 ++ d2) = odict_keys d1 ++ odict_keys d2.
Proof. unfold odict_keys. apply map_app. Qed.

(** Rows whose timestamps are in ascending order and above every key of
    the table go to its end, in their order. *)
Lemma insert_rows_append (date : Z * Z * Z) (data : list (string * row)) :
  forall tbl,
    StronglySorted (fun a b => dt_ltb a b = true) (stamps_of date data) ->
    (forall k t, In k (odict_keys tbl) -> In t (stamps_of date data) ->
                 dt_ltb k t = true) ->
    odict_keys (insert_rows date data tbl)
    = odict_keys tbl ++ stamps_of date data.
Proof.
  destruct date as [[y m] d]. unfold insert_rows, stamps_of, timestamp_of.
  cbn [fst snd].
  induction data as [|[label r] data IH]; intros tbl Hs Hlt.
  - cbn. rewrite app_nil_r. reflexivity.
  - cbn [flat_map fold_left fst snd] in *.
    destruct (_to_datetime y m d label) as [ts|e] eqn:E.
    + cbn [app] in Hs, Hlt. inversion Hs as [|? ? Hs' Hts]; subst.
      rewrite Forall_forall in Hts.
      rewrite (odict_set_new dt_eqb ts r tbl).
      2:{ intros k Hk. apply dt_ltb_neq. apply Hlt; [exact Hk|left; reflexivity]. }
      rewrite IH; [|exact Hs'|].
      * rewrite odict_keys_app, <- app_assoc. reflexivity.
      * intros k t Hk Ht. rewrite odict_keys_app in Hk.
        apply in_app_or in Hk as [Hk|[<-|[]]].
        -- apply Hlt; [exact Hk|right; exact Ht].
        -- apply Hts. exact Ht.
    + cbn [app] in Hs, Hlt. apply IH; assumption.
Qed.

Lemma in_stamps_of (date : Z * Z * Z) (data : list (string * row))
    (t : datetime) :
  In t (stamps_of date data) ->
  exists label, timestamp_of date label = Ok t.
Proof.
  unfold stamps_of. rewrite in_flat_map. intros ([label r] & _ & H).
  cbn [fst] in H. exists label.
  destruct (timestamp_of date label) as [ts|e]; [|destruct H].
  destruct H as [<-|[]]. reflexivity.
Qed.

(** The timestamps of an earlier day's page are all before those of a
    later day's page. *)
Lemma timestamps_by_day (D1 D2 : Z * Z * Z) (l1 l2 : string)
    (t1 t2 : datetime) :
  date_lt D1 D2 ->
  timestamp_of D1 l1 = Ok t1 -> timestamp_of D2 l2 = Ok t2 ->
  dt_ltb t1 t2 = true.
Proof.
  destruct D1 as [[y1 m1] d1], D2 as [[y2 m2] d2]. unfold timestamp_of.
  cbn [fst snd]. intros Hlt H1 H2.
  pose proof (to_datetime_source _ _ _ _ _ H1) as (_ & _ & Hv1).
  pose proof (to_datetime_source _ _ _ _ _ H2) as (_ & _ & Hv2).
  apply to_datetime_window in H1 as (_ & _ & _ & W1).
  apply to_datetime_window in H2 as (_ & Hh2 & _ & W2).
  assert (date_lt (y1, m1, d1) (date_of t2)) as Hlt2.
  { destruct W2 as [[-> _]|[Hn _]]; [exact Hlt|].
    exact (date_lt_trans _ _ _ Hlt (next_day_later _ _ _ _ Hv2 Hn)). }
  destruct W1 as [[H1 _]|[Hn1 Hh1]].
  - apply date_lt_dt_ltb. rewrite H1. exact Hlt2.
  - pose proof (next_day_least _ _ _ _ (y2, m2, d2) Hv1 Hv2 Hn1 Hlt) as Hge.
    destruct W2 as [[Hd2 Hh]|[Hn2 _]].
    + destruct (date_total _ _ Hge) as [Heq|Hlt'].
      * apply dt_ltb_spec. unfold date_of in Heq, Hd2.
        injection Heq as E1 E2 E3. injection Hd2 as F1 F2 F3. lia.
      * apply date_lt_dt_ltb. rewrite Hd2. exact Hlt'.
    + apply date_lt_dt_ltb.
      pose proof (next_day_later _ _ _ _ Hv2 Hn2) as Hl2.
      destruct (date_total _ _ Hge) as [<-|Hlt']; [exact Hl2|].
      exact (date_lt_trans _ _ _ Hlt' Hl2).
Qed.

Section ClockOrder.
Variable requests_get : Z -> Z -> Z -> response.

Lemma day_stamps_by_day (D1 D2 : Z * Z * Z) (t1 t2 : datetime) :
  date_lt D1 D2 ->
  In t1 (day_stamps requests_get D1) -> In t2 (day_stamps requests_get D2) ->
  dt_ltb t1 t2 = true.
Proof.
  unfold day_stamps. intros Hlt H1 H2.
  destruct (day_data requests_get D1) as [data1|]; [|destruct H1].
  destruct (day_data requests_get D2) as [data2|]; [|destruct H2].
  apply in_stamps_of in H1 as [l1 H1]. apply in_stamps_of in H2 as [l2 H2].
  exact (timestamps_by_day _ _ _ _ _ _ Hlt H1 H2).
Qed.

(** The keys of the table after days in ascending order whose pages are in
    the order of the clock: the timestamps of the days, one after the
    other. *)
Lemma table_of_keys (dates : list (Z * Z * Z)) :
  forall tbl,
    StronglySorted date_lt dates ->
    Forall (in_clock_order requests_get) dates ->
    (forall k D t, In k (odict_keys tbl) -> In D dates ->
                   In t (day_stamps requests_get D) -> dt_ltb k t = true) ->
    odict_keys (table_of requests_get dates tbl)
    = odict_keys tbl ++ flat_map (day_stamps requests_get) dates.
Proof.
  induction dates as [|D dates IH]; intros tbl Hs Hco Hlt.
  - cbn. rewrite app_nil_r. reflexivity.
  - inversion Hs as [|? ? Hs' HD]; subst. rewrite Forall_forall in HD.
    apply Forall_cons_iff in Hco as [HcoD Hco].
    change (table_of requests_get (D :: dates) tbl)
      with (table_of requests_get dates
              (match day_data requests_get D with
               | Some data => insert_rows D data tbl
               | None => tbl
               end)).
    cbn [flat_map].
    assert (odict_keys (match day_data requests_get D with
                        | Some data => insert_rows D data tbl
                        | None => tbl
                        end)
            = odict_keys tbl ++ day_stamps requests_get D) as Hk.
    { unfold in_clock_order in HcoD.
      pose proof (fun k t Hk => Hlt k D t Hk (or_introl eq_refl)) as HltD.
      unfold day_stamps in *.
      destruct (day_data requests_get D) as [data|].
      - apply insert_rows_append; assumption.
      - rewrite app_nil_r. reflexivity. }
    rewrite IH; [|exact Hs'|exact Hco|].
    + rewrite Hk, <- app_assoc. reflexivity.
    + intros k D' t Hin HD' Ht. rewrite Hk in Hin.
      apply in_app_or in Hin as [Hin|Hin].
      * apply (Hlt k D' t Hin); [right; exact HD'|exact Ht].
      * exact (day_stamps_by_day D D' k t (HD D' HD') Hin Ht).
Qed.

Lemma day_stamps_sorted (dates : list (Z * Z * Z)) :
  StronglySorted date_lt dates ->
  Forall (in_clock_order requests_get) dates ->
  StronglySorted (fun a b => dt_ltb a b = true)
                 (flat_map (day_stamps requests_get) dates).
Proof.
  induction 1 as [|D dates Hs IH HD]; intros Hco; [constructor|].
  apply Forall_cons_iff in Hco as [HcoD Hco]. cbn [flat_map].
  apply sorted_app; [exact HcoD|exact (IH Hco)|].
  intros a b Ha Hb. apply in_flat_map in Hb as (D' & HD' & Hb).
  rewrite Forall_forall in HD.
  exact (day_stamps_by_day D D' a b (HD D' HD') Ha Hb).
Qed.

End ClockOrder.

(** The table of a run whose pages are in the order of the clock. *)
Lemma download_df_sorted_index
    (requests_get : Z -> Z -> Z -> response) (today_year : Z)
    (year_start : Z) (year_end : option Z)
    (month_start month_end day_start : Z) (day_end : option Z)
    (verbose : bool) :
  1 <= month_start -> month_end <= 12 ->
  let days := visited year_start (year_end_or_today today_year year_end)
                      month_start month_end day_start day_end in
  Forall (day_recovers requests_get) days ->
  Forall (in_clock_order requests_get) days ->
  exists df st,
    _download_df requests_get today_year year_start year_end month_start
                 month_end day_start day_end verbose initial_state
    = (Ok df, st)
    /\ index df = flat_map (day_stamps requests_get) days
    /\ ascending df.
Proof.
  intros Hms Hme days Hall Hco.
  destruct (download_df_collects requests_get today_year year_start year_end
              month_start month_end day_start day_end verbose Hms Hme Hall)
    as (st & Hrun & _ & _).
  fold days in Hrun.
  eexists. exists st. split; [exact Hrun|].
  assert (index (table_frame (headers_of requests_get days [])
                             (table_of requests_get days []))
          = flat_map (day_stamps requests_get) days) as Hidx.
  { rewrite index_table_frame.
    rewrite (table_of_keys requests_get days []); [reflexivity| |exact Hco|].
    - apply visited_ascending.
    - intros k D t []. }
  split; [exact Hidx|].
  unfold ascending. rewrite Hidx.
  apply day_stamps_sorted; [apply visited_ascending|exact Hco].
Qed.

(** The timestamps of the pages of a range of years lie in those years or
    at the first midnight after them. *)
Lemma day_stamps_years (requests_get : Z -> Z -> Z -> response)
    (ys ye ms me ds : Z) (de : option Z) (t : datetime) :
  In t (flat_map (day_stamps requests_get) (visited ys ye ms me ds de)) ->
  stamp_ok t /\ ys <= year t <= ye + 1.
Proof.
  intros H. apply in_flat_map in H as ([[y m] d] & HD & H).
  apply in_visited in HD as (Hy & _).
  unfold day_stamps in H.
  destruct (day_data requests_get (y, m, d)) as [data|]; [|destruct H].
  apply in_stamps_of in H as [label H]. unfold timestamp_of in H.
  cbn [fst snd] in H.
  split; [exact (to_datetime_stamp_ok _ _ _ _ _ H)|].
  pose proof (to_datetime_source _ _ _ _ _ H) as (_ & _ & Hv).
  apply to_datetime_window in H as (_ & _ & _ & [[Hd _]|[Hn _]]).
  - unfold date_of in Hd. injection Hd as -> _ _. lia.
  - apply CalendarFacts.valid_date_spec in Hv.
    unfold Calendar.next_day, date_of in Hn.
    destruct (d <? Calendar.num_days y m); [injection Hn as <- _ _; lia|].
    destruct (m <? 12); [injection Hn as <- _ _; lia|].
    destruct (y <? Calendar.MAXYEAR); [injection Hn as <- _ _; lia|discriminate].
Qed.

(** X24: a download in the order of the clock is in ascending order.  In
    a run in which every day of the range succeeds or has its request
    fail, and every page lists its hours in the order of the clock,
    [_download_df] returns a table whose index is the timestamps of the
    days' pages, day after day in the order of the requests, and it is
    strictly ascending: the table needs no sorting before it is sliced by
    day. *)
Theorem download_df_ascending
    (requests_get : Z -> Z -> Z -> response) (today_year : Z)
    (year_start : Z) (year_end : option Z)
    (month_start month_end day_start : Z) (day_end : option Z)
    (verbose : bool) :
  1 <= month_start -> month_end <= 12 ->
  let days := visited year_start (year_end_or_today today_year year_end)
                      month_start month_end day_start day_end in
  Forall (day_recovers requests_get) days ->
  Forall (in_clock_order requests_get) days ->
  exists df st,
    _download_df requests_get today_year year_start year_end month_start
                 month_end day_start day_end verbose initial_state
    = (Ok df, st)
    /\ index df = flat_map (day_stamps requests_get) days
    /\ ascending df.
Proof. apply download_df_sorted_index. Qed.

Lemma download_df_ascending_witness :
  exists df st,
    _download_df Samples.steady_site 2016 2016 (Some 2016) 1 1 1 (Some 2)
                 false initial_state = (Ok df, st)
    /\ index df
       = flat_map (day_stamps Samples.steady_site) [(2016, 1, 1); (2016, 1, 2)]
    /\ ascending df.
Proof.
  apply (download_df_ascending Samples.steady_site 2016 2016 (Some 2016)
           1 1 1 (Some 2) false ltac:(lia) ltac:(lia)).
  - constructor; [left; vm_compute; reflexivity|].
    constructor; [left; vm_compute; reflexivity|constructor].
  - constructor; [apply increasing_sorted; vm_compute; reflexivity|].
    constructor; [apply increasing_sorted; vm_compute; reflexivity|constructor].
Defined.

(** X25: the download followed by the export per day, as [main] runs them
    for the save option 3.  For a range of the years 1678 to 2260 in
    which every day succeeds or has its request fail and every page lists
    its hours in the order of the clock, [_download_df] returns a table
    and [_save_csv_per_day] returns on it; a row of the table is written,
    to the file of its date, unless it lies on the date of the last
    timestamp while the first timestamp is later in its day than the last
    one.  With pages that run from 1am to 12am the last row of the table,
    the 12am of the last day, is therefore in no file. *)
Theorem download_then_save_csv_per_day
    (requests_get : Z -> Z -> Z -> response) (today_year : Z)
    (year_start : Z) (year_end : option Z)
    (month_start month_end day_start : Z) (day_end : option Z)
    (verbose : bool) :
  1 <= month_start -> month_end <= 12 ->
  1678 <= year_start -> year_end_or_today today_year year_end <= 2260 ->
  let days := visited year_start (year_end_or_today today_year year_end)
                      month_start month_end day_start day_end in
  Forall (day_recovers requests_get) days ->
  Forall (in_clock_order requests_get) days ->
  exists df st files,
    _download_df requests_get today_year year_start year_end month_start
                 month_end day_start day_end verbose initial_state
    = (Ok df, st)
    /\ _save_csv_per_day df = Some (Ok tt, files)
    /\ forall lo hi row,
         index_min df = Some lo -> index_max df = Some hi ->
         In row (frame df) ->
         (forall f, In f files -> In row (file_rows f) ->
                    file_date f = date_of (fst row))
         /\ ((exists f, In f files /\ In row (file_rows f)) <->
             (date_of (fst row) <> date_of hi \/ hour lo <= hour hi)).
Proof.
  intros Hms Hme Hys Hye days Hall Hco.
  destruct (download_df_sorted_index requests_get today_year year_start
              year_end month_start month_end day_start day_end verbose
              Hms Hme Hall Hco) as (df & st & Hrun & Hidx & Hasc).
  fold days in Hidx.
  assert (Forall stamp_ok (index df)) as Hok.
  { apply Forall_forall. intros t Ht. rewrite Hidx in Ht.
    exact (proj1 (day_stamps_years _ _ _ _ _ _ _ _ Ht)). }
  assert (Forall timestamp_years (index df)) as Hyears.
  { apply Forall_forall. intros t Ht. rewrite Hidx in Ht.
    apply day_stamps_years in Ht as [_ Ht]. unfold timestamp_years. lia. }
  destruct (save_csv_per_day_returns df Hasc Hok Hyears) as [files Hsave].
  exists df, st, files. split; [exact Hrun|]. split; [exact Hsave|].
  intros lo hi row Hmin Hmax Hrow.
  destruct (save_csv_per_day_kept df lo hi Hasc Hok Hyears Hmin Hmax)
    as (files' & Hsave' & Hrows).
  assert (files' = files) as -> by congruence.
  exact (Hrows row Hrow).
Qed.

Lemma download_then_save_csv_per_day_witness :
  exists df st files,
    _download_df Samples.steady_site 2016 2016 (Some 2016) 1 1 1 (Some 2)
                 false initial_state = (Ok df, st)
    /\ _save_csv_per_day df = Some (Ok tt, files)
    /\ forall lo hi row,
         index_min df = Some lo -> index_max df = Some hi ->
         In row (frame df) ->
         (forall f, In f files -> In row (file_rows f) ->
                    file_date f = date_of (fst row))
         /\ ((exists f, In f files /\ In row (file_rows f)) <->
             (date_of (fst row) <> date_of hi \/ hour lo <= hour hi)).
Proof.
  apply (download_then_save_csv_per_day Samples.steady_site 2016 2016
           (Some 2016) 1 1 1 (Some 2) false
           ltac:(lia) ltac:(lia) ltac:(lia) ltac:(cbn; lia)).
  - constructor; [left; vm_compute; reflexivity|].
    constructor; [left; vm_compute; reflexivity|constructor].
  - constructor; [apply increasing_sorted; vm_compute; reflexivity|].
    constructor; [apply increasing_sorted; vm_compute; reflexivity|constructor].
Defined.
